(** * Brand Standards Analyzer (hotel-qa-app): the submit pipeline of [main.py]

    A shallow embedding of the parts of [main.py] that decide what a click on
    Submit does: the code-fence cleaner [_clean_model_json], the prompt
    builder of [call_gemini_api], the PDF extractor [extract_from_pdf] and the
    Submit handler with its cache of the extracted document keyed by SHA-256.

    Python values are modelled as they are at run time: a [str] is a sequence
    of Unicode code points, [bytes] a sequence of octets, a parsed JSON
    document a [pyvalue].  The library functions the handler relies on
    ([str.strip], [str.split], [str.rsplit], [in], [json.loads],
    [json.dumps], [hashlib.sha256]) are modelled from their documented
    behaviour so that every definition below can be evaluated. *)

From Stdlib Require Import List ZArith NArith Bool Ascii String Lia.
Import ListNotations.

Set Warnings "-register-all".

#[local] Open Scope list_scope.

(* ================================================================== *)
(** * Text: Python [str] as a list of code points                      *)
(* ================================================================== *)

Module Text.

(** A Python [str]: the sequence of its Unicode code points. *)
Definition str := list N.

(** An ASCII literal of the source as a [str]. *)
Definition py (x : string) : str :=
  map N_of_ascii (list_ascii_of_string x).

Arguments py : simpl never.

(** The characters the source writes with an escape. *)
Definition nl : str := [10%N].
Definition dq : str := [34%N].

Definition str_eqb (a b : str) : bool :=
  if list_eq_dec N.eq_dec a b then true else false.

(** [str.isspace] for one code point: the characters [str.strip] removes. *)
Definition isspace (c : N) : bool :=
  ((9 <=? c) && (c <=? 13) || (28 <=? c) && (c <=? 32)
   || (c =? 133) || (c =? 160) || (c =? 5760)
   || (8192 <=? c) && (c <=? 8202)
   || (c =? 8232) || (c =? 8233) || (c =? 8239) || (c =? 8287)
   || (c =? 12288))%N.

Fixpoint lstrip (s : str) : str :=
  match s with
  | c :: r => if isspace c then lstrip r else s
  | [] => []
  end.

Definition rstrip (s : str) : str := rev (lstrip (rev s)).

(** [s.strip()] *)
Definition strip (s : str) : str := rstrip (lstrip s).

(** [s.startswith(p)]: on success the rest of [s] after [p]. *)
Fixpoint strip_prefix (p s : str) : option str :=
  match p, s with
  | [], _ => Some s
  | a :: p', b :: s' => if (a =? b)%N then strip_prefix p' s' else None
  | _ :: _, [] => None
  end.

(** [s.split(sep, 1)] when [sep] occurs: the text before and the text after
    the first occurrence of [sep]; [None] when [sep] does not occur (Python
    then returns the one-element list [[s]]). *)
Fixpoint split1 (sep s : str) : option (str * str) :=
  match strip_prefix sep s with
  | Some rest => Some ([], rest)
  | None =>
      match s with
      | [] => None
      | c :: r =>
          match split1 sep r with
          | Some (a, b) => Some (c :: a, b)
          | None => None
          end
      end
  end.

(** [s.rsplit(sep, 1)] when [sep] occurs: the text before and after the last
    occurrence of [sep]. *)
Definition rsplit1 (sep s : str) : option (str * str) :=
  match split1 (rev sep) (rev s) with
  | Some (a, b) => Some (rev b, rev a)
  | None => None
  end.

(** [sep in s] *)
Definition contains (sep s : str) : bool :=
  match split1 sep s with Some _ => true | None => false end.

(** [s.split(sep, 1)[1]]; an [IndexError] when [sep] does not occur. *)
Definition split1_item1 (sep s : str) : option str :=
  option_map snd (split1 sep s).

(** [s.rsplit(sep, 1)[0]]: the whole of [s] when [sep] does not occur. *)
Definition rsplit1_item0 (sep s : str) : str :=
  match rsplit1 sep s with
  | Some (a, _) => a
  | None => s
  end.

End Text.

Import Text.

(* ================================================================== *)
(** * The code-fence cleaner                                            *)
(* ================================================================== *)

Module Fence.

Definition fence : str := py "```".
Definition fence_json : str := py "```json".

(** The body of either [try] block for the opening marker [opening]:
    [text.split(opening, 1)[1].rsplit("```", 1)[0].strip()].  [None] stands
    for the exception that [except Exception: pass] swallows. *)
Definition try_between (opening text : str) : option str :=
  match split1_item1 opening text with
  | Some after => Some (strip (rsplit1_item0 fence after))
  | None => None
  end.

(** [_clean_model_json] (main.py, 247-259). *)
Definition _clean_model_json (text : str) : str :=
  match (if contains fence_json text then try_between fence_json text else None) with
  | Some r => r
  | None =>
      match (if contains fence text then try_between fence text else None) with
      | Some r => r
      | None => strip text
      end
  end.

End Fence.

Import Fence.

(* ================================================================== *)
(** * Python values produced by [json.loads]                            *)
(* ================================================================== *)

Module Py.

(** A [float] read from a JSON number is kept as the decimal it was written
    as, [(-1)^neg * mant * 10^exp]; the interpreter holds the binary64
    nearest to it.  Whether that binary64 is zero or infinite is decided
    below from the decimal, exactly. *)
Inductive pyfloat : Type :=
  | FNaN
  | FInf (neg : bool)
  | FDec (neg : bool) (mant : N) (exp : Z).

Inductive pyvalue : Type :=
  | PyNone
  | PyBool (b : bool)
  | PyInt (z : Z)
  | PyFloat (f : pyfloat)
  | PyStr (s : str)
  | PyList (l : list pyvalue)
  | PyDict (d : list (str * pyvalue)).

(** The decimal rounds to [0.0]: it is at most half the least subnormal,
    [2^-1075] (the tie rounds to even, which is zero). *)
Definition float_is_zero (f : pyfloat) : bool :=
  match f with
  | FNaN | FInf _ => false
  | FDec _ m e =>
      if (m =? 0)%N then true
      else if (0 <=? e)%Z then false
      else (m * 2 ^ 1075 <=? 10 ^ Z.to_N (- e))%N
  end.

(** The decimal rounds to an infinity: it is at least [2^1024 - 2^970]. *)
Definition float_overflows (f : pyfloat) : bool :=
  match f with
  | FNaN => false
  | FInf _ => true
  | FDec _ m e =>
      if (0 <=? e)%Z then (2 ^ 1024 - 2 ^ 970 <=? m * 10 ^ Z.to_N e)%N
      else ((2 ^ 1024 - 2 ^ 970) * 10 ^ Z.to_N (- e) <=? m)%N
  end.

Definition float_neg (f : pyfloat) : bool :=
  match f with
  | FNaN => false
  | FInf n | FDec n _ _ => n
  end.

(** [bool(v)]: the truth value Python's [if v] and [not v] test. *)
Definition truthy (v : pyvalue) : bool :=
  match v with
  | PyNone => false
  | PyBool b => b
  | PyInt z => negb (z =? 0)%Z
  | PyFloat f => negb (float_is_zero f)
  | PyStr s => match s with [] => false | _ => true end
  | PyList l => match l with [] => false | _ => true end
  | PyDict d => match d with [] => false | _ => true end
  end.

(** [v == False] *)
Definition eq_False (v : pyvalue) : bool :=
  match v with
  | PyBool b => negb b
  | PyInt z => (z =? 0)%Z
  | PyFloat f => float_is_zero f
  | _ => false
  end.

(** [isinstance(v, (dict, list))] *)
Definition is_dict_or_list (v : pyvalue) : bool :=
  match v with
  | PyList _ | PyDict _ => true
  | _ => false
  end.

(** A [dict] keeps its keys in insertion order. *)
Definition dict := list (str * pyvalue).

(** [d.get(key)] *)
Fixpoint dict_lookup (d : dict) (key : str) : option pyvalue :=
  match d with
  | [] => None
  | (k, v) :: r => if str_eqb k key then Some v else dict_lookup r key
  end.

(** [d.get(key, default)] *)
Definition dict_get (d : dict) (key : str) (default : pyvalue) : pyvalue :=
  match dict_lookup d key with
  | Some v => v
  | None => default
  end.

(** [d[key] = v]: an existing key keeps its place and takes the new value. *)
Fixpoint dict_set (d : dict) (key : str) (v : pyvalue) : dict :=
  match d with
  | [] => [(key, v)]
  | (k, w) :: r =>
      if str_eqb k key then (k, v) :: r else (k, w) :: dict_set r key v
  end.

Definition dict_of_pairs (pairs : list (str * pyvalue)) : dict :=
  fold_left (fun d kv => dict_set d (fst kv) (snd kv)) pairs [].

(** Decimal digits of a natural number, most significant first. *)
Fixpoint uint_digits (u : Decimal.uint) : str :=
  match u with
  | Decimal.Nil => []
  | Decimal.D0 r => 48%N :: uint_digits r
  | Decimal.D1 r => 49%N :: uint_digits r
  | Decimal.D2 r => 50%N :: uint_digits r
  | Decimal.D3 r => 51%N :: uint_digits r
  | Decimal.D4 r => 52%N :: uint_digits r
  | Decimal.D5 r => 53%N :: uint_digits r
  | Decimal.D6 r => 54%N :: uint_digits r
  | Decimal.D7 r => 55%N :: uint_digits r
  | Decimal.D8 r => 56%N :: uint_digits r
  | Decimal.D9 r => 57%N :: uint_digits r
  end.

Definition N_to_decimal (n : N) : str := uint_digits (N.to_uint n).

(** [str(z)] for an [int] *)
Definition Z_to_decimal (z : Z) : str :=
  match z with
  | Zneg p => 45%N :: N_to_decimal (Npos p)
  | _ => N_to_decimal (Z.to_N z)
  end.

End Py.

Import Py.

(* ================================================================== *)
(** * [json.loads] and [json.dumps]                                     *)
(* ================================================================== *)

Module Json.

Definition ch (a : ascii) : N := N_of_ascii a.

(** The quotation mark and the reverse solidus. *)
Definition QUOTE : N := 34%N.
Definition BACKSLASH : N := 92%N.

(** JSON whitespace: space, tab, line feed, carriage return. *)
Definition is_ws (c : N) : bool :=
  ((c =? 32) || (c =? 9) || (c =? 10) || (c =? 13))%N.

Fixpoint skip_ws (s : str) : str :=
  match s with
  | c :: r => if is_ws c then skip_ws r else s
  | [] => []
  end.

Definition is_digit (c : N) : bool := ((48 <=? c) && (c <=? 57))%N.

Definition hexval (c : N) : option N :=
  (if (48 <=? c) && (c <=? 57) then Some (c - 48)
   else if (97 <=? c) && (c <=? 102) then Some (c - 87)
   else if (65 <=? c) && (c <=? 70) then Some (c - 55)
   else None)%N.

Definition is_high_surrogate (c : N) : bool := ((55296 <=? c) && (c <=? 56319))%N.
Definition is_low_surrogate (c : N) : bool := ((56320 <=? c) && (c <=? 57343))%N.
Definition join_surrogates (hi lo : N) : N :=
  (65536 + (hi - 55296) * 1024 + (lo - 56320))%N.

(** The single-character escapes of a JSON string. *)
Definition simple_escape (c : N) : option N :=
  (if c =? QUOTE then Some QUOTE
   else if c =? BACKSLASH then Some BACKSLASH
   else if c =? ch "/" then Some (ch "/")
   else if c =? ch "b" then Some 8
   else if c =? ch "f" then Some 12
   else if c =? ch "n" then Some 10
   else if c =? ch "r" then Some 13
   else if c =? ch "t" then Some 9
   else None)%N.

(** Where the string scanner is: in plain text, just after a backslash, or
    inside the four hexadecimal digits of a [\u] escape. *)
Inductive scan_state : Type :=
  | InText
  | AfterBackslash
  | InHex (remaining : nat) (value : N).

(** An escaped high surrogate waits in [pending] for an escaped low
    surrogate directly after it; anything else releases it unpaired. *)
Definition release (pending : option N) (acc : list N) : list N :=
  match pending with
  | Some hi => hi :: acc
  | None => acc
  end.

(** [scanstring] (strict): the text after the opening quotation mark up to
    the closing one, decoded, and what follows it.  [acc] is reversed. *)
Fixpoint scanstring (s : str) (st : scan_state) (pending : option N)
    (acc : list N) : option (str * str) :=
  match s with
  | [] => None
  | c :: r =>
      match st with
      | InText =>
          if (c =? QUOTE)%N then Some (rev (release pending acc), r)
          else if (c =? BACKSLASH)%N then scanstring r AfterBackslash pending acc
          else if (c <=? 31)%N then None
          else scanstring r InText None (c :: release pending acc)
      | AfterBackslash =>
          if (c =? ch "u")%N then scanstring r (InHex 3 0%N) pending acc
          else
            match simple_escape c with
            | Some x => scanstring r InText None (x :: release pending acc)
            | None => None
            end
      | InHex k v =>
          match hexval c with
          | None => None
          | Some d =>
              let v' := (v * 16 + d)%N in
              match k with
              | S k' => scanstring r (InHex k' v') pending acc
              | O =>
                  match pending with
                  | Some hi =>
                      if is_low_surrogate v'
                      then scanstring r InText None (join_surrogates hi v' :: acc)
                      else if is_high_surrogate v'
                      then scanstring r InText (Some v') (hi :: acc)
                      else scanstring r InText None (v' :: hi :: acc)
                  | None =>
                      if is_high_surrogate v'
                      then scanstring r InText (Some v') acc
                      else scanstring r InText None (v' :: acc)
                  end
              end
          end
      end
  end.

(** The longest run of decimal digits at the head of [s], and the rest. *)
Fixpoint span_digits (s : str) : str * str :=
  match s with
  | c :: r =>
      if is_digit c then let (ds, rest) := span_digits r in (c :: ds, rest)
      else ([], s)
  | [] => ([], [])
  end.

Definition digits_value (ds : str) : N :=
  fold_left (fun acc d => (acc * 10 + (d - 48))%N) ds 0%N.

(** The integer part of a number, [0|[1-9][0-9]*]. *)
Definition int_part (s : str) : option (str * str) :=
  match s with
  | c :: r =>
      if (c =? ch "0")%N then Some ([c], r)
      else if is_digit c then Some (span_digits s)
      else None
  | [] => None
  end.

(** The fraction [\.[0-9]+], when present. *)
Definition frac_part (s : str) : option (str * str) :=
  match s with
  | c :: r =>
      if (c =? ch ".")%N then
        match span_digits r with
        | ([], _) => None
        | (ds, rest) => Some (ds, rest)
        end
      else None
  | [] => None
  end.

(** The exponent [[eE][-+]?[0-9]+], when present. *)
Definition exp_part (s : str) : option (Z * str) :=
  match s with
  | c :: r =>
      if ((c =? ch "e") || (c =? ch "E"))%N then
        let (neg, r') :=
          match r with
          | sg :: r1 =>
              if (sg =? ch "-")%N then (true, r1)
              else if (sg =? ch "+")%N then (false, r1)
              else (false, r)
          | [] => (false, r)
          end in
        match span_digits r' with
        | ([], _) => None
        | (ds, rest) =>
            let e := Z.of_N (digits_value ds) in
            Some (if neg then (- e)%Z else e, rest)
        end
      else None
  | [] => None
  end.

(** [NUMBER_RE]: an [int] when neither fraction nor exponent is present,
    a [float] otherwise. *)
Definition match_number (s : str) : option (pyvalue * str) :=
  let (neg, s1) :=
    match s with
    | c :: r => if (c =? ch "-")%N then (true, r) else (false, s)
    | [] => (false, s)
    end in
  match int_part s1 with
  | None => None
  | Some (ids, s2) =>
      let (fds, s3) :=
        match frac_part s2 with
        | Some (fds, s3) => (Some fds, s3)
        | None => (None, s2)
        end in
      let (ex, s4) :=
        match exp_part s3 with
        | Some (e, s4) => (Some e, s4)
        | None => (None, s3)
        end in
      match fds, ex with
      | None, None =>
          let n := Z.of_N (digits_value ids) in
          Some (PyInt (if neg then (- n)%Z else n), s4)
      | _, _ =>
          let fd := match fds with Some d => d | None => [] end in
          let e := match ex with Some e => e | None => 0%Z end in
          Some (PyFloat (FDec neg (digits_value (ids ++ fd))
                           (e - Z.of_nat (List.length fd))), s4)
      end
  end.

(** The result of a scanning step: a value and the rest of the text, a
    [JSONDecodeError], or the step budget used up. *)
Inductive scan (A : Type) : Type :=
  | Got (a : A) (rest : str)
  | Bad
  | OutOfSteps.

Arguments Got {A}.
Arguments Bad {A}.
Arguments OutOfSteps {A}.

Definition literal (word : string) (v : pyvalue) (s : str)
    (otherwise : scan pyvalue) : scan pyvalue :=
  match strip_prefix (py word) s with
  | Some rest => Got v rest
  | None => otherwise
  end.

Definition number (s : str) : scan pyvalue :=
  match match_number s with
  | Some (v, rest) => Got v rest
  | None => Bad
  end.

(** [scan_once] with the loops of [JSONArray] and [JSONObject].  [array_rest]
    and [object_rest] stand after a value, at the delimiter; [object_member]
    stands at the quotation mark that opens a key. *)
Fixpoint scan_once (steps : nat) (s : str) : scan pyvalue :=
  match steps with
  | O => OutOfSteps
  | S n =>
      match s with
      | [] => Bad
      | c :: r =>
          if (c =? QUOTE)%N then
            match scanstring r InText None [] with
            | Some (x, rest) => Got (PyStr x) rest
            | None => Bad
            end
          else if (c =? ch "{")%N then
            match skip_ws r with
            | c1 :: r1 =>
                if (c1 =? ch "}")%N then Got (PyDict []) r1
                else object_member n (c1 :: r1) []
            | [] => Bad
            end
          else if (c =? ch "[")%N then
            match skip_ws r with
            | c1 :: r1 =>
                if (c1 =? ch "]")%N then Got (PyList []) r1
                else
                  match scan_once n (c1 :: r1) with
                  | Got v rest => array_rest n (skip_ws rest) [v]
                  | Bad => Bad
                  | OutOfSteps => OutOfSteps
                  end
            | [] => Bad
            end
          else if (c =? ch "n")%N then literal "null" PyNone s Bad
          else if (c =? ch "t")%N then literal "true" (PyBool true) s Bad
          else if (c =? ch "f")%N then literal "false" (PyBool false) s Bad
          else if (c =? ch "N")%N then literal "NaN" (PyFloat FNaN) s Bad
          else if (c =? ch "I")%N then
            literal "Infinity" (PyFloat (FInf false)) s Bad
          else if (c =? ch "-")%N then
            literal "-Infinity" (PyFloat (FInf true)) s (number s)
          else number s
      end
  end

with array_rest (steps : nat) (s : str) (acc : list pyvalue) : scan pyvalue :=
  match steps with
  | O => OutOfSteps
  | S n =>
      match s with
      | [] => Bad
      | c :: r =>
          if (c =? ch "]")%N then Got (PyList (rev acc)) r
          else if (c =? ch ",")%N then
            match scan_once n (skip_ws r) with
            | Got v rest => array_rest n (skip_ws rest) (v :: acc)
            | Bad => Bad
            | OutOfSteps => OutOfSteps
            end
          else Bad
      end
  end

with object_member (steps : nat) (s : str) (acc : list (str * pyvalue))
    : scan pyvalue :=
  match steps with
  | O => OutOfSteps
  | S n =>
      match s with
      | [] => Bad
      | c :: r =>
          if (c =? QUOTE)%N then
            match scanstring r InText None [] with
            | None => Bad
            | Some (key, rest) =>
                match skip_ws rest with
                | c1 :: r1 =>
                    if (c1 =? ch ":")%N then
                      match scan_once n (skip_ws r1) with
                      | Got v rest' =>
                          object_rest n (skip_ws rest') ((key, v) :: acc)
                      | Bad => Bad
                      | OutOfSteps => OutOfSteps
                      end
                    else Bad
                | [] => Bad
                end
            end
          else Bad
      end
  end

with object_rest (steps : nat) (s : str) (acc : list (str * pyvalue))
    : scan pyvalue :=
  match steps with
  | O => OutOfSteps
  | S n =>
      match s with
      | [] => Bad
      | c :: r =>
          if (c =? ch "}")%N then Got (PyDict (dict_of_pairs (rev acc))) r
          else if (c =? ch ",")%N then object_member n (skip_ws r) acc
          else Bad
      end
  end.

(** [json.loads(s)]: [None] is a [json.JSONDecodeError].  The step budget
    never runs out (lemma [scan_once_steps] below): every step of the scanner
    stands on text shorter than the step before it.  The interpreter's limits
    on recursion depth and on the digits of an [int] are not modelled. *)
Definition json_loads (s : str) : option pyvalue :=
  let s0 := skip_ws s in
  match scan_once (S (List.length s0)) s0 with
  | Got v rest =>
      match skip_ws rest with
      | [] => Some v
      | _ :: _ => None
      end
  | Bad => None
  | OutOfSteps => None
  end.

(** ** [json.dumps] with its defaults ([ensure_ascii], [", "] and [": "]) *)

Definition hex_digit (n : N) : N :=
  (if n <? 10 then 48 + n else 87 + n)%N.

(** ['\\u{0:04x}'.format(c)] *)
Definition u_escape (c : N) : str :=
  py "\u" ++ [hex_digit ((c / 4096) mod 16); hex_digit ((c / 256) mod 16);
              hex_digit ((c / 16) mod 16); hex_digit (c mod 16)].

Definition escape_char (c : N) : str :=
  (if c =? QUOTE then [BACKSLASH; QUOTE]
   else if c =? BACKSLASH then [BACKSLASH; BACKSLASH]
   else if c =? 10 then py "\n"
   else if c =? 13 then py "\r"
   else if c =? 9 then py "\t"
   else if c =? 8 then py "\b"
   else if c =? 12 then py "\f"
   else if (32 <=? c) && (c <=? 126) then [c]
   else if c <? 65536 then u_escape c
   else u_escape (55296 + ((c - 65536) / 1024) mod 1024)
        ++ u_escape (56320 + (c - 65536) mod 1024))%N.

(** [py_encode_basestring_ascii] *)
Definition json_quote (s : str) : str :=
  [QUOTE] ++ flat_map escape_char s ++ [QUOTE].

(** [sep.join(parts)] *)
Fixpoint join (sep : str) (parts : list str) : str :=
  match parts with
  | [] => []
  | [x] => x
  | x :: r => x ++ sep ++ join sep r
  end.

Section Repr.

(** [repr] of a finite [float] (the shortest digits that read back as the
    same binary64) and of a [list] or [dict] (whose quoting follows the
    interpreter's tables of printable characters) are Python's own. *)
Variable py_repr : pyvalue -> str.

Definition json_float (f : pyfloat) : str :=
  match f with
  | FNaN => py "NaN"
  | _ =>
      if float_overflows f
      then (if float_neg f then py "-Infinity" else py "Infinity")
      else py_repr (PyFloat f)
  end.

Fixpoint json_dumps (v : pyvalue) : str :=
  match v with
  | PyNone => py "null"
  | PyBool true => py "true"
  | PyBool false => py "false"
  | PyInt z => Z_to_decimal z
  | PyFloat f => json_float f
  | PyStr s => json_quote s
  | PyList l => py "[" ++ join (py ", ") (map json_dumps l) ++ py "]"
  | PyDict d =>
      py "{"
      ++ join (py ", ")
           (map (fun kv : str * pyvalue =>
                   let (k, w) := kv in json_quote k ++ py ": " ++ json_dumps w) d)
      ++ py "}"
  end.

(** [str(v)], which is also what an f-string placeholder [{v}] prints. *)
Definition py_str (v : pyvalue) : str :=
  match v with
  | PyNone => py "None"
  | PyBool true => py "True"
  | PyBool false => py "False"
  | PyInt z => Z_to_decimal z
  | PyFloat FNaN => py "nan"
  | PyFloat f =>
      if float_overflows f
      then (if float_neg f then py "-inf" else py "inf")
      else py_repr v
  | PyStr s => s
  | PyList _ | PyDict _ => py_repr v
  end.

End Repr.

End Json.

Import Json.

(* ================================================================== *)
(** * [hashlib.sha256]                                                  *)
(* ================================================================== *)

Module SHA256.

(** Python [bytes]. *)
Definition bytes := list Byte.byte.

#[local] Open Scope Z_scope.

Definition w32 (x : Z) : Z := x mod 2 ^ 32.
Definition add32 (x y : Z) : Z := w32 (x + y).
Definition rotr (n x : Z) : Z :=
  Z.lor (Z.shiftr x n) (w32 (Z.shiftl x (32 - n))).
Definition not32 (x : Z) : Z := Z.lxor x 0xffffffff.

Definition Ch (x y z : Z) : Z := Z.lxor (Z.land x y) (Z.land (not32 x) z).
Definition Maj (x y z : Z) : Z :=
  Z.lxor (Z.lxor (Z.land x y) (Z.land x z)) (Z.land y z).
Definition Sigma0 (x : Z) : Z := Z.lxor (Z.lxor (rotr 2 x) (rotr 13 x)) (rotr 22 x).
Definition Sigma1 (x : Z) : Z := Z.lxor (Z.lxor (rotr 6 x) (rotr 11 x)) (rotr 25 x).
Definition sigma0 (x : Z) : Z := Z.lxor (Z.lxor (rotr 7 x) (rotr 18 x)) (Z.shiftr x 3).
Definition sigma1 (x : Z) : Z := Z.lxor (Z.lxor (rotr 17 x) (rotr 19 x)) (Z.shiftr x 10).

(** The first sixty-four primes. *)
Definition primes : list Z :=
  [ 2; 3; 5; 7; 11; 13; 17; 19; 23; 29; 31; 37; 41; 43; 47; 53;
    59; 61; 67; 71; 73; 79; 83; 89; 97; 101; 103; 107; 109; 113; 127; 131;
    137; 139; 149; 151; 157; 163; 167; 173; 179; 181; 191; 193; 197; 199;
    211; 223; 227; 229; 233; 239; 241; 251; 257; 263; 269; 271; 277; 281;
    283; 293; 307; 311 ].

(** The integer cube root of [x], built bit by bit from bit [k - 1] down. *)
Fixpoint cube_root (k : nat) (x root : Z) : Z :=
  match k with
  | O => root
  | S k' =>
      let next := root + 2 ^ Z.of_nat k' in
      cube_root k' x (if next * next * next <=? x then next else root)
  end.

(** The round constants: the first 32 bits of the fractional parts of the
    cube roots of the primes. *)
Definition K : list Z :=
  Eval vm_compute in map (fun p => w32 (cube_root 36 (p * 2 ^ 96) 0)) primes.

(** The eight working variables [a..h], also the chaining value. *)
Record state : Type := State {
  sa : Z; sb : Z; sc : Z; sd : Z; se : Z; sf : Z; sg : Z; sh : Z }.

(** The first 32 bits of the fractional part of the square root of [p]. *)
Definition sqrt_frac (p : Z) : Z := w32 (Z.sqrt (p * 2 ^ 64)).

(** The initial hash value, from the first eight primes. *)
Definition H0 : state :=
  Eval vm_compute in
    State (sqrt_frac 2) (sqrt_frac 3) (sqrt_frac 5) (sqrt_frac 7)
          (sqrt_frac 11) (sqrt_frac 13) (sqrt_frac 17) (sqrt_frac 19).

Definition round (s : state) (k w : Z) : state :=
  let t1 := w32 (sh s + Sigma1 (se s) + Ch (se s) (sf s) (sg s) + k + w) in
  let t2 := w32 (Sigma0 (sa s) + Maj (sa s) (sb s) (sc s)) in
  State (add32 t1 t2) (sa s) (sb s) (sc s) (add32 (sd s) t1) (se s) (sf s) (sg s).

(** The next word of the message schedule from the sixteen before it. *)
Definition next_word (w : list Z) : Z :=
  w32 (sigma1 (nth 14 w 0) + nth 9 w 0 + sigma0 (nth 1 w 0) + nth 0 w 0).

Fixpoint rounds (ks : list Z) (w : list Z) (s : state) : state :=
  match ks with
  | [] => s
  | k :: ks' => rounds ks' (tl w ++ [next_word w]) (round s k (hd 0 w))
  end.

Definition compress (h : state) (block : list Z) : state :=
  let s := rounds K block h in
  State (add32 (sa h) (sa s)) (add32 (sb h) (sb s)) (add32 (sc h) (sc s))
        (add32 (sd h) (sd s)) (add32 (se h) (se s)) (add32 (sf h) (sf s))
        (add32 (sg h) (sg s)) (add32 (sh h) (sh s)).

(** Big-endian 32-bit words of a byte sequence whose length is a multiple
    of four. *)
Fixpoint words (l : list Z) : list Z :=
  match l with
  | b0 :: b1 :: b2 :: b3 :: r =>
      (((b0 * 256 + b1) * 256 + b2) * 256 + b3) :: words r
  | _ => []
  end.

(** The chaining value after the blocks of sixteen words in [ws]; [n]
    bounds the number of blocks. *)
Fixpoint blocks (n : nat) (h : state) (ws : list Z) : state :=
  match n, ws with
  | S n', _ :: _ => blocks n' (compress h (firstn 16 ws)) (skipn 16 ws)
  | _, _ => h
  end.

(** The message, the bit [1], zeros up to 56 modulo 64, and the bit length
    on eight bytes. *)
Definition pad (msg : list Z) : list Z :=
  let len := Z.of_nat (List.length msg) in
  let zeros := Z.to_nat ((55 - len) mod 64) in
  let bits := len * 8 in
  msg ++ [0x80] ++ repeat 0 zeros
      ++ map (fun i => (bits / 2 ^ (8 * i)) mod 256) [7; 6; 5; 4; 3; 2; 1; 0].

Definition digest_state (data : bytes) : state :=
  let ws := words (pad (map (fun b => Z.of_N (Byte.to_N b)) data)) in
  blocks (List.length ws) H0 ws.

Definition hex8 (x : Z) : str :=
  map (fun i => hex_digit (Z.to_N ((x / 2 ^ (4 * i)) mod 16)))
      [7; 6; 5; 4; 3; 2; 1; 0].

(** [hashlib.sha256(data).hexdigest()] *)
Definition sha256_hexdigest (data : bytes) : str :=
  let s := digest_state data in
  hex8 (sa s) ++ hex8 (sb s) ++ hex8 (sc s) ++ hex8 (sd s)
  ++ hex8 (se s) ++ hex8 (sf s) ++ hex8 (sg s) ++ hex8 (sh s).

(** The octets of an ASCII literal. *)
Definition bytes_of (x : string) : bytes := list_byte_of_string x.

End SHA256.

Import SHA256.

(* ================================================================== *)
(** * The application: [main.py]                                        *)
(* ================================================================== *)

Module App.

(** An exception: its class and the text [str(e)] gives. *)
Record exc : Type := Exc { exc_class : str; exc_msg : str }.

Inductive result (A : Type) : Type :=
  | Return (a : A)
  | Raise (e : exc).

Arguments Return {A}.
Arguments Raise {A}.

(** ** The LLM service boundary ([google.genai]) *)

(** [types.Part.from_bytes] and [types.Part.from_text]. *)
Inductive part : Type :=
  | from_bytes (data : option bytes) (mime_type : str)
  | from_text (text : str).

(** One [client.models.generate_content] request: the model, the parts of
    the single user content and the system instruction. *)
Record request : Type := Request {
  model : str;
  parts : list part;
  system_instruction : str }.

(** An uploaded file: what reading it ([read()], [getbuffer().tobytes()])
    returns or raises, and its [type] attribute. *)
Record uploaded_file : Type := UploadedFile {
  contents : result bytes;
  file_type : option str }.

(** What one run of the script finds around it: the API key of the
    environment, the remote model (the text of its response, [None] when the
    response carries no text, or the error it raises) and the two upload
    widgets. *)
Record env : Type := Env {
  api_key : option str;
  generate_content : request -> result (option str);
  image_file : option uploaded_file;
  pdf_file : option uploaded_file }.

(** ** Session state ([st.session_state], main.py 21-37) *)

Record session_state : Type := SessionState {
  authenticated : bool;
  pdf_extracted : pyvalue;
  pdf_extract_raw : option str;
  pdf_hash : option str;
  pdf_system_prompt : str;
  show_pdf_extracted : bool }.

(** The state of a fresh, authenticated session. *)
Definition initial_state (prompt : str) : session_state :=
  SessionState true PyNone None None prompt false.

(** ** What a run does that can be observed *)

Inductive call_site : Type := Extractor | Auditor.

(** The Streamlit elements written to the page and the outbound calls, in
    program order.  [html] is [unsafe_allow_html].  Spinners and layout are
    not recorded. *)
Inductive event : Type :=
  | st_error (msg : str)
  | st_warning (msg : str)
  | st_info (msg : str)
  | st_success (msg : str)
  | st_markdown (body : str) (html : bool)
  | st_json (v : pyvalue)
  | outbound (site : call_site) (r : request).

(** How the handler ends: it falls off its end, it calls [st.stop()], or an
    exception escapes it. *)
Inductive ending : Type :=
  | Completed
  | Stopped
  | Crashed (e : exc).

Record run : Type := Run {
  final : session_state;
  trace : list event;
  ended : ending }.

Definition gemini_model : str := py "gemini-2.5-flash".

Definition no_api_key : exc :=
  Exc (py "RuntimeError") (py "GEMINI_API_KEY not set in environment.").

(** [None.strip()] *)
Definition none_has_no_strip : exc :=
  Exc (py "AttributeError") (py "'NoneType' object has no attribute 'strip'").

(** [not api_key] *)
Definition api_key_missing (e : env) : bool :=
  match api_key e with
  | None | Some [] => true
  | Some (_ :: _) => false
  end.

(** [response.text.strip()] of the call's outcome. *)
Definition response_text (r : result (option str)) : result str :=
  match r with
  | Return (Some text) => Return (strip text)
  | Return None => Raise none_has_no_strip
  | Raise x => Raise x
  end.

(** ** [extract_from_pdf] (main.py 108-134) *)

Definition extraction_request (pdf_bytes : option bytes) (system_prompt : str)
    : request :=
  Request gemini_model
    [ from_bytes pdf_bytes (py "application/pdf");
      from_text (py "Please extract requested information from the attached PDF and return ONLY JSON or concise text.") ]
    system_prompt.

Definition extract_from_pdf (e : env) (pdf_bytes : option bytes)
    (system_prompt : str) : list event * result str :=
  if api_key_missing e then ([], Raise no_api_key)
  else
    let r := extraction_request pdf_bytes system_prompt in
    ([outbound Extractor r], response_text (generate_content e r)).

(** ** [call_gemini_api] (main.py 139-185) *)

Definition en_dash : str := [8211%N].

Definition base_system : str :=
  py "You are a Hotel QA Specialist. Evaluate the provided image for compliance with cleanliness, "
  ++ py "consistency, and maintenance standards. Use the following key categories when classifying findings:" ++ nl ++ nl
  ++ py "1. Condition " ++ en_dash ++ py " Issues related to wear, damage, or deterioration of materials or fixtures (e.g., peeling drawers, faded paint, broken parts)." ++ nl
  ++ py "2. Cleanliness " ++ en_dash ++ py " Issues involving dirt, stains, or maintenance of hygiene and visual appearance (e.g., dirty surfaces, stains, debris)." ++ nl
  ++ py "3. Compliance " ++ en_dash ++ py " Issues involving deviation from brand standards or design specifications (e.g., incorrect fixtures, missing required items)." ++ nl ++ nl
  ++ py "Respond STRICTLY in JSON with the following top-level fields only:" ++ nl
  ++ py "{" ++ nl
  ++ py "  " ++ dq ++ py "Issue_Present" ++ dq ++ py ": true|false,                  // overall boolean" ++ nl
  ++ py "  " ++ dq ++ py "Category" ++ dq ++ py ": " ++ dq ++ py "Condition" ++ dq ++ py "|" ++ dq ++ py "Cleanliness" ++ dq ++ py "|" ++ dq ++ py "Compliance" ++ dq ++ py ",  // primary category for the issue" ++ nl
  ++ py "  " ++ dq ++ py "Description" ++ dq ++ py ": " ++ dq ++ py "Concise explanation of the finding" ++ dq ++ py "," ++ nl
  ++ py "  " ++ dq ++ py "Resolution" ++ dq ++ py ": " ++ dq ++ py "Specific words to correct the issue" ++ dq ++ py ", // like replace, paint, remove, wash, clean etc." ++ nl
  ++ py "  ]" ++ nl
  ++ py "}" ++ nl ++ nl
  ++ py "Do not include any extra text, commentary, or code blocks. If multiple issues exist, choose the primary Category that best represents the most important issue and list others in Findings.".

(** The line that introduces the document context. *)
Definition context_heading : str :=
  nl ++ nl ++ py "Context from brand standards (extracted):" ++ nl.

Section WithRepr.

Variable py_repr : pyvalue -> str.

(** [pdf_context] (main.py 161) *)
Definition pdf_context (pdf_extracted : pyvalue) : str :=
  if is_dict_or_list pdf_extracted then json_dumps py_repr pdf_extracted
  else py_str py_repr pdf_extracted.

(** [system_instruction_text] (main.py 160-164) *)
Definition system_instruction_text (pdf_extracted : pyvalue) : str :=
  if truthy pdf_extracted
  then base_system ++ context_heading ++ pdf_context pdf_extracted
  else base_system.

Definition audit_request (image_bytes : bytes) (image_mime : str)
    (pdf_extracted : pyvalue) : request :=
  Request gemini_model
    [ from_bytes (Some image_bytes) image_mime;
      from_text (py "Analyze this single image and return the JSON result described in system instruction.") ]
    (system_instruction_text pdf_extracted).

Definition call_gemini_api (e : env) (image_bytes : bytes) (image_mime : str)
    (pdf_extracted : pyvalue) : list event * result str :=
  if api_key_missing e then ([], Raise no_api_key)
  else
    let r := audit_request image_bytes image_mime pdf_extracted in
    ([outbound Auditor r], response_text (generate_content e r)).

(** ** The Submit handler (main.py 265-379) *)

Definition spaces (n : nat) : str := repeat 32%N n.

(** The f-string of the two result cards (main.py 349-355 and 360-366). *)
Definition result_card (css : str) (category description resolution : pyvalue)
    : str :=
  nl ++ spaces 20 ++ py "<div class=" ++ dq ++ py "result-card " ++ css ++ dq ++ py ">"
  ++ nl ++ spaces 24 ++ py "<h4>" ++ py_str py_repr category ++ py "</h4>"
  ++ nl ++ spaces 24 ++ py "<p>" ++ py_str py_repr description ++ py "</p>"
  ++ nl ++ spaces 24 ++ py "<p><strong>" ++ py_str py_repr resolution ++ py "</strong></p>"
  ++ nl ++ spaces 20 ++ py "</div>"
  ++ nl ++ spaces 20.

(** The f-string of the fallback card (main.py 371-377). *)
Definition warning_card (result_text : str) : str :=
  nl ++ spaces 16 ++ py "<div class=" ++ dq ++ py "result-card warning-card" ++ dq ++ py ">"
  ++ nl ++ spaces 20 ++ py "<h4>" ++ [9888%N; 65039%N] ++ py " Unable to Parse JSON</h4>"
  ++ nl ++ spaces 20 ++ py "<p>Raw model output:</p>"
  ++ nl ++ spaces 20 ++ py "<pre>" ++ result_text ++ py "</pre>"
  ++ nl ++ spaces 16 ++ py "</div>"
  ++ nl ++ spaces 16.

Definition success_card : str := py "success-card".
Definition error_card : str := py "error-card".

Definition type_name (v : pyvalue) : str :=
  match v with
  | PyNone => py "NoneType"
  | PyBool _ => py "bool"
  | PyInt _ => py "int"
  | PyFloat _ => py "float"
  | PyStr _ => py "str"
  | PyList _ => py "list"
  | PyDict _ => py "dict"
  end.

(** [v.get] on a value that is not a [dict]. *)
Definition has_no_get (v : pyvalue) : exc :=
  Exc (py "AttributeError")
      (py "'" ++ type_name v ++ py "' object has no attribute 'get'").

Definition qa_heading : event :=
  st_markdown (py "### " ++ [129534%N] ++ py " QA Analysis Result") false.

(** "Display QA result" (main.py 338-379).  Only [json.JSONDecodeError] is
    caught: a response that parses to something other than a [dict] raises
    at the first [.get]. *)
Definition display_qa_result (result_text : str) : list event * ending :=
  let cleaned := _clean_model_json result_text in
  match json_loads cleaned with
  | Some (PyDict result_json) =>
      let compliant := dict_get result_json (py "Issue_Present") (PyBool false) in
      let category := dict_get result_json (py "Category") (PyStr (py "Unknown")) in
      let description :=
        dict_get result_json (py "Description") (PyStr (py "No description provided.")) in
      let resolution :=
        dict_get result_json (py "Resolution") (PyStr (py "No Soultion provided.")) in
      if eq_False compliant
      then ([qa_heading;
             st_markdown (result_card success_card category description resolution) true],
            Completed)
      else ([qa_heading;
             st_markdown (result_card error_card category description resolution) true],
            Completed)
  | Some other => ([qa_heading], Crashed (has_no_get other))
  | None => ([qa_heading; st_markdown (warning_card result_text) true], Completed)
  end.

(** [image_mime] (main.py 273): [getattr(image_file, "type", None) or "image/jpeg"] *)
Definition image_mime (img : uploaded_file) : str :=
  match file_type img with
  | Some (c :: t) => c :: t
  | _ => py "image/jpeg"
  end.

(** [new_hash and st.session_state.get("pdf_hash") != new_hash] as a truth
    value. *)
Definition hash_changed (stored new_hash : option str) : bool :=
  match new_hash with
  | None | Some [] => false
  | Some h =>
      match stored with
      | Some h0 => negb (str_eqb h0 h)
      | None => true
      end
  end.

(** The guard of main.py 293. *)
Definition extraction_due (s : session_state) (new_hash : option str) : bool :=
  negb (truthy (pdf_extracted s)) || hash_changed (pdf_hash s) new_hash.

(** main.py 285-291: the bytes of the document and their digest, or the
    warning when they cannot be read. *)
Definition hash_document (pdf : uploaded_file)
    : option bytes * option str * list event :=
  match contents pdf with
  | Return pdf_bytes => (Some pdf_bytes, Some (sha256_hexdigest pdf_bytes), [])
  | Raise x =>
      (None, None, [st_warning (py "Unable to read PDF for hashing: " ++ exc_msg x)])
  end.

(** main.py 300-305: the parsed extraction, or the raw text when it does
    not parse. *)
Definition parse_extracted (extracted_text : str) : pyvalue :=
  match json_loads (_clean_model_json extracted_text) with
  | Some v => v
  | None => PyStr extracted_text
  end.

(** main.py 311-316 *)
Definition show_extracted_now (extracted_now : pyvalue) (raw : str)
    : list event :=
  [ st_markdown (py "### " ++ [128196%N] ++ py " Extracted PDF Data (just extracted)") false;
    if is_dict_or_list extracted_now then st_json extracted_now
    else st_markdown raw false ].

Definition info_reused : event :=
  st_info (py "Using previously extracted PDF data (no change detected).").

(** main.py 283-325: the state, the events and [pdf_ctx] after the document
    has been looked at. *)
Definition document_step (e : env) (s : session_state)
    : session_state * list event * pyvalue :=
  match pdf_file e with
  | None => (s, [], pdf_extracted s)
  | Some pdf =>
      let '(pdf_bytes, new_hash, warned) := hash_document pdf in
      if extraction_due s new_hash then
        let (called, outcome) := extract_from_pdf e pdf_bytes (pdf_system_prompt s) in
        match outcome with
        | Return extracted_text =>
            let s' :=
              SessionState (authenticated s) (parse_extracted extracted_text)
                (Some extracted_text) new_hash (pdf_system_prompt s) true in
            (s',
             warned ++ called ++ [st_success (py "PDF extraction complete.")]
               ++ show_extracted_now (pdf_extracted s') extracted_text,
             pdf_extracted s')
        | Raise x =>
            (SessionState (authenticated s) PyNone None (pdf_hash s)
               (pdf_system_prompt s) (show_pdf_extracted s),
             warned ++ called ++ [st_error (py "PDF extraction failed: " ++ exc_msg x)],
             PyNone)
        end
      else
        (s, warned ++ [info_reused], pdf_extracted s)
  end.

(** main.py 328-336: the audit call; [None] when it raised. *)
Definition analyze_image (e : env) (image_bytes : bytes) (mime : str)
    (pdf_ctx : pyvalue) : list event * option str :=
  let (called, outcome) := call_gemini_api e image_bytes mime pdf_ctx in
  match outcome with
  | Return result_text => (called, Some result_text)
  | Raise x => (called ++ [st_error (py "Image analysis failed: " ++ exc_msg x)], None)
  end.

(** One click on Submit. *)
Definition submit (e : env) (s : session_state) : run :=
  match image_file e with
  | None =>
      Run s [st_error (py "Please upload an image for QA check before submitting.")]
          Completed
  | Some img =>
      match contents img with
      | Raise x => Run s [st_error (py "Unable to read image: " ++ exc_msg x)] Stopped
      | Return image_bytes =>
          let '(s1, doc_events, pdf_ctx) := document_step e s in
          let (audit_events, result_text) :=
            analyze_image e image_bytes (image_mime img) pdf_ctx in
          match result_text with
          | None | Some [] => Run s1 (doc_events ++ audit_events) Stopped
          | Some text =>
              let (shown, how) := display_qa_result text in
              Run s1 (doc_events ++ audit_events ++ shown) how
          end
      end
  end.

End WithRepr.

(** ** Reading a trace *)

Definition site_eqb (a b : call_site) : bool :=
  match a, b with
  | Extractor, Extractor | Auditor, Auditor => true
  | _, _ => false
  end.

(** The requests sent from [site], in order. *)
Fixpoint calls (site : call_site) (tr : list event) : list request :=
  match tr with
  | [] => []
  | outbound from q :: r =>
      if site_eqb from site then q :: calls site r else calls site r
  | _ :: r => calls site r
  end.

(** The page elements written, without the outbound calls. *)
Definition page (tr : list event) : list event :=
  filter (fun ev => match ev with outbound _ _ => false | _ => true end) tr.

(** ** Names for the parts of a run the statements below speak of *)

(** The bytes handed to the extractor and the digest compared with the
    stored one (main.py 286-291). *)
Definition document_bytes (pdf : uploaded_file) : option bytes :=
  fst (fst (hash_document pdf)).
Definition new_hash (pdf : uploaded_file) : option str :=
  snd (fst (hash_document pdf)).

(** What [extract_from_pdf] returns or raises for the attached document. *)
Definition extractor_outcome (e : env) (s : session_state)
    (pdf : uploaded_file) : result str :=
  snd (extract_from_pdf e (document_bytes pdf) (pdf_system_prompt s)).

(** What [call_gemini_api] returns or raises once the document has been
    looked at. *)
Definition auditor_outcome (py_repr : pyvalue -> str) (e : env)
    (s : session_state) (img : uploaded_file) (image_bytes : bytes)
    : result str :=
  snd (call_gemini_api py_repr e image_bytes (image_mime img)
         (snd (document_step e s))).

(** The state with the cached extraction forgotten. *)
Definition without_extracted (s : session_state) : session_state :=
  SessionState (authenticated s) PyNone (pdf_extract_raw s) (pdf_hash s)
    (pdf_system_prompt s) (show_pdf_extracted s).

End App.

Import App.

(* ================================================================== *)
(** * What the specification says, in its own words                     *)
(* ================================================================== *)

Module Spec.

(** [sep] occurs in [s]. *)
Definition occurs (sep s : str) : Prop :=
  exists a b, s = a ++ sep ++ b.

(** [s = a ++ sep ++ b] at the first occurrence of [sep]. *)
Definition first_at (sep s a b : str) : Prop :=
  s = a ++ sep ++ b /\
  forall a' b', s = a' ++ sep ++ b' -> List.length a <= List.length a'.

(** [s = a ++ sep ++ b] at the last occurrence of [sep]. *)
Definition last_at (sep s a b : str) : Prop :=
  s = a ++ sep ++ b /\
  forall a' b', s = a' ++ sep ++ b' -> List.length a' <= List.length a.

(** The content of the first fence pair opened by [opening]: what stands
    between the first [opening] and the first closing fence after it. *)
Definition first_pair (opening text inner : str) : Prop :=
  exists a b z, first_at opening text a b /\ first_at fence b inner z.

(** What the cleaner extracts: the text from the first opening fence to the
    last closing fence after it, or to the end when none follows. *)
Inductive defenced (text : str) : str -> Prop :=
  | tagged_closed a b m z :
      first_at fence_json text a b -> last_at fence b m z ->
      defenced text (strip m)
  | tagged_open a b :
      first_at fence_json text a b -> ~ occurs fence b ->
      defenced text (strip b)
  | generic_closed a b m z :
      ~ occurs fence_json text ->
      first_at fence text a b -> last_at fence b m z ->
      defenced text (strip m)
  | generic_open a b :
      ~ occurs fence_json text ->
      first_at fence text a b -> ~ occurs fence b ->
      defenced text (strip b)
  | plain :
      ~ occurs fence text -> defenced text (strip text).

(** [t] is [s] without its leading and trailing whitespace. *)
Definition trimmed (s t : str) : Prop :=
  exists l r, s = l ++ t ++ r /\
    forallb isspace l = true /\ forallb isspace r = true /\
    (forall c u, t = c :: u -> isspace c = false) /\
    (forall u c, t = u ++ [c] -> isspace c = false).

(** Nothing but whitespace: the indentation of a piece of markup. *)
Definition blank (t : str) : Prop := forallb isspace t = true.

(** [html] is a result card in the treatment [css]: one [div] of the classes
    [result-card] and [css] that holds [category] as its heading,
    [description] as a paragraph and [resolution] as a paragraph in bold, in
    this order and with nothing but whitespace around the tags. *)
Definition result_card_of (css category description resolution html : str)
    : Prop :=
  exists w1 w2 w3 w4 w5 w6,
    blank w1 /\ blank w2 /\ blank w3 /\ blank w4 /\ blank w5 /\ blank w6
    /\ html
       = w1 ++ py "<div class=" ++ dq ++ py "result-card " ++ css ++ dq ++ py ">"
         ++ w2 ++ py "<h4>" ++ category ++ py "</h4>"
         ++ w3 ++ py "<p>" ++ description ++ py "</p>"
         ++ w4 ++ py "<p><strong>" ++ resolution ++ py "</strong></p>"
         ++ w5 ++ py "</div>" ++ w6.

(** [html] is the "could not interpret" card of the text [raw]: one [div]
    of the classes [result-card] and [warning-card] with the warning as its
    heading and [raw], character for character, in a [pre] element. *)
Definition fallback_card_of (raw html : str) : Prop :=
  exists w1 w2 w3 w4 w5 w6,
    blank w1 /\ blank w2 /\ blank w3 /\ blank w4 /\ blank w5 /\ blank w6
    /\ html
       = w1 ++ py "<div class=" ++ dq ++ py "result-card warning-card" ++ dq ++ py ">"
         ++ w2 ++ py "<h4>" ++ [9888%N; 65039%N] ++ py " Unable to Parse JSON</h4>"
         ++ w3 ++ py "<p>Raw model output:</p>"
         ++ w4 ++ py "<pre>" ++ raw ++ py "</pre>"
         ++ w5 ++ py "</div>" ++ w6.

End Spec.

Import Spec.

(* ================================================================== *)
(** * Concrete sessions used below                                      *)
(* ================================================================== *)

Module Examples.

(** No value printed in these sessions is a [float], a [list] or a [dict],
    so what stands for Python's [repr] is never consulted. *)
Definition repr_unused : pyvalue -> str := fun _ => [].

Definition photo : uploaded_file :=
  UploadedFile (Return (bytes_of "JFIF room 214")) (Some (py "image/jpeg")).

Definition manual_v1 : uploaded_file :=
  UploadedFile (Return (bytes_of "%PDF-1.4 brand standards"))
               (Some (py "application/pdf")).

Definition manual_v2 : uploaded_file :=
  UploadedFile (Return (bytes_of "%PDF-1.4 brand standards v2"))
               (Some (py "application/pdf")).

(** The digest of [manual_v1], as [hashlib] prints it. *)
Definition manual_v1_digest : str :=
  py "accf4d058cd999239552ca9e8cc9fdbdbfc7943d946ae368c80bf5efd088c236".

Definition sends_document (r : request) : bool :=
  match parts r with
  | from_bytes _ mime :: _ => str_eqb mime (py "application/pdf")
  | _ => false
  end.

(** A remote model that answers the extraction request with [extraction]
    and the audit request with [audit]. *)
Definition service (extraction audit : result (option str))
    : request -> result (option str) :=
  fun r => if sends_document r then extraction else audit.

Definition unavailable : exc :=
  Exc (py "ServerError") (py "503 UNAVAILABLE").

Definition verdict_clean : str :=
  py "{" ++ dq ++ py "Issue_Present" ++ dq ++ py ": false, "
  ++ dq ++ py "Category" ++ dq ++ py ": " ++ dq ++ py "Cleanliness" ++ dq ++ py ", "
  ++ dq ++ py "Description" ++ dq ++ py ": " ++ dq ++ py "x" ++ dq ++ py ", "
  ++ dq ++ py "Resolution" ++ dq ++ py ": " ++ dq ++ py "y" ++ dq ++ py "}".

Definition verdict_issue : str :=
  py "{" ++ dq ++ py "Issue_Present" ++ dq ++ py ": true, "
  ++ dq ++ py "Category" ++ dq ++ py ": " ++ dq ++ py "Cleanliness" ++ dq ++ py ", "
  ++ dq ++ py "Description" ++ dq ++ py ": " ++ dq ++ py "x" ++ dq ++ py ", "
  ++ dq ++ py "Resolution" ++ dq ++ py ": " ++ dq ++ py "y" ++ dq ++ py "}".

(** [{"BrandName": "Acme"}] *)
Definition spec_text : str :=
  py "{" ++ dq ++ py "BrandName" ++ dq ++ py ": " ++ dq ++ py "Acme" ++ dq ++ py "}".

Definition spec_value : pyvalue :=
  PyDict [(py "BrandName", PyStr (py "Acme"))].

Definition prompt : str := py "You are an expert Brand Compliance Auditor.".

(** A session that has extracted [manual_v1]. *)
Definition cached_v1 : session_state :=
  SessionState true spec_value (Some spec_text) (Some manual_v1_digest) prompt true.

(** A session whose extraction of [manual_v1] came back as [{}]. *)
Definition cached_empty : session_state :=
  SessionState true (PyDict []) (Some (py "{}")) (Some manual_v1_digest) prompt true.

Definition key : option str := Some (py "test-key").

(** The service answers audits but fails every extraction; the second
    edition of the manual and a photo are attached. *)
Definition extraction_down : env :=
  Env key (service (Raise unavailable) (Return (Some verdict_clean)))
      (Some photo) (Some manual_v2).

(** The service extracts [{"BrandName": "Acme"}]. *)
Definition extraction_up (pdf : uploaded_file) : env :=
  Env key (service (Return (Some spec_text)) (Return (Some verdict_clean)))
      (Some photo) (Some pdf).

(** The service extracts the empty mapping [{}] from [manual_v1]. *)
Definition extracts_nothing : env :=
  Env key (service (Return (Some (py "{}"))) (Return (Some verdict_clean)))
      (Some photo) (Some manual_v1).

(** A document is attached and no image. *)
Definition no_image : env :=
  Env key (service (Return (Some spec_text)) (Return (Some verdict_clean)))
      None (Some manual_v2).

(** The service answers the audit with blanks only; no document. *)
Definition blank_answer : env :=
  Env key (service (Return (Some spec_text)) (Return (Some (py "   "))))
      (Some photo) None.

(** The service answers both requests with text that is not JSON. *)
Definition prose_answers : env :=
  Env key (service (Return (Some (py "no fences here, not json")))
                   (Return (Some (py "no fences here, not json"))))
      (Some photo) (Some manual_v1).

(** The fenced answer of the specification, [```json\n{"a":1}\n```]. *)
Definition fenced_a1 : str :=
  py "```json" ++ nl ++ py "{" ++ dq ++ py "a" ++ dq ++ py ":1}" ++ nl ++ py "```".

(** Two fenced blocks, the first holding [1] and the second [2]. *)
Definition two_blocks : str :=
  py "```json" ++ nl ++ py "1" ++ nl ++ py "```" ++ nl
  ++ py "```json" ++ nl ++ py "2" ++ nl ++ py "```".

Definition not_json : str := py "no fences here, not json".

End Examples.

Import Examples.

(* ================================================================== *)
(** * The script around the handler: one run of [main.py]               *)
(* ================================================================== *)

Module Script.

(** ** Session initialisation (main.py 21-37) *)

(** [st.session_state] as the mapping it is: a key may be missing. *)
Definition store := dict.

(** [prompt] of main.py 30-35, the default of [pdf_system_prompt]. *)
Definition default_prompt : str :=
  py "You are a PDF extraction assistant. Extract the following structured information "
  ++ py "from the provided brand standards PDF as JSON. Return JSON only." ++ nl ++ nl
  ++ py "Required keys: BrandName, RequiredColors (list), RequiredFonts (list), RoomRequirements (list), Notes (string)" ++ nl ++ nl
  ++ py "If a field is not found, return null or an empty list.".

(** [if key not in st.session_state: st.session_state[key] = v] *)
Definition set_if_missing (d : store) (key : str) (v : pyvalue) : store :=
  match dict_lookup d key with
  | Some _ => d
  | None => dict_set d key v
  end.

Definition initialize (d : store) : store :=
  let d := set_if_missing d (py "authenticated") (PyBool false) in
  let d := set_if_missing d (py "pdf_extracted") PyNone in
  let d := set_if_missing d (py "pdf_extract_raw") PyNone in
  let d := set_if_missing d (py "pdf_hash") PyNone in
  let d := set_if_missing d (py "pdf_system_prompt") (PyStr default_prompt) in
  set_if_missing d (py "show_pdf_extracted") (PyBool false).

(** The six keys the script initialises. *)
Definition session_keys : list str :=
  [ py "authenticated"; py "pdf_extracted"; py "pdf_extract_raw"; py "pdf_hash";
    py "pdf_system_prompt"; py "show_pdf_extracted" ].

Definition optional_str (o : option str) : pyvalue :=
  match o with
  | Some t => PyStr t
  | None => PyNone
  end.

(** The store that holds the session [s]. *)
Definition store_of (s : session_state) : store :=
  [ (py "authenticated", PyBool (authenticated s));
    (py "pdf_extracted", pdf_extracted s);
    (py "pdf_extract_raw", optional_str (pdf_extract_raw s));
    (py "pdf_hash", optional_str (pdf_hash s));
    (py "pdf_system_prompt", PyStr (pdf_system_prompt s));
    (py "show_pdf_extracted", PyBool (show_pdf_extracted s)) ].

(** The session a browser starts with. *)
Definition fresh : session_state :=
  SessionState false PyNone None None default_prompt false.

(** ** The widgets of one run *)

(** What the widgets return in one run: the text of the token field, whether
    Login was clicked, the tick of the checkbox ([None] when the checkbox was
    not on the page before, so that it takes its [value=] default), and
    whether Submit was clicked.  The upload widgets are in [env]. *)
Record widgets : Type := Widgets {
  token_input : str;
  login_clicked : bool;
  show_checkbox : option bool;
  submit_clicked : bool }.

(** How a run of the script ends: as the handler does, or in [st.rerun()]. *)
Inductive script_end : Type :=
  | Finished (how : ending)
  | Rerun.

(** The session, the elements written and the calls made by one run.  The
    fixed furniture of the page (banner, styles, title, rules, captions, the
    upload widgets and the image preview) is not recorded. *)
Record script_result : Type := ScriptResult {
  after : session_state;
  shown : list event;
  outcome : script_end }.

(** ** Authentication (main.py 42-62) *)

(** [token_input == APP_PASSWORD], where [os.getenv] gave [APP_PASSWORD]. *)
Definition token_matches (APP_PASSWORD : option str) (token : str) : bool :=
  match APP_PASSWORD with
  | Some password => str_eqb token password
  | None => false
  end.

Definition with_authenticated (s : session_state) : session_state :=
  SessionState true (pdf_extracted s) (pdf_extract_raw s) (pdf_hash s)
    (pdf_system_prompt s) (show_pdf_extracted s).

Definition access_granted : event :=
  st_success (py "Access Granted " ++ [9989%N]).

Definition invalid_token : event :=
  st_error (py "Invalid token. Please try again.").

(** The login page: main.py 52-62. *)
Definition login_page (APP_PASSWORD : option str) (w : widgets)
    (s : session_state) : script_result :=
  if login_clicked w then
    if token_matches APP_PASSWORD (token_input w)
    then ScriptResult (with_authenticated s) [access_granted] Rerun
    else ScriptResult s [invalid_token] (Finished Stopped)
  else ScriptResult s [] (Finished Stopped).

(** ** The extraction prompt (main.py 191-226) *)

Definition extraction_prompt : str :=
  nl
  ++ py "You are an expert **Brand Compliance Auditor** for a hospitality corporation. Your mission is to analyze a comprehensive " ++ dq ++ py "Brand Standards Manual" ++ dq ++ py " PDF and extract every single quantifiable, measurable, or visually verifiable technical specification required for an image-based compliance check." ++ nl
  ++ nl
  ++ py "**Your output MUST adhere strictly to the format below.** Do not include any introductory text, conversation, or filler outside of the structured headings and bullet points." ++ nl
  ++ nl
  ++ py "**Role Constraints:**" ++ nl
  ++ py "1.  **Extract ONLY visual, structural, or quantifiable data.** This includes dimensions (inches, sq ft), material types (HEPA-filtered, slip-resistant), brand/model numbers, color specifications (Hex, Pantone), minimum/maximum size requirements, and physical accessibility features (ADA, grab bars, etc.)." ++ nl
  ++ py "2.  **Ignore (Negative Constraints):** Do not extract abstract concepts, training protocols, financial requirements, legal dispute processes, internal philosophies, penalties/fines, general prose, or standards that require real-time staff action (e.g., " ++ dq ++ py "Must greet guests with a smile" ++ dq ++ py ")." ++ nl
  ++ py "3.  **Maintain Structure:** If a section of the provided output format is empty because the PDF lacks those specifications, include the heading but leave the bullet points empty." ++ nl
  ++ nl
  ++ py "**Required Output Structure (Strict Adherence):**" ++ nl
  ++ nl
  ++ py "### " ++ [127912%N] ++ py " Visual Identity & Aesthetics" ++ nl
  ++ nl
  ++ py "* **Logo Specifications:** [List specific design, color, and size/spacing requirements.]" ++ nl
  ++ py "* **Color Palette (Mandatory Adherence):** [List colors, including names and quantifiable codes (Hex, Pantone, etc.).]" ++ nl
  ++ py "* **Typography:** [List required font face, weights, and usage context.]" ++ nl
  ++ nl
  ++ py "### " ++ [128716%N] ++ py " Guestroom Design & FF&E (Furniture, Fixtures, & Equipment)" ++ nl
  ++ nl
  ++ py "* **Dimensions & Layout:** [List measurable dimensional requirements (e.g., pathway width, minimum room size).]" ++ nl
  ++ py "* **Materials & Finishes:** [List verifiable material requirements (e.g., flooring type, window treatments).]" ++ nl
  ++ py "* **Lighting:** [List specific lighting types, fixtures, and locations.]" ++ nl
  ++ py "* **Required FF&E (Specific Models/Features):** [List specific product models, features, or required components.]" ++ nl
  ++ py "* **Bedding and Linens:** [List color schemes, material requirements, and mandatory components (e.g., protectors).]" ++ nl
  ++ py "* **Technology:** [List minimum/maximum screen sizes, port types, and required features.]" ++ nl
  ++ nl
  ++ py "### " ++ [127967%N] ++ [65039%N] ++ py " Public Areas, Exterior & Safety" ++ nl
  ++ nl
  ++ py "* **Public Area Safety & Accessibility (ADA):** [List structural and fixture requirements (e.g., ramps, grab bars, path clearance).]" ++ nl
  ++ py "* **D" ++ [233%N] ++ py "cor Restriction:** [List any explicitly prohibited visual content.]" ++ nl
  ++ py "* **Exterior Maintenance:** [List visible maintenance requirements (e.g., striping, lighting, repair status).]" ++ nl
  ++ py "* **Family Amenities (Physical):** [List dimensions and prohibited items for children's equipment (e.g., cribs).]" ++ nl
  ++ py "* **Fire Safety (Passive/Active):** [List requirements for detectors, extinguishers, storage, and evacuation maps.]" ++ nl
  ++ py "* **Other Structural/Safety:** [List any other measurable construction or material requirements.]" ++ nl.

Definition with_prompt (s : session_state) (prompt : str) : session_state :=
  SessionState (authenticated s) (pdf_extracted s) (pdf_extract_raw s)
    (pdf_hash s) prompt (show_pdf_extracted s).

(** ** The panel of the cached extraction (main.py 229-242) *)

Definition with_show (s : session_state) (show : bool) : session_state :=
  SessionState (authenticated s) (pdf_extracted s) (pdf_extract_raw s)
    (pdf_hash s) (pdf_system_prompt s) show.

Definition panel_heading : event :=
  st_markdown (py "### " ++ [128196%N] ++ py " Extracted PDF Data") false.

(** [st.checkbox(..., value=st.session_state.get("show_pdf_extracted", False))] *)
Definition checkbox (w : widgets) (s : session_state) : bool :=
  match show_checkbox w with
  | Some ticked => ticked
  | None => show_pdf_extracted s
  end.

(** [st.markdown(st.session_state.get("pdf_extract_raw", extracted))]: the
    key is always there, and [st.markdown] prints [str] of what it is given. *)
Definition raw_markdown (s : session_state) : event :=
  match pdf_extract_raw s with
  | Some raw => st_markdown raw false
  | None => st_markdown (py "None") false
  end.

Definition extracted_panel (w : widgets) (s : session_state)
    : session_state * list event :=
  match pdf_extracted s with
  | PyNone => (s, [])
  | extracted =>
      let show := checkbox w s in
      (with_show s show,
       if show then
         [ panel_heading;
           if is_dict_or_list extracted then st_json extracted
           else raw_markdown s ]
       else [])
  end.

(** ** One run of the script *)

Definition run_heading : event :=
  st_markdown (py "### " ++ [129514%N] ++ py " Run QA (single Submit)") false.

Section WithRepr.

Variable py_repr : pyvalue -> str.

(** [main.py] from top to bottom on an initialised session. *)
Definition script_run (APP_PASSWORD : option str) (e : env) (w : widgets)
    (s : session_state) : script_result :=
  if negb (authenticated s) then login_page APP_PASSWORD w s
  else
    let s1 := with_prompt s extraction_prompt in
    let (s2, panel) := extracted_panel w s1 in
    if submit_clicked w then
      let r := submit py_repr e s2 in
      ScriptResult (final r) (panel ++ [run_heading] ++ trace r) (Finished (ended r))
    else ScriptResult s2 (panel ++ [run_heading]) (Finished Completed).

(** The widgets as the run after [st.rerun()] finds them: no button is
    down, and the checkbox, which the login page did not show, is new. *)
Definition released (w : widgets) : widgets :=
  Widgets (token_input w) false None false.

(** One user action: the run it triggers and, when that run asks for it,
    the rerun. *)
Definition interaction (APP_PASSWORD : option str) (e : env) (w : widgets)
    (s : session_state) : script_result :=
  let r := script_run APP_PASSWORD e w s in
  match outcome r with
  | Rerun =>
      let r' := script_run APP_PASSWORD e (released w) (after r) in
      ScriptResult (after r') (shown r ++ shown r') (outcome r')
  | Finished _ => r
  end.

(** The session after a sequence of user actions. *)
Fixpoint session (APP_PASSWORD : option str) (actions : list (env * widgets))
    (s : session_state) : session_state :=
  match actions with
  | [] => s
  | (e, w) :: later =>
      session APP_PASSWORD later (after (interaction APP_PASSWORD e w s))
  end.

(** The session after a sequence of submits. *)
Fixpoint submits (runs : list env) (s : session_state) : session_state :=
  match runs with
  | [] => s
  | e :: later => submits later (final (submit py_repr e s))
  end.

End WithRepr.

(** ** Names for what the statements below speak of *)

(** The call sites of the outbound requests of a trace, in order. *)
Fixpoint sites (tr : list event) : list call_site :=
  match tr with
  | [] => []
  | outbound from _ :: r => from :: sites r
  | _ :: r => sites r
  end.

(** [t] neither starts nor ends with whitespace. *)
Definition no_outer_space (t : str) : Prop :=
  (forall c u, t = c :: u -> isspace c = false)
  /\ (forall u c, t = u ++ [c] -> isspace c = false).

(** The cached extraction is the reading of the cached raw text, and the raw
    text is trimmed; without raw text nothing is cached. *)
Definition coherent (s : session_state) : Prop :=
  match pdf_extract_raw s with
  | Some raw => pdf_extracted s = parse_extracted raw /\ no_outer_space raw
  | None => pdf_extracted s = PyNone
  end.

(** The session after a failed extraction. *)
Definition cleared (s : session_state) : session_state :=
  SessionState (authenticated s) PyNone None (pdf_hash s)
    (pdf_system_prompt s) (show_pdf_extracted s).

(** No backtick in [t]. *)
Definition no_backtick (t : str) : Prop := ~ In 96%N t.

(** An element written with [unsafe_allow_html]: only the cards are. *)
Definition is_card (ev : event) : bool :=
  match ev with
  | st_markdown _ true => true
  | _ => false
  end.

(** The ways through the document step, with what each leaves behind. *)
Inductive document_outcome (e : env) (s : session_state)
    : session_state -> list call_site -> pyvalue -> Prop :=
  | doc_untouched :
      document_outcome e s s [] (pdf_extracted s)
  | doc_failed :
      document_outcome e s (cleared s)
        (if api_key_missing e then [] else [Extractor]) PyNone
  | doc_extracted text digest :
      no_outer_space text -> api_key_missing e = false ->
      document_outcome e s
        (SessionState (authenticated s) (parse_extracted text) (Some text)
           digest (pdf_system_prompt s) true)
        [Extractor] (parse_extracted text).

(** The document attached in [e] gives the session [s] no reason to
    extract: there is none, it cannot be read, or its digest is the stored
    one. *)
Definition unchanged_document (s : session_state) (e : env) : Prop :=
  match pdf_file e with
  | None => True
  | Some pdf => new_hash pdf = None \/ new_hash pdf = pdf_hash s
  end.

(** The action is a click on Login with the configured password typed. *)
Definition right_token (APP_PASSWORD : option str) (action : env * widgets)
    : Prop :=
  login_clicked (snd action) = true
  /\ APP_PASSWORD = Some (token_input (snd action)).

End Script.

Import Script.

(* ================================================================== *)
(** * More concrete sessions                                            *)
(* ================================================================== *)

Module Scenes.

(** The extraction succeeds and the audit is refused. *)
Definition audit_down : env :=
  Env key (service (Return (Some spec_text)) (Raise unavailable))
      (Some photo) (Some manual_v1).

(** The auditor answers with a JSON list, [[1]]. *)
Definition list_verdict : env :=
  Env key (service (Return (Some spec_text)) (Return (Some (py "[1]"))))
      (Some photo) None.

Definition closed_file : exc := Exc (py "ValueError") (py "I/O operation on closed file.").

(** A document whose buffer cannot be read. *)
Definition unreadable : uploaded_file :=
  UploadedFile (Raise closed_file) (Some (py "application/pdf")).

Definition unreadable_attached : env :=
  Env key (service (Return (Some spec_text)) (Return (Some verdict_clean)))
      (Some photo) (Some unreadable).

(** No document is attached. *)
Definition photo_only : env :=
  Env key (service (Return (Some spec_text)) (Return (Some verdict_clean)))
      (Some photo) None.

(** [{"Issue_Present": null}] *)
Definition verdict_null : str :=
  py "{" ++ dq ++ py "Issue_Present" ++ dq ++ py ": null}".

Definition secret : option str := Some (py "s3cret").

Definition typed (token : string) (login submit : bool) : widgets :=
  Widgets (py token) login None submit.

End Scenes.

Import Scenes.

(* ================================================================== *)
(** * Facts about the text operations                                   *)
(* ================================================================== *)

Lemma str_eqb_eq (a b : str) : str_eqb a b = true <-> a = b.
Proof.
  unfold str_eqb. destruct (list_eq_dec N.eq_dec a b); split; congruence.
Qed.

Lemma str_eqb_refl (a : str) : str_eqb a a = true.
Proof. now apply str_eqb_eq. Qed.

Lemma strip_prefix_spec (p s r : str) :
  strip_prefix p s = Some r <-> s = p ++ r.
Proof.
  revert s. induction p as [|a p IH]; intros s; simpl.
  - split; congruence.
  - destruct s as [|b s].
    + split; discriminate.
    + destruct (N.eqb_spec a b) as [->|Hne].
      * rewrite IH. split; intros H; [now subst | now injection H].
      * split; [discriminate | intros H; injection H; congruence].
Qed.

Lemma split1_sound (sep s a b : str) :
  split1 sep s = Some (a, b) -> s = a ++ sep ++ b.
Proof.
  revert a b. induction s as [|c s IH]; intros a b; simpl.
  - destruct (strip_prefix sep []) as [r|] eqn:E; [|discriminate].
    intros H; injection H as <- <-. now apply strip_prefix_spec in E.
  - destruct (strip_prefix sep (c :: s)) as [r|] eqn:E.
    + intros H; injection H as <- <-. now apply strip_prefix_spec in E.
    + destruct (split1 sep s) as [[a0 b0]|] eqn:E1; [|discriminate].
      intros H; injection H as <- <-. simpl. f_equal. now apply IH.
Qed.

Lemma split1_first (sep s a b : str) :
  split1 sep s = Some (a, b) ->
  forall a' b', s = a' ++ sep ++ b' -> List.length a <= List.length a'.
Proof.
  revert a b. induction s as [|c s IH]; intros a b; simpl.
  - destruct (strip_prefix sep []); [|discriminate].
    intros H; injection H as <- <-. simpl; lia.
  - destruct (strip_prefix sep (c :: s)) as [r|] eqn:E.
    + intros H; injection H as <- <-. simpl; lia.
    + destruct (split1 sep s) as [[a0 b0]|] eqn:E1; [|discriminate].
      intros H; injection H as <- <-. intros a' b' Hs.
      destruct a' as [|c' a'].
      * simpl in Hs. apply strip_prefix_spec in Hs. congruence.
      * simpl in Hs. injection Hs as _ Hs. simpl.
        specialize (IH _ _ eq_refl _ _ Hs). lia.
Qed.

Lemma split1_complete (sep s a b : str) :
  s = a ++ sep ++ b -> exists a0 b0, split1 sep s = Some (a0, b0).
Proof.
  revert s. induction a as [|c a IH]; intros s ->; simpl.
  - assert (E : strip_prefix sep (sep ++ b) = Some b) by now apply strip_prefix_spec.
    destruct sep as [|x sep]; simpl in *.
    + destruct b; simpl; eauto.
    + rewrite E. eauto.
  - destruct (strip_prefix sep (c :: a ++ sep ++ b)) as [r|]; [eauto|].
    destruct (IH _ eq_refl) as (a0 & b0 & ->). eauto.
Qed.

Lemma split1_none (sep s : str) :
  split1 sep s = None <-> ~ occurs sep s.
Proof.
  split.
  - intros H (a & b & Hs). destruct (split1_complete _ _ _ _ Hs) as (? & ? & E).
    congruence.
  - intros H. destruct (split1 sep s) as [[a b]|] eqn:E; [|reflexivity].
    exfalso. apply H. exists a, b. now apply split1_sound.
Qed.

Lemma app_same_length (a a' r r' : str) :
  a ++ r = a' ++ r' -> List.length a = List.length a' -> a = a' /\ r = r'.
Proof.
  revert a'. induction a as [|c a IH]; intros [|c' a'] H L; simpl in *;
    try discriminate.
  - auto.
  - injection H as -> H. injection L as L. destruct (IH _ H L) as [-> ->]. auto.
Qed.

(** [split1] finds the first occurrence and nothing else does. *)
Lemma split1_first_at (sep s a b : str) :
  split1 sep s = Some (a, b) <-> first_at sep s a b.
Proof.
  split.
  - intros H. split; [now apply split1_sound | now apply split1_first with (b := b)].
  - intros [Hs Hmin].
    destruct (split1_complete _ _ _ _ Hs) as (a0 & b0 & E).
    pose proof (split1_sound _ _ _ _ E) as Hs0.
    pose proof (split1_first _ _ _ _ E _ _ Hs) as L1.
    pose proof (Hmin _ _ Hs0) as L2.
    assert (L : List.length a0 = List.length a) by lia.
    rewrite Hs in Hs0. symmetry in Hs0.
    destruct (app_same_length _ _ _ _ Hs0 L) as [-> Hr].
    apply app_inv_head in Hr. now subst.
Qed.

Lemma rev_decompose (sep s a b : str) :
  s = a ++ sep ++ b <-> rev s = rev b ++ rev sep ++ rev a.
Proof.
  split.
  - intros ->. now rewrite !rev_app_distr, app_assoc.
  - intros H. apply (f_equal (@rev N)) in H.
    now rewrite rev_involutive, !rev_app_distr, !rev_involutive, <- app_assoc in H.
Qed.

Lemma decompose_lengths (sep s a b : str) :
  s = a ++ sep ++ b ->
  List.length s = List.length a + List.length sep + List.length b.
Proof. intros ->. rewrite !length_app. lia. Qed.

(** [rsplit1] finds the last occurrence and nothing else does. *)
Lemma rsplit1_last_at (sep s a b : str) :
  rsplit1 sep s = Some (a, b) <-> last_at sep s a b.
Proof.
  unfold rsplit1. split.
  - destruct (split1 (rev sep) (rev s)) as [[x y]|] eqn:E; [|discriminate].
    intros H; injection H as <- <-.
    apply split1_first_at in E. destruct E as [Hs Hmin]. split.
    + apply rev_decompose. now rewrite !rev_involutive.
    + intros a' b' Hs'. pose proof (decompose_lengths _ _ _ _ Hs') as L'.
      apply rev_decompose in Hs'. pose proof (Hmin _ _ Hs') as L.
      pose proof (decompose_lengths _ _ _ _ Hs) as L0.
      rewrite !length_rev in *. lia.
  - intros [Hs Hmax].
    assert (E : first_at (rev sep) (rev s) (rev b) (rev a)).
    { split; [exact (proj1 (rev_decompose sep s a b) Hs)|].
      intros a' b' Hs'. pose proof (decompose_lengths _ _ _ _ Hs') as L'.
      rewrite <- (rev_involutive a'), <- (rev_involutive b') in Hs'.
      apply (proj2 (rev_decompose sep s (rev b') (rev a'))) in Hs'.
      pose proof (Hmax _ _ Hs') as L.
      pose proof (decompose_lengths _ _ _ _ Hs) as L0.
      rewrite !length_rev in *. lia. }
    apply split1_first_at in E. rewrite E. now rewrite !rev_involutive.
Qed.

Lemma rsplit1_none (sep s : str) :
  rsplit1 sep s = None <-> ~ occurs sep s.
Proof.
  unfold rsplit1. split.
  - destruct (split1 (rev sep) (rev s)) as [[x y]|] eqn:E; [discriminate|].
    intros _ (a & b & Hs). apply rev_decompose in Hs.
    apply split1_none in E. apply E. now exists (rev b), (rev a).
  - intros H. destruct (split1 (rev sep) (rev s)) as [[x y]|] eqn:E; [|reflexivity].
    exfalso. apply H. apply split1_sound in E. exists (rev y), (rev x).
    apply rev_decompose. now rewrite !rev_involutive.
Qed.

Lemma contains_occurs (sep s : str) :
  contains sep s = true <-> occurs sep s.
Proof.
  unfold contains. destruct (split1 sep s) as [[a b]|] eqn:E.
  - split; [intros _|reflexivity]. exists a, b. now apply split1_sound.
  - apply split1_none in E. split; [discriminate | contradiction].
Qed.

Lemma first_at_unique (sep s a b a' b' : str) :
  first_at sep s a b -> first_at sep s a' b' -> a = a' /\ b = b'.
Proof.
  intros H H'. apply split1_first_at in H, H'. rewrite H in H'.
  now injection H' as -> ->.
Qed.

Lemma last_at_unique (sep s a b a' b' : str) :
  last_at sep s a b -> last_at sep s a' b' -> a = a' /\ b = b'.
Proof.
  intros H H'. apply rsplit1_last_at in H, H'. rewrite H in H'.
  now injection H' as -> ->.
Qed.

Lemma lstrip_spec (s : str) :
  exists l, s = l ++ lstrip s /\ forallb isspace l = true /\
    forall c u, lstrip s = c :: u -> isspace c = false.
Proof.
  induction s as [|c s (l & Hs & Hl & Hh)]; simpl.
  - exists []. repeat split; discriminate.
  - destruct (isspace c) eqn:E.
    + exists (c :: l). simpl. rewrite E, Hl. repeat split; [congruence | exact Hh].
    + exists []. repeat split. intros c' u H. injection H as <- _. exact E.
Qed.

Lemma forallb_rev (f : N -> bool) (l : list N) :
  forallb f l = true -> forallb f (rev l) = true.
Proof.
  rewrite !forallb_forall. intros H x Hx. apply H. now apply in_rev.
Qed.

Lemma rstrip_spec (s : str) :
  exists r, s = rstrip s ++ r /\ forallb isspace r = true /\
    forall u c, rstrip s = u ++ [c] -> isspace c = false.
Proof.
  unfold rstrip. destruct (lstrip_spec (rev s)) as (l & Hs & Hl & Hh).
  exists (rev l). repeat split.
  - rewrite <- rev_app_distr, <- Hs. now rewrite rev_involutive.
  - now apply forallb_rev.
  - intros u c H. apply (f_equal (@rev N)) in H.
    rewrite rev_involutive, rev_app_distr in H. simpl in H. eauto.
Qed.

(** [strip] removes exactly the whitespace at both ends. *)
Lemma strip_trimmed (s : str) : trimmed s (strip s).
Proof.
  unfold strip. destruct (lstrip_spec s) as (l & Hs & Hl & Hh).
  destruct (rstrip_spec (lstrip s)) as (r & Ht & Hr & Hlast).
  exists l, r. repeat split; auto.
  - now rewrite <- Ht.
  - intros c u E. rewrite E in Ht. simpl in Ht. eauto.
Qed.

Lemma occurs_fence_json (s : str) : occurs fence_json s -> occurs fence s.
Proof.
  intros (a & b & ->). exists a, (py "json" ++ b). reflexivity.
Qed.

(** The cleaner extracts from the first opening fence to the last closing
    fence after it. *)
Lemma clean_defenced (text : str) : defenced text (_clean_model_json text).
Proof.
  unfold _clean_model_json, try_between, split1_item1, rsplit1_item0.
  destruct (contains fence_json text) eqn:Cj.
  - apply contains_occurs in Cj. destruct Cj as (a0 & b0 & Hs).
    destruct (split1_complete _ _ _ _ Hs) as (a & b & E). rewrite E. simpl.
    apply split1_first_at in E.
    destruct (rsplit1 fence b) as [[m z]|] eqn:R.
    + apply rsplit1_last_at in R. eapply tagged_closed; eauto.
    + apply rsplit1_none in R. eapply tagged_open; eauto.
  - assert (Nj : ~ occurs fence_json text).
    { intros H. apply contains_occurs in H. congruence. }
    destruct (contains fence text) eqn:Cf.
    + apply contains_occurs in Cf. destruct Cf as (a0 & b0 & Hs).
      destruct (split1_complete _ _ _ _ Hs) as (a & b & E). rewrite E. simpl.
      apply split1_first_at in E.
      destruct (rsplit1 fence b) as [[m z]|] eqn:R.
      * apply rsplit1_last_at in R. eapply generic_closed; eauto.
      * apply rsplit1_none in R. eapply generic_open; eauto.
    + apply plain. intros H. apply contains_occurs in H. congruence.
Qed.

Lemma first_at_occurs (sep s a b : str) : first_at sep s a b -> occurs sep s.
Proof. intros [H _]. now exists a, b. Qed.

Lemma last_at_occurs (sep s a b : str) : last_at sep s a b -> occurs sep s.
Proof. intros [H _]. now exists a, b. Qed.

Create HintDb fences.

#[local] Hint Resolve first_at_occurs last_at_occurs occurs_fence_json : fences.

Ltac same_split :=
  repeat match goal with
  | H : first_at ?sep ?s ?a ?b, H' : first_at ?sep ?s ?a' ?b' |- _ =>
      destruct (first_at_unique _ _ _ _ _ _ H H'); subst; clear H'
  | H : last_at ?sep ?s ?a ?b, H' : last_at ?sep ?s ?a' ?b' |- _ =>
      destruct (last_at_unique _ _ _ _ _ _ H H'); subst; clear H'
  end.

(** ... and that determines its result. *)
Lemma defenced_functional (text o1 o2 : str) :
  defenced text o1 -> defenced text o2 -> o1 = o2.
Proof.
  intros H1 H2. destruct H1; destruct H2; same_split; try reflexivity;
    exfalso; eauto 6 with fences.
Qed.

(* ================================================================== *)
(** * The code-fence cleaner against the specification (C3)             *)
(* ================================================================== *)

(** C3, as the code has it: for every text the cleaner returns, trimmed,
    what stands between the first [```json] fence and the LAST [```] after
    it (everything after the opening fence when no [```] follows); without a
    [```json] fence the same from the first [```]; without any fence the
    text itself, trimmed.  This determines its result, and trimming removes
    exactly the whitespace at both ends.  The fenced answer
    [```json\n{"a":1}\n```] is cleaned to [{"a":1}] and parses to the
    mapping [{a: 1}]. *)
Theorem C3_clean_spans_first_opening_to_last_closing :
  forall text : str,
    defenced text (_clean_model_json text)
    /\ (forall out, defenced text out -> out = _clean_model_json text)
    /\ (forall s, trimmed s (strip s))
    /\ json_loads (_clean_model_json fenced_a1) = Some (PyDict [(py "a", PyInt 1)]).
Proof.
  intros text. split; [apply clean_defenced|].
  split; [intros out H; apply (defenced_functional text); [exact H | apply clean_defenced]|].
  split; [apply strip_trimmed | reflexivity].
Qed.

(** C3 as written fails: with two fenced blocks the content of the first
    fence pair is [1], and the cleaner returns the text up to the last fence,
    which does not even parse. *)
Lemma C3_counterexample_two_blocks :
  exists inner,
    first_pair fence_json two_blocks inner
    /\ strip inner = py "1"
    /\ _clean_model_json two_blocks
       = py "1" ++ nl ++ py "```" ++ nl ++ py "```json" ++ nl ++ py "2"
    /\ _clean_model_json two_blocks <> strip inner
    /\ json_loads (strip inner) = Some (PyInt 1)
    /\ json_loads (_clean_model_json two_blocks) = None.
Proof.
  exists (nl ++ py "1" ++ nl).
  split.
  - exists [], (nl ++ py "1" ++ nl ++ py "```" ++ nl
                 ++ py "```json" ++ nl ++ py "2" ++ nl ++ py "```"),
           (nl ++ py "```json" ++ nl ++ py "2" ++ nl ++ py "```").
    split; apply split1_first_at; reflexivity.
  - repeat split; try reflexivity. vm_compute. discriminate.
Qed.

(* ================================================================== *)
(** * Facts about the Submit handler                                    *)
(* ================================================================== *)

Example sha256_constants :
  nth 0 K 0%Z = 0x428a2f98%Z /\ nth 63 K 0%Z = 0xc67178f2%Z
  /\ sa H0 = 0x6a09e667%Z /\ sh H0 = 0x5be0cd19%Z.
Proof. repeat split. Qed.

Example sha256_abc :
  sha256_hexdigest (bytes_of "abc")
  = py "ba7816bf8f01cfea414140de5dae2223b00361a396177a9cb410ff61f20015ad".
Proof. vm_compute. reflexivity. Qed.

Example sha256_empty :
  sha256_hexdigest []
  = py "e3b0c44298fc1c149afbf4c8996fb92427ae41e4649b934ca495991b7852b855".
Proof. vm_compute. reflexivity. Qed.

Example manual_v1_digest_ok : new_hash manual_v1 = Some manual_v1_digest.
Proof. vm_compute. reflexivity. Qed.

(** A digest is 64 hexadecimal digits: never the empty, falsy string. *)
Lemma sha256_hexdigest_length (data : bytes) :
  List.length (sha256_hexdigest data) = 64.
Proof.
  unfold sha256_hexdigest. generalize (digest_state data). intros s.
  unfold hex8. rewrite !length_app, !length_map. reflexivity.
Qed.

Lemma sha256_hexdigest_truthy (data : bytes) :
  exists c t, sha256_hexdigest data = c :: t.
Proof.
  pose proof (sha256_hexdigest_length data) as L.
  destruct (sha256_hexdigest data) as [|c t]; [discriminate | eauto].
Qed.

Lemma hash_changed_same (h : option str) : hash_changed h h = false.
Proof.
  destruct h as [[|c t]|]; simpl; try reflexivity. now rewrite str_eqb_refl.
Qed.


Lemma calls_app (site : call_site) (a b : list event) :
  calls site (a ++ b) = calls site a ++ calls site b.
Proof.
  induction a as [|ev a IH]; simpl; [reflexivity|].
  destruct ev; simpl; auto. destruct (site_eqb site0 site); simpl; now rewrite IH.
Qed.

Lemma page_app (a b : list event) : page (a ++ b) = page a ++ page b.
Proof. unfold page. apply filter_app. Qed.

(** What the extractor sends: nothing without an API key, one request
    otherwise. *)
Lemma extract_from_pdf_calls (e : env) (pdf_bytes : option bytes) (prompt : str) :
  fst (extract_from_pdf e pdf_bytes prompt)
  = if api_key_missing e then []
    else [outbound Extractor (extraction_request pdf_bytes prompt)].
Proof. unfold extract_from_pdf. now destruct (api_key_missing e). Qed.

Lemma extract_from_pdf_returns (e : env) (pdf_bytes : option bytes)
    (prompt text : str) :
  snd (extract_from_pdf e pdf_bytes prompt) = Return text ->
  fst (extract_from_pdf e pdf_bytes prompt)
  = [outbound Extractor (extraction_request pdf_bytes prompt)].
Proof.
  unfold extract_from_pdf. destruct (api_key_missing e); simpl;
    [discriminate | reflexivity].
Qed.

Lemma call_gemini_api_returns (py_repr : pyvalue -> str) (e : env)
    (image_bytes : bytes) (mime : str) (ctx : pyvalue) (text : str) :
  snd (call_gemini_api py_repr e image_bytes mime ctx) = Return text ->
  fst (call_gemini_api py_repr e image_bytes mime ctx)
  = [outbound Auditor (audit_request py_repr image_bytes mime ctx)].
Proof.
  unfold call_gemini_api. destruct (api_key_missing e); simpl;
    [discriminate | reflexivity].
Qed.

(** Every request the auditor sends carries the instruction built from the
    context it was given. *)
Lemma analyze_image_calls (py_repr : pyvalue -> str) (e : env)
    (image_bytes : bytes) (mime : str) (ctx : pyvalue) :
  calls Extractor (fst (analyze_image py_repr e image_bytes mime ctx)) = []
  /\ calls Auditor (fst (analyze_image py_repr e image_bytes mime ctx))
     = if api_key_missing e then []
       else [audit_request py_repr image_bytes mime ctx].
Proof.
  unfold analyze_image, call_gemini_api.
  destruct (api_key_missing e); simpl.
  - auto.
  - destruct (response_text _); simpl; auto.
Qed.

Lemma display_qa_result_calls (py_repr : pyvalue -> str) (text : str)
    (site : call_site) :
  calls site (fst (display_qa_result py_repr text)) = [].
Proof.
  unfold display_qa_result.
  destruct (json_loads (_clean_model_json text)) as [v|]; [|reflexivity].
  destruct v; try reflexivity. now destruct (eq_False _).
Qed.

(** The three parts of a run that got past the image: the document step,
    the audit, and the display of a non-empty answer. *)
Lemma submit_with_image (py_repr : pyvalue -> str) (e : env) (s : session_state)
    (img : uploaded_file) (image_bytes : bytes) :
  image_file e = Some img -> contents img = Return image_bytes ->
  let '(s1, doc_events, pdf_ctx) := document_step e s in
  let audit := analyze_image py_repr e image_bytes (image_mime img) pdf_ctx in
  final (submit py_repr e s) = s1
  /\ match snd audit with
     | Some (c :: t) =>
         trace (submit py_repr e s)
         = doc_events ++ fst audit ++ fst (display_qa_result py_repr (c :: t))
         /\ ended (submit py_repr e s) = snd (display_qa_result py_repr (c :: t))
     | _ =>
         trace (submit py_repr e s) = doc_events ++ fst audit
         /\ ended (submit py_repr e s) = Stopped
     end.
Proof.
  intros Hi Hc. unfold submit. rewrite Hi, Hc.
  destruct (document_step e s) as [[s1 doc_events] pdf_ctx].
  destruct (analyze_image py_repr e image_bytes (image_mime img) pdf_ctx)
    as [audit_events [[|c t]|]]; simpl; auto.
  destruct (display_qa_result py_repr (c :: t)); simpl; auto.
Qed.

(** The calls of such a run: those of the document step, then the audit. *)
Lemma submit_calls (py_repr : pyvalue -> str) (e : env) (s : session_state)
    (img : uploaded_file) (image_bytes : bytes) (site : call_site) :
  image_file e = Some img -> contents img = Return image_bytes ->
  calls site (trace (submit py_repr e s))
  = calls site (snd (fst (document_step e s)))
    ++ calls site (fst (analyze_image py_repr e image_bytes (image_mime img)
                          (snd (document_step e s)))).
Proof.
  intros Hi Hc. pose proof (submit_with_image py_repr e s img image_bytes Hi Hc) as H.
  destruct (document_step e s) as [[s1 doc_events] pdf_ctx]. simpl in *.
  destruct H as [_ H].
  destruct (snd (analyze_image py_repr e image_bytes (image_mime img) pdf_ctx))
    as [[|c t]|]; destruct H as [-> _]; rewrite ?calls_app; try reflexivity.
  now rewrite display_qa_result_calls, app_nil_r.
Qed.

Ltac open_document_step Hp :=
  unfold extractor_outcome, document_step, new_hash, document_bytes in *;
  rewrite Hp;
  destruct (hash_document _) as [[pdf_bytes digest] warned]; simpl in *.

(** The three ways through the document step. *)
Lemma document_step_reuse (e : env) (s : session_state) (pdf : uploaded_file) :
  pdf_file e = Some pdf ->
  extraction_due s (new_hash pdf) = false ->
  document_step e s
  = (s, snd (hash_document pdf) ++ [info_reused], pdf_extracted s).
Proof. intros Hp Hd. open_document_step Hp. now rewrite Hd. Qed.

Lemma document_step_extracted (e : env) (s : session_state)
    (pdf : uploaded_file) (text : str) :
  pdf_file e = Some pdf ->
  extraction_due s (new_hash pdf) = true ->
  extractor_outcome e s pdf = Return text ->
  document_step e s
  = (SessionState (authenticated s) (parse_extracted text) (Some text)
       (new_hash pdf) (pdf_system_prompt s) true,
     snd (hash_document pdf)
       ++ [outbound Extractor
             (extraction_request (document_bytes pdf) (pdf_system_prompt s))]
       ++ [st_success (py "PDF extraction complete.")]
       ++ show_extracted_now (parse_extracted text) text,
     parse_extracted text).
Proof.
  intros Hp Hd Ho.
  pose proof (extract_from_pdf_returns e (document_bytes pdf)
                (pdf_system_prompt s) text Ho) as Hc.
  open_document_step Hp. rewrite Hd.
  destruct (extract_from_pdf e pdf_bytes (pdf_system_prompt s)) as [called out].
  simpl in *. now subst.
Qed.

Lemma document_step_failed (e : env) (s : session_state)
    (pdf : uploaded_file) (x : exc) :
  pdf_file e = Some pdf ->
  extraction_due s (new_hash pdf) = true ->
  extractor_outcome e s pdf = Raise x ->
  document_step e s
  = (SessionState (authenticated s) PyNone None (pdf_hash s)
       (pdf_system_prompt s) (show_pdf_extracted s),
     snd (hash_document pdf)
       ++ fst (extract_from_pdf e (document_bytes pdf) (pdf_system_prompt s))
       ++ [st_error (py "PDF extraction failed: " ++ exc_msg x)],
     PyNone).
Proof.
  intros Hp Hd Ho. open_document_step Hp. rewrite Hd.
  destruct (extract_from_pdf e pdf_bytes (pdf_system_prompt s)) as [called out].
  simpl in *. now subst.
Qed.

Lemma hash_document_silent (pdf : uploaded_file) (site : call_site) :
  calls site (snd (hash_document pdf)) = [].
Proof. unfold hash_document. now destruct (contents pdf). Qed.

Lemma in_singleton_if (b : bool) (q x : request) :
  In q (if b then [] else [x]) -> q = x.
Proof. destruct b; simpl; intuition congruence. Qed.

(** A run that does not extract leaves the session as it was, and audits
    with what the session holds. *)
Lemma submit_reuse (py_repr : pyvalue -> str) (e : env) (s : session_state)
    (pdf : uploaded_file) :
  pdf_file e = Some pdf ->
  extraction_due s (new_hash pdf) = false ->
  final (submit py_repr e s) = s
  /\ calls Extractor (trace (submit py_repr e s)) = []
  /\ forall q, In q (calls Auditor (trace (submit py_repr e s))) ->
       system_instruction q = system_instruction_text py_repr (pdf_extracted s).
Proof.
  intros Hp Hd.
  destruct (image_file e) as [img|] eqn:Hi.
  2:{ unfold submit. rewrite Hi. simpl. intuition. }
  destruct (contents img) as [image_bytes|x] eqn:Hc.
  2:{ unfold submit. rewrite Hi, Hc. simpl. intuition. }
  pose proof (submit_with_image py_repr e s img image_bytes Hi Hc) as H.
  pose proof (submit_calls py_repr e s img image_bytes Extractor Hi Hc) as HE.
  pose proof (submit_calls py_repr e s img image_bytes Auditor Hi Hc) as HA.
  rewrite (document_step_reuse e s pdf Hp Hd) in *. simpl in *.
  destruct (analyze_image_calls py_repr e image_bytes (image_mime img)
              (pdf_extracted s)) as [AE AA].
  rewrite !calls_app, !hash_document_silent in *. simpl in *.
  rewrite AE in HE. rewrite AA in HA.
  split; [tauto|]. split; [exact HE|].
  intros q Hq. rewrite HA in Hq. apply in_singleton_if in Hq. now subst.
Qed.

(* ================================================================== *)
(** * The Submit handler against the specification                      *)
(* ================================================================== *)

(** C7: a submit with no image attached reports the validation failure and
    does nothing else: no request leaves for the extractor or the auditor,
    and the session state is the one it started from. *)
Theorem C7_no_image_is_a_validation_failure :
  forall (py_repr : pyvalue -> str) (e : env) (s : session_state),
    image_file e = None ->
    let r := submit py_repr e s in
    trace r = [st_error (py "Please upload an image for QA check before submitting.")]
    /\ calls Extractor (trace r) = []
    /\ calls Auditor (trace r) = []
    /\ final r = s.
Proof.
  intros py_repr e s Hi. unfold submit. rewrite Hi. simpl. auto.
Qed.

(** C7 at a session with an extraction cached, a document attached and no
    image. *)
Lemma C7_witness_document_without_image :
  let r := submit repr_unused no_image cached_v1 in
  trace r = [st_error (py "Please upload an image for QA check before submitting.")]
  /\ calls Extractor (trace r) = []
  /\ calls Auditor (trace r) = []
  /\ final r = cached_v1.
Proof.
  exact (C7_no_image_is_a_validation_failure repr_unused no_image cached_v1 eq_refl).
Defined.

(** C1, as the code has it: when a document is attached and the extraction
    raises, the submit leaves the cached extraction and its raw text absent,
    reports the failure, and audits the image with the fixed rubric alone.
    The stored digest is not cleared: it keeps the value it had.  That is
    harmless, because while the extraction is absent every later submit with
    a document attached extracts again, whatever the digest. *)
Theorem C1_failed_extraction_clears_the_spec_and_keeps_the_digest :
  forall (py_repr : pyvalue -> str) (e : env) (s : session_state)
         (img : uploaded_file) (image_bytes : bytes) (pdf : uploaded_file)
         (x : exc),
    image_file e = Some img -> contents img = Return image_bytes ->
    pdf_file e = Some pdf ->
    extraction_due s (new_hash pdf) = true ->
    extractor_outcome e s pdf = Raise x ->
    let r := submit py_repr e s in
    pdf_extracted (final r) = PyNone
    /\ pdf_extract_raw (final r) = None
    /\ pdf_hash (final r) = pdf_hash s
    /\ In (st_error (py "PDF extraction failed: " ++ exc_msg x)) (trace r)
    /\ calls Auditor (trace r)
       = (if api_key_missing e then []
          else [audit_request py_repr image_bytes (image_mime img) PyNone])
    /\ (forall q, In q (calls Auditor (trace r)) ->
          system_instruction q = base_system)
    /\ (forall digest, extraction_due (final r) digest = true).
Proof.
  intros py_repr e s img image_bytes pdf x Hi Hc Hp Hd Ho r. subst r.
  pose proof (submit_with_image py_repr e s img image_bytes Hi Hc) as H.
  pose proof (submit_calls py_repr e s img image_bytes Auditor Hi Hc) as HA.
  rewrite (document_step_failed e s pdf x Hp Hd Ho) in *. cbn [fst snd] in *.
  destruct (analyze_image_calls py_repr e image_bytes (image_mime img) PyNone)
    as [_ AA].
  rewrite !calls_app, hash_document_silent, extract_from_pdf_calls, AA in HA.
  assert (HA' : calls Auditor (trace (submit py_repr e s))
                = if api_key_missing e then []
                  else [audit_request py_repr image_bytes (image_mime img) PyNone]).
  { rewrite HA. now destruct (api_key_missing e). }
  destruct H as [Hf Ht]. rewrite Hf. cbn [pdf_extracted pdf_extract_raw pdf_hash].
  repeat split; try reflexivity.
  - assert (Hin : forall rest,
        In (st_error (py "PDF extraction failed: " ++ exc_msg x))
           ((snd (hash_document pdf)
             ++ fst (extract_from_pdf e (document_bytes pdf) (pdf_system_prompt s))
             ++ [st_error (py "PDF extraction failed: " ++ exc_msg x)]) ++ rest)).
    { intros rest. rewrite !in_app_iff. cbn [In]. auto. }
    destruct (snd (analyze_image py_repr e image_bytes (image_mime img) PyNone))
      as [[|c t]|]; destruct Ht as [-> _].
    + exact (Hin _).
    + exact (Hin _).
    + exact (Hin _).
  - exact HA'.
  - intros q Hq. rewrite HA' in Hq. apply in_singleton_if in Hq. now subst.
Qed.

(** C1 at a session that cached the first edition of the manual: the
    second edition is attached and the service refuses the extraction. *)
Lemma C1_witness_service_down :
  let r := submit repr_unused extraction_down cached_v1 in
  pdf_extracted (final r) = PyNone
  /\ pdf_extract_raw (final r) = None
  /\ pdf_hash (final r) = pdf_hash cached_v1
  /\ In (st_error (py "PDF extraction failed: " ++ exc_msg unavailable)) (trace r)
  /\ calls Auditor (trace r)
     = (if api_key_missing extraction_down then []
        else [audit_request repr_unused (bytes_of "JFIF room 214")
                (image_mime photo) PyNone])
  /\ (forall q, In q (calls Auditor (trace r)) ->
        system_instruction q = base_system)
  /\ (forall digest, extraction_due (final r) digest = true).
Proof.
  apply (C1_failed_extraction_clears_the_spec_and_keeps_the_digest
           repr_unused extraction_down cached_v1 photo (bytes_of "JFIF room 214")
           manual_v2 unavailable);
    vm_compute; reflexivity.
Defined.

(** C1 as written fails: after the failed extraction of a new edition of
    the manual the stored digest is still that of the old edition, not
    absent. *)
Lemma C1_counterexample_digest_survives :
  extractor_outcome extraction_down cached_v1 manual_v2 = Raise unavailable
  /\ calls Extractor (trace (submit repr_unused extraction_down cached_v1))
     = [extraction_request (Some (bytes_of "%PDF-1.4 brand standards v2")) prompt]
  /\ pdf_extracted (final (submit repr_unused extraction_down cached_v1)) = PyNone
  /\ pdf_hash (final (submit repr_unused extraction_down cached_v1))
     = Some manual_v1_digest
  /\ pdf_hash (final (submit repr_unused extraction_down cached_v1)) <> None.
Proof.
  repeat split; try (vm_compute; reflexivity). vm_compute. discriminate.
Qed.

Lemma new_hash_readable (pdf : uploaded_file) (pdf_bytes : bytes) :
  contents pdf = Return pdf_bytes ->
  new_hash pdf = Some (sha256_hexdigest pdf_bytes)
  /\ document_bytes pdf = Some pdf_bytes
  /\ snd (hash_document pdf) = [].
Proof.
  intros H. unfold new_hash, document_bytes, hash_document. now rewrite H.
Qed.

Lemma new_hash_same_contents (pdf1 pdf2 : uploaded_file) :
  contents pdf2 = contents pdf1 -> new_hash pdf2 = new_hash pdf1.
Proof.
  intros H. unfold new_hash, hash_document. now rewrite H.
Qed.

(** A run that extracts successfully: one request from the extractor, and
    a session rebuilt from the new result. *)
Lemma submit_extracted (py_repr : pyvalue -> str) (e : env) (s : session_state)
    (img : uploaded_file) (image_bytes : bytes) (pdf : uploaded_file)
    (text : str) :
  image_file e = Some img -> contents img = Return image_bytes ->
  pdf_file e = Some pdf ->
  extraction_due s (new_hash pdf) = true ->
  extractor_outcome e s pdf = Return text ->
  final (submit py_repr e s)
  = SessionState (authenticated s) (parse_extracted text) (Some text)
      (new_hash pdf) (pdf_system_prompt s) true
  /\ calls Extractor (trace (submit py_repr e s))
     = [extraction_request (document_bytes pdf) (pdf_system_prompt s)]
  /\ calls Auditor (trace (submit py_repr e s))
     = [audit_request py_repr image_bytes (image_mime img) (parse_extracted text)].
Proof.
  intros Hi Hc Hp Hd Ho.
  pose proof (submit_with_image py_repr e s img image_bytes Hi Hc) as H.
  pose proof (submit_calls py_repr e s img image_bytes Extractor Hi Hc) as HE.
  pose proof (submit_calls py_repr e s img image_bytes Auditor Hi Hc) as HA.
  rewrite (document_step_extracted e s pdf text Hp Hd Ho) in *.
  cbn [fst snd] in *.
  destruct (analyze_image_calls py_repr e image_bytes (image_mime img)
              (parse_extracted text)) as [AE AA].
  assert (K : api_key_missing e = false).
  { unfold extractor_outcome, extract_from_pdf in Ho.
    destruct (api_key_missing e); [discriminate | reflexivity]. }
  rewrite K in AA.
  rewrite !calls_app, hash_document_silent, AE in HE.
  rewrite !calls_app, hash_document_silent, AA in HA.
  destruct H as [Hf _]. split; [exact Hf|].
  split; [rewrite HE | rewrite HA].
  - unfold show_extracted_now. now destruct (is_dict_or_list _).
  - unfold show_extracted_now. now destruct (is_dict_or_list _).
Qed.




(** C2, as the code has it: when the first submit extracted the attached
    document and the result is truthy (not [None], [{}], [[]], the empty
    string, zero or [false]), a second submit with a document of the same
    content sends no extraction request, leaves the session as the first
    submit left it, and audits with the cached extraction. *)
Theorem C2_unchanged_document_is_not_extracted_again :
  forall (py_repr : pyvalue -> str) (e1 e2 : env) (s : session_state)
         (img : uploaded_file) (image_bytes : bytes)
         (pdf1 pdf2 : uploaded_file) (text : str),
    image_file e1 = Some img -> contents img = Return image_bytes ->
    pdf_file e1 = Some pdf1 -> pdf_file e2 = Some pdf2 ->
    contents pdf2 = contents pdf1 ->
    extraction_due s (new_hash pdf1) = true ->
    extractor_outcome e1 s pdf1 = Return text ->
    truthy (parse_extracted text) = true ->
    let r1 := submit py_repr e1 s in
    let r2 := submit py_repr e2 (final r1) in
    calls Extractor (trace r1)
    = [extraction_request (document_bytes pdf1) (pdf_system_prompt s)]
    /\ calls Extractor (trace r2) = []
    /\ final r2 = final r1
    /\ pdf_extracted (final r2) = parse_extracted text
    /\ (forall q, In q (calls Auditor (trace r2)) ->
          system_instruction q
          = system_instruction_text py_repr (parse_extracted text)).
Proof.
  intros py_repr e1 e2 s img image_bytes pdf1 pdf2 text
         Hi Hc Hp1 Hp2 Hsame Hd Ho Ht r1 r2. subst r1 r2.
  destruct (submit_extracted py_repr e1 s img image_bytes pdf1 text Hi Hc Hp1 Hd Ho)
    as (Hf & HE & _).
  assert (Hd2 : extraction_due (final (submit py_repr e1 s)) (new_hash pdf2) = false).
  { rewrite Hf. unfold extraction_due. cbn [pdf_extracted pdf_hash].
    rewrite Ht, (new_hash_same_contents pdf1 pdf2 Hsame), hash_changed_same.
    reflexivity. }
  destruct (submit_reuse py_repr e2 _ pdf2 Hp2 Hd2) as (Hf2 & HE2 & HA2).
  split; [exact HE|]. split; [exact HE2|]. split; [exact Hf2|].
  rewrite Hf2, Hf in *. cbn [pdf_extracted] in *. split; [reflexivity | exact HA2].
Qed.

(** C2 at a fresh session: the same manual is submitted twice. *)
Lemma C2_witness_same_manual_twice :
  let r1 := submit repr_unused (extraction_up manual_v1) (initial_state prompt) in
  let r2 := submit repr_unused (extraction_up manual_v1) (final r1) in
  calls Extractor (trace r1)
  = [extraction_request (document_bytes manual_v1)
       (pdf_system_prompt (initial_state prompt))]
  /\ calls Extractor (trace r2) = []
  /\ final r2 = final r1
  /\ pdf_extracted (final r2) = parse_extracted spec_text
  /\ (forall q, In q (calls Auditor (trace r2)) ->
        system_instruction q
        = system_instruction_text repr_unused (parse_extracted spec_text)).
Proof.
  apply (C2_unchanged_document_is_not_extracted_again
           repr_unused (extraction_up manual_v1) (extraction_up manual_v1)
           (initial_state prompt) photo (bytes_of "JFIF room 214")
           manual_v1 manual_v1 spec_text);
    vm_compute; reflexivity.
Defined.

(** C2 as written fails: the first submit extracts [manual_v1] and the
    model answers [{}]; the digest is stored, and the second submit with the
    same document sends the extraction request again. *)
Lemma C2_counterexample_empty_extraction :
  calls Extractor
    (trace (submit repr_unused extracts_nothing (initial_state prompt)))
  = [extraction_request (document_bytes manual_v1) prompt]
  /\ final (submit repr_unused extracts_nothing (initial_state prompt))
     = cached_empty
  /\ pdf_hash cached_empty = new_hash manual_v1
  /\ calls Extractor (trace (submit repr_unused extracts_nothing cached_empty))
     = [extraction_request (document_bytes manual_v1) prompt].
Proof.
  repeat split; vm_compute; reflexivity.
Qed.

(* ================================================================== *)
(** * The auditor's system instruction (C8, C9)                         *)
(* ================================================================== *)

Lemma audit_request_instruction (py_repr : pyvalue -> str)
    (image_bytes : bytes) (mime : str) (ctx : pyvalue) :
  system_instruction (audit_request py_repr image_bytes mime ctx)
  = system_instruction_text py_repr ctx.
Proof. reflexivity. Qed.

Lemma system_instruction_falsy (py_repr : pyvalue -> str) (ctx : pyvalue) :
  truthy ctx = false -> system_instruction_text py_repr ctx = base_system.
Proof. intros H. unfold system_instruction_text. now rewrite H. Qed.

Lemma app_longer (a b c : str) : b <> [] -> a <> a ++ b ++ c.
Proof.
  intros Hb H. apply (f_equal (@List.length N)) in H.
  rewrite !length_app in H. destruct b; [congruence | simpl in H; lia].
Qed.

(** The document step sends nothing from the auditor's call site. *)
Lemma document_step_auditor_silent (e : env) (s : session_state) :
  calls Auditor (snd (fst (document_step e s))) = [].
Proof.
  unfold document_step. destruct (pdf_file e) as [pdf|]; [|reflexivity].
  pose proof (hash_document_silent pdf Auditor) as HS.
  destruct (hash_document pdf) as [[pdf_bytes digest] warned]. cbn [snd] in HS.
  destruct (extraction_due s digest).
  - pose proof (extract_from_pdf_calls e pdf_bytes (pdf_system_prompt s)) as HC.
    destruct (extract_from_pdf e pdf_bytes (pdf_system_prompt s))
      as [called [text|x]]; cbn [fst snd] in *; rewrite !calls_app, HS, HC;
      destruct (api_key_missing e); try reflexivity;
      unfold show_extracted_now; destruct (is_dict_or_list _); reflexivity.
  - cbn [fst snd]. now rewrite calls_app, HS.
Qed.

(** Whatever a submit sends from the auditor carries the instruction built
    from the context the document step left. *)
Lemma submit_auditor_instruction (py_repr : pyvalue -> str) (e : env)
    (s : session_state) (q : request) :
  In q (calls Auditor (trace (submit py_repr e s))) ->
  system_instruction q
  = system_instruction_text py_repr (snd (document_step e s)).
Proof.
  destruct (image_file e) as [img|] eqn:Hi.
  2:{ unfold submit. rewrite Hi. intros []. }
  destruct (contents img) as [image_bytes|x] eqn:Hc.
  2:{ unfold submit. rewrite Hi, Hc. intros []. }
  rewrite (submit_calls py_repr e s img image_bytes Auditor Hi Hc).
  rewrite document_step_auditor_silent.
  destruct (analyze_image_calls py_repr e image_bytes (image_mime img)
              (snd (document_step e s))) as [_ ->].
  intros Hq. apply in_singleton_if in Hq. now subst.
Qed.

(** C8, as the code has it: the system instruction of every audit request
    is the fixed rubric alone when the context is absent or falsy, and for a
    truthy context the rubric, then the heading line
    ["\n\nContext from brand standards (extracted):\n"], then the context
    rendered by [json.dumps] when it is a mapping or a list and by [str]
    otherwise; a string context is appended verbatim.  Within a submit the
    context is what the document step left. *)
Theorem C8_system_instruction_is_rubric_heading_and_context :
  forall (py_repr : pyvalue -> str) (e : env) (image_bytes : bytes)
         (mime : str) (ctx : pyvalue),
    (forall q,
       In (outbound Auditor q) (fst (call_gemini_api py_repr e image_bytes mime ctx)) ->
       system_instruction q = system_instruction_text py_repr ctx)
    /\ (forall s q,
          In q (calls Auditor (trace (submit py_repr e s))) ->
          system_instruction q
          = system_instruction_text py_repr (snd (document_step e s)))
    /\ system_instruction_text py_repr ctx
       = (if truthy ctx
          then base_system ++ context_heading
               ++ (if is_dict_or_list ctx then json_dumps py_repr ctx
                   else py_str py_repr ctx)
          else base_system)
    /\ system_instruction_text py_repr PyNone = base_system
    /\ (forall d, ctx = PyDict d ->
          pdf_context py_repr ctx = json_dumps py_repr ctx)
    /\ (forall l, ctx = PyList l ->
          pdf_context py_repr ctx = json_dumps py_repr ctx)
    /\ (forall text, ctx = PyStr text -> pdf_context py_repr ctx = text).
Proof.
  intros py_repr e image_bytes mime ctx. repeat split.
  - intros q Hq. unfold call_gemini_api in Hq.
    destruct (api_key_missing e); cbn [fst In] in Hq; [contradiction|].
    destruct Hq as [Hq|[]]. injection Hq as <-. reflexivity.
  - intros s q. apply submit_auditor_instruction.
  - intros d ->. reflexivity.
  - intros l ->. reflexivity.
  - intros text ->. reflexivity.
Qed.

(** C8 as written fails: the empty mapping is a context that is present,
    yet the instruction is the rubric alone and not the rubric followed by
    its JSON rendering [{}]; and for a truthy context the instruction is not
    the rubric directly followed by the rendering, the heading line stands
    between them. *)
Lemma C8_counterexample_empty_mapping_and_heading :
  (PyDict [] <> PyNone
   /\ json_dumps repr_unused (PyDict []) = py "{}"
   /\ system_instruction_text repr_unused (PyDict []) = base_system
   /\ system_instruction_text repr_unused (PyDict [])
      <> base_system ++ json_dumps repr_unused (PyDict []))
  /\ (json_dumps repr_unused spec_value = spec_text
      /\ system_instruction_text repr_unused spec_value
         = base_system ++ context_heading ++ spec_text
      /\ system_instruction_text repr_unused spec_value
         <> base_system ++ json_dumps repr_unused spec_value).
Proof.
  repeat split; try reflexivity; try discriminate;
    intros H; apply (f_equal (@List.length N)) in H; vm_compute in H; discriminate.
Qed.

Lemma audit_request_falsy (py_repr : pyvalue -> str) (image_bytes : bytes)
    (mime : str) (ctx : pyvalue) :
  truthy ctx = false ->
  audit_request py_repr image_bytes mime ctx
  = audit_request py_repr image_bytes mime PyNone.
Proof.
  intros H. unfold audit_request. now rewrite (system_instruction_falsy _ _ H).
Qed.

Lemma analyze_image_falsy (py_repr : pyvalue -> str) (e : env)
    (image_bytes : bytes) (mime : str) (ctx : pyvalue) :
  truthy ctx = false ->
  analyze_image py_repr e image_bytes mime ctx
  = analyze_image py_repr e image_bytes mime PyNone.
Proof.
  intros H. unfold analyze_image, call_gemini_api.
  now rewrite (audit_request_falsy _ _ _ _ H).
Qed.

Lemma extraction_due_falsy (s : session_state) (digest : option str) :
  truthy (pdf_extracted s) = false -> extraction_due s digest = true.
Proof. intros H. unfold extraction_due. now rewrite H. Qed.

(** With a falsy extraction cached, the document step writes the same
    events as with none, and hands the auditor either the same fresh
    extraction or a falsy context. *)
Lemma document_step_falsy (e : env) (s : session_state) :
  truthy (pdf_extracted s) = false ->
  snd (fst (document_step e s)) = snd (fst (document_step e (without_extracted s)))
  /\ (snd (document_step e s) = snd (document_step e (without_extracted s))
      \/ (truthy (snd (document_step e s)) = false
          /\ snd (document_step e (without_extracted s)) = PyNone)).
Proof.
  intros H. unfold document_step.
  destruct (pdf_file e) as [pdf|]; [|simpl; auto].
  destruct (hash_document pdf) as [[pdf_bytes digest] warned].
  rewrite (extraction_due_falsy s digest H).
  rewrite (extraction_due_falsy (without_extracted s) digest eq_refl).
  cbn [without_extracted pdf_system_prompt authenticated pdf_hash show_pdf_extracted].
  destruct (extract_from_pdf e pdf_bytes (pdf_system_prompt s)) as [called [text|x]];
    cbn [fst snd]; auto.
Qed.

(** C9: a falsy cached extraction (an empty mapping, list or string, zero,
    [false]) is treated as no context.  The auditor's instruction for it is
    the rubric alone; the submit writes the same page and sends the same
    requests as if nothing were cached; and with an image and a document
    attached the extractor is invoked again whatever the stored digest. *)
Theorem C9_falsy_cache_counts_as_no_context :
  forall (py_repr : pyvalue -> str) (e : env) (s : session_state),
    truthy (pdf_extracted s) = false ->
    system_instruction_text py_repr (pdf_extracted s) = base_system
    /\ trace (submit py_repr e s) = trace (submit py_repr e (without_extracted s))
    /\ ended (submit py_repr e s) = ended (submit py_repr e (without_extracted s))
    /\ (forall digest, extraction_due s digest = true)
    /\ (forall img image_bytes pdf,
          image_file e = Some img -> contents img = Return image_bytes ->
          pdf_file e = Some pdf ->
          calls Extractor (trace (submit py_repr e s))
          = if api_key_missing e then []
            else [extraction_request (document_bytes pdf) (pdf_system_prompt s)]).
Proof.
  intros py_repr e s H.
  split; [now apply system_instruction_falsy|].
  assert (T : trace (submit py_repr e s) = trace (submit py_repr e (without_extracted s))
              /\ ended (submit py_repr e s)
                 = ended (submit py_repr e (without_extracted s))).
  { unfold submit.
    destruct (image_file e) as [img|]; [|auto].
    destruct (contents img) as [image_bytes|x]; [|auto].
    destruct (document_step_falsy e s H) as [Hev Hctx].
    destruct (document_step e s) as [[s1 ev1] c1].
    destruct (document_step e (without_extracted s)) as [[s2 ev2] c2].
    cbn [fst snd] in *. subst ev2.
    assert (A : analyze_image py_repr e image_bytes (image_mime img) c1
                = analyze_image py_repr e image_bytes (image_mime img) c2).
    { destruct Hctx as [->|[F ->]]; [reflexivity | now apply analyze_image_falsy]. }
    rewrite A.
    destruct (analyze_image py_repr e image_bytes (image_mime img) c2)
      as [audit_events [[|c t]|]]; auto.
    destruct (display_qa_result py_repr (c :: t)); auto. }
  destruct T as [T1 T2]. split; [exact T1|]. split; [exact T2|].
  split; [intros digest; now apply extraction_due_falsy|].
  intros img image_bytes pdf Hi Hc Hp.
  rewrite (submit_calls py_repr e s img image_bytes Extractor Hi Hc).
  destruct (analyze_image_calls py_repr e image_bytes (image_mime img)
              (snd (document_step e s))) as [-> _].
  rewrite app_nil_r. unfold document_step, document_bytes. rewrite Hp.
  destruct (hash_document pdf) as [[pdf_bytes digest] warned] eqn:Hh.
  rewrite (extraction_due_falsy s digest H).
  pose proof (extract_from_pdf_calls e pdf_bytes (pdf_system_prompt s)) as HC.
  pose proof (hash_document_silent pdf Extractor) as HS. rewrite Hh in HS.
  destruct (extract_from_pdf e pdf_bytes (pdf_system_prompt s)) as [called [text|x]];
    cbn [fst snd] in *; rewrite !calls_app, HS, HC;
    destruct (api_key_missing e); try reflexivity.
  all: unfold show_extracted_now; destruct (is_dict_or_list _); reflexivity.
Qed.

(** C9 at a session whose cached extraction is the empty mapping, with
    the document of the stored digest attached. *)
Lemma C9_witness_empty_mapping_cached :
  system_instruction_text repr_unused (pdf_extracted cached_empty) = base_system
  /\ trace (submit repr_unused extracts_nothing cached_empty)
     = trace (submit repr_unused extracts_nothing (without_extracted cached_empty))
  /\ ended (submit repr_unused extracts_nothing cached_empty)
     = ended (submit repr_unused extracts_nothing (without_extracted cached_empty))
  /\ (forall digest, extraction_due cached_empty digest = true)
  /\ (forall img image_bytes pdf,
        image_file extracts_nothing = Some img ->
        contents img = Return image_bytes ->
        pdf_file extracts_nothing = Some pdf ->
        calls Extractor (trace (submit repr_unused extracts_nothing cached_empty))
        = if api_key_missing extracts_nothing then []
          else [extraction_request (document_bytes pdf)
                  (pdf_system_prompt cached_empty)]).
Proof.
  exact (C9_falsy_cache_counts_as_no_context repr_unused extracts_nothing
           cached_empty eq_refl).
Defined.

(* ================================================================== *)
(** * Showing the verdict (C5, C6, C10)                                 *)
(* ================================================================== *)

Lemma display_mapping (py_repr : pyvalue -> str) (text : str) (result_json : dict) :
  json_loads (_clean_model_json text) = Some (PyDict result_json) ->
  display_qa_result py_repr text
  = ([qa_heading;
      st_markdown
        (result_card py_repr
           (if eq_False (dict_get result_json (py "Issue_Present") (PyBool false))
            then success_card else error_card)
           (dict_get result_json (py "Category") (PyStr (py "Unknown")))
           (dict_get result_json (py "Description")
              (PyStr (py "No description provided.")))
           (dict_get result_json (py "Resolution")
              (PyStr (py "No Soultion provided."))))
        true],
     Completed).
Proof.
  intros H. unfold display_qa_result. rewrite H.
  now destruct (eq_False (dict_get result_json (py "Issue_Present") (PyBool false))).
Qed.

Lemma display_unparsed (py_repr : pyvalue -> str) (text : str) :
  json_loads (_clean_model_json text) = None ->
  display_qa_result py_repr text
  = ([qa_heading; st_markdown (warning_card text) true], Completed).
Proof. intros H. unfold display_qa_result. now rewrite H. Qed.

Lemma dict_get_found (d : dict) (key : str) (default v : pyvalue) :
  dict_lookup d key = Some v -> dict_get d key default = v.
Proof. intros H. unfold dict_get. now rewrite H. Qed.

Lemma dict_get_missing (d : dict) (key : str) (default : pyvalue) :
  dict_lookup d key = None -> dict_get d key default = default.
Proof. intros H. unfold dict_get. now rewrite H. Qed.

(** The fallback card is none of the two result cards: its markup starts
    four columns further left. *)
Lemma warning_card_distinct (py_repr : pyvalue -> str) (css : str)
    (category description resolution : pyvalue) (text : str) :
  result_card py_repr css category description resolution <> warning_card text.
Proof.
  intros H. apply (f_equal (fun body => nth 17 body 0%N)) in H.
  vm_compute in H. discriminate.
Qed.

(** The markup of a result card: the class and the three fields, each
    printed as [str] prints it, in their tags. *)
Lemma result_card_markup (py_repr : pyvalue -> str) (css : str)
    (category description resolution : pyvalue) :
  result_card_of css (py_str py_repr category) (py_str py_repr description)
    (py_str py_repr resolution)
    (result_card py_repr css category description resolution).
Proof.
  exists (nl ++ spaces 20), (nl ++ spaces 24), (nl ++ spaces 24),
         (nl ++ spaces 24), (nl ++ spaces 20), (nl ++ spaces 20).
  repeat (split; [reflexivity|]). unfold result_card.
  now rewrite <- !app_assoc.
Qed.

(** The markup of the fallback card: the text stands in it unchanged. *)
Lemma fallback_card_markup (raw : str) : fallback_card_of raw (warning_card raw).
Proof.
  exists (nl ++ spaces 16), (nl ++ spaces 20), (nl ++ spaces 20),
         (nl ++ spaces 20), (nl ++ spaces 16), (nl ++ spaces 16).
  repeat (split; [reflexivity|]). unfold warning_card.
  now rewrite <- !app_assoc.
Qed.

(** The two result cards differ whatever they carry: the class names part
    at their first letter. *)
Lemma result_cards_differ (py_repr : pyvalue -> str)
    (c d r c' d' r' : pyvalue) :
  result_card py_repr success_card c d r <> result_card py_repr error_card c' d' r'.
Proof.
  intros H. apply (f_equal (fun body => nth 45 body 0%N)) in H.
  vm_compute in H. discriminate.
Qed.

(** What a result card contains: its class and each field in its tag. *)
Lemma result_card_shows (py_repr : pyvalue -> str) (css : str)
    (category description resolution : pyvalue) :
  occurs (py "result-card " ++ css ++ dq)
    (result_card py_repr css category description resolution)
  /\ occurs (py "<h4>" ++ py_str py_repr category ++ py "</h4>")
       (result_card py_repr css category description resolution)
  /\ occurs (py "<p>" ++ py_str py_repr description ++ py "</p>")
       (result_card py_repr css category description resolution)
  /\ occurs (py "<p><strong>" ++ py_str py_repr resolution ++ py "</strong></p>")
       (result_card py_repr css category description resolution).
Proof.
  unfold result_card, occurs. repeat split.
  - exists (nl ++ spaces 20 ++ py "<div class=" ++ dq). eexists.
    rewrite <- !app_assoc. reflexivity.
  - exists (nl ++ spaces 20 ++ py "<div class=" ++ dq ++ py "result-card " ++ css
            ++ dq ++ py ">" ++ nl ++ spaces 24). eexists.
    rewrite <- !app_assoc. reflexivity.
  - exists (nl ++ spaces 20 ++ py "<div class=" ++ dq ++ py "result-card " ++ css
            ++ dq ++ py ">" ++ nl ++ spaces 24 ++ py "<h4>"
            ++ py_str py_repr category ++ py "</h4>" ++ nl ++ spaces 24). eexists.
    rewrite <- !app_assoc. reflexivity.
  - exists (nl ++ spaces 20 ++ py "<div class=" ++ dq ++ py "result-card " ++ css
            ++ dq ++ py ">" ++ nl ++ spaces 24 ++ py "<h4>"
            ++ py_str py_repr category ++ py "</h4>" ++ nl ++ spaces 24 ++ py "<p>"
            ++ py_str py_repr description ++ py "</p>" ++ nl ++ spaces 24). eexists.
    rewrite <- !app_assoc. reflexivity.
Qed.

(** A run whose audit returned a non-empty answer ends with the display of
    that answer. *)
Lemma submit_displays (py_repr : pyvalue -> str) (e : env) (s : session_state)
    (img : uploaded_file) (image_bytes : bytes) (text : str) :
  image_file e = Some img -> contents img = Return image_bytes ->
  auditor_outcome py_repr e s img image_bytes = Return text ->
  text <> [] ->
  ended (submit py_repr e s) = snd (display_qa_result py_repr text)
  /\ exists before,
       trace (submit py_repr e s) = before ++ fst (display_qa_result py_repr text).
Proof.
  intros Hi Hc Ha Hne.
  pose proof (submit_with_image py_repr e s img image_bytes Hi Hc) as H.
  unfold auditor_outcome in Ha.
  destruct (document_step e s) as [[s1 doc_events] pdf_ctx]. cbn [fst snd] in *.
  unfold analyze_image in H.
  destruct (call_gemini_api py_repr e image_bytes (image_mime img) pdf_ctx)
    as [called outcome]. cbn [fst snd] in *. subst outcome.
  destruct text as [|c t]; [congruence|]. cbn [fst snd] in H.
  destruct H as (_ & Ht & He). split; [exact He|].
  exists (doc_events ++ called). now rewrite Ht, app_assoc.
Qed.

(** A run whose audit returned a mapping ends with its card. *)
Lemma submit_shows_mapping (py_repr : pyvalue -> str) (text : str)
    (result_json : dict) :
  json_loads (_clean_model_json text) = Some (PyDict result_json) ->
  forall e s img image_bytes,
    image_file e = Some img -> contents img = Return image_bytes ->
    auditor_outcome py_repr e s img image_bytes = Return text ->
    ended (submit py_repr e s) = Completed
    /\ exists before,
         trace (submit py_repr e s) = before ++ fst (display_qa_result py_repr text).
Proof.
  intros H e s img image_bytes Hi Hc Ha.
  assert (Hne : text <> []) by (intros ->; discriminate).
  destruct (submit_displays py_repr e s img image_bytes text Hi Hc Ha Hne)
    as (He & Ht).
  rewrite (display_mapping py_repr text result_json H) in He. auto.
Qed.

(** C6: for a verdict that parsed to a mapping, the card shown is the
    "no issue" card when [Issue_Present] is [false] and the "issue present"
    card when it is [true]; which of the two depends on the value under
    [Issue_Present] alone.  A verdict that did not parse is shown on a third
    card.  A submit whose audit returned the mapping ends, completed, with
    that card.  As to the markup: a result card is a [div] of the classes
    [result-card] and [success-card] or [error-card] that holds category,
    description and resolution in a heading and two paragraphs, a string as
    its own text; the "no issue" and the "issue present" card differ
    whatever they carry; the third card is a [div] of the class
    [warning-card] that holds the raw text unchanged, and it is none of the
    result cards. *)
Theorem C6_card_follows_Issue_Present :
  forall (py_repr : pyvalue -> str) (text : str) (result_json : dict),
    json_loads (_clean_model_json text) = Some (PyDict result_json) ->
    let category := dict_get result_json (py "Category") (PyStr (py "Unknown")) in
    let description :=
      dict_get result_json (py "Description") (PyStr (py "No description provided.")) in
    let resolution :=
      dict_get result_json (py "Resolution") (PyStr (py "No Soultion provided.")) in
    let shows css :=
      display_qa_result py_repr text
      = ([qa_heading;
          st_markdown (result_card py_repr css category description resolution) true],
         Completed) in
    (dict_lookup result_json (py "Issue_Present") = Some (PyBool false) ->
       shows success_card)
    /\ (dict_lookup result_json (py "Issue_Present") = Some (PyBool true) ->
          shows error_card)
    /\ shows (if eq_False (dict_get result_json (py "Issue_Present") (PyBool false))
              then success_card else error_card)
    /\ (forall raw, json_loads (_clean_model_json raw) = None ->
          display_qa_result py_repr raw
          = ([qa_heading; st_markdown (warning_card raw) true], Completed))
    /\ success_card <> error_card
    /\ (forall css c d r raw, result_card py_repr css c d r <> warning_card raw)
    /\ (forall e s img image_bytes,
          image_file e = Some img -> contents img = Return image_bytes ->
          auditor_outcome py_repr e s img image_bytes = Return text ->
          ended (submit py_repr e s) = Completed
          /\ exists before,
               trace (submit py_repr e s)
               = before ++ fst (display_qa_result py_repr text))
    /\ (forall css c d r,
          result_card_of css (py_str py_repr c) (py_str py_repr d)
            (py_str py_repr r) (result_card py_repr css c d r))
    /\ (forall t, py_str py_repr (PyStr t) = t)
    /\ (forall c d r c' d' r',
          result_card py_repr success_card c d r
          <> result_card py_repr error_card c' d' r')
    /\ (forall raw, fallback_card_of raw (warning_card raw)).
Proof.
  intros py_repr text result_json H category description resolution shows.
  subst shows category description resolution. cbv beta.
  pose proof (submit_shows_mapping py_repr text result_json H) as S.
  rewrite (display_mapping py_repr text result_json H).
  split; [intros L; now rewrite (dict_get_found _ _ _ _ L)|].
  split; [intros L; now rewrite (dict_get_found _ _ _ _ L)|].
  split; [reflexivity|].
  split; [intros raw Hr; now apply display_unparsed|].
  split; [discriminate|].
  split; [intros css c d r raw; apply warning_card_distinct|].
  split.
  { intros e s img image_bytes Hi Hc Ha.
    rewrite <- (display_mapping py_repr text result_json H).
    now apply (S e s img image_bytes). }
  split; [intros css c d r; apply result_card_markup|].
  split; [reflexivity|].
  split; [intros c d r c' d' r'; apply result_cards_differ|].
  intros raw. apply fallback_card_markup.
Qed.

(** C6 at the two verdicts of the specification: [Issue_Present] false
    and true, category [Cleanliness], description [x], resolution [y]; the
    two cards hold the three texts and differ. *)
Lemma C6_witness_clean_and_issue :
  display_qa_result repr_unused verdict_clean
  = ([qa_heading;
      st_markdown
        (result_card repr_unused success_card (PyStr (py "Cleanliness"))
           (PyStr (py "x")) (PyStr (py "y"))) true],
     Completed)
  /\ display_qa_result repr_unused verdict_issue
     = ([qa_heading;
         st_markdown
           (result_card repr_unused error_card (PyStr (py "Cleanliness"))
              (PyStr (py "x")) (PyStr (py "y"))) true],
        Completed)
  /\ result_card_of success_card (py "Cleanliness") (py "x") (py "y")
       (result_card repr_unused success_card (PyStr (py "Cleanliness"))
          (PyStr (py "x")) (PyStr (py "y")))
  /\ result_card_of error_card (py "Cleanliness") (py "x") (py "y")
       (result_card repr_unused error_card (PyStr (py "Cleanliness"))
          (PyStr (py "x")) (PyStr (py "y")))
  /\ result_card repr_unused success_card (PyStr (py "Cleanliness"))
       (PyStr (py "x")) (PyStr (py "y"))
     <> result_card repr_unused error_card (PyStr (py "Cleanliness"))
          (PyStr (py "x")) (PyStr (py "y")).
Proof.
  destruct (C6_card_follows_Issue_Present repr_unused verdict_clean
              [(py "Issue_Present", PyBool false);
               (py "Category", PyStr (py "Cleanliness"));
               (py "Description", PyStr (py "x"));
               (py "Resolution", PyStr (py "y"))] eq_refl)
    as (Clean & _ & _ & _ & _ & _ & _ & Markup & _ & Differ & _).
  split; [exact (Clean eq_refl)|].
  split.
  { exact (proj1 (proj2 (C6_card_follows_Issue_Present repr_unused verdict_issue
                    [(py "Issue_Present", PyBool true);
                     (py "Category", PyStr (py "Cleanliness"));
                     (py "Description", PyStr (py "x"));
                     (py "Resolution", PyStr (py "y"))] eq_refl)) eq_refl). }
  split; [exact (Markup success_card (PyStr (py "Cleanliness")) (PyStr (py "x"))
                   (PyStr (py "y")))|].
  split; [exact (Markup error_card (PyStr (py "Cleanliness")) (PyStr (py "x"))
                   (PyStr (py "y")))|].
  apply Differ.
Defined.

(** C10: every verdict that parsed to a mapping is shown on a result card
    and the handler completes, whichever keys the mapping has.  A missing
    [Issue_Present] selects the "no issue" card; a missing [Category],
    [Description] or [Resolution] is shown as ["Unknown"],
    ["No description provided."] or ["No Soultion provided."]; a key that is
    present is shown with its own value.  A submit whose audit returned the
    mapping completes.  The markup of the card holds the class and the three
    values in their tags: with [Issue_Present] missing it has the class
    [success-card], and with a field missing it has the default text of the
    field in the field's tag. *)
Theorem C10_every_mapping_is_rendered :
  forall (py_repr : pyvalue -> str) (text : str) (result_json : dict),
    json_loads (_clean_model_json text) = Some (PyDict result_json) ->
    exists css category description resolution,
      display_qa_result py_repr text
      = ([qa_heading;
          st_markdown (result_card py_repr css category description resolution) true],
         Completed)
      /\ (css = success_card \/ css = error_card)
      /\ (dict_lookup result_json (py "Issue_Present") = None -> css = success_card)
      /\ category
         = match dict_lookup result_json (py "Category") with
           | Some v => v
           | None => PyStr (py "Unknown")
           end
      /\ description
         = match dict_lookup result_json (py "Description") with
           | Some v => v
           | None => PyStr (py "No description provided.")
           end
      /\ resolution
         = match dict_lookup result_json (py "Resolution") with
           | Some v => v
           | None => PyStr (py "No Soultion provided.")
           end
      /\ (forall default, py_str py_repr (PyStr default) = default)
      /\ (forall e s img image_bytes,
            image_file e = Some img -> contents img = Return image_bytes ->
            auditor_outcome py_repr e s img image_bytes = Return text ->
            ended (submit py_repr e s) = Completed)
      /\ result_card_of css (py_str py_repr category) (py_str py_repr description)
           (py_str py_repr resolution)
           (result_card py_repr css category description resolution)
      /\ (dict_lookup result_json (py "Issue_Present") = None ->
          occurs (py "result-card success-card" ++ dq)
            (result_card py_repr css category description resolution))
      /\ (dict_lookup result_json (py "Category") = None ->
          occurs (py "<h4>Unknown</h4>")
            (result_card py_repr css category description resolution))
      /\ (dict_lookup result_json (py "Description") = None ->
          occurs (py "<p>No description provided.</p>")
            (result_card py_repr css category description resolution))
      /\ (dict_lookup result_json (py "Resolution") = None ->
          occurs (py "<p><strong>No Soultion provided.</strong></p>")
            (result_card py_repr css category description resolution)).
Proof.
  intros py_repr text result_json H.
  eexists _, _, _, _. split; [apply (display_mapping py_repr text result_json H)|].
  match goal with
  | |- context [result_card py_repr ?css ?c ?d ?r] =>
      destruct (result_card_shows py_repr css c d r) as (S1 & S2 & S3 & S4)
  end.
  split; [destruct (eq_False _); auto|].
  split; [intros L; now rewrite (dict_get_missing _ _ _ L)|].
  split; [reflexivity|]. split; [reflexivity|]. split; [reflexivity|].
  split; [reflexivity|].
  split.
  { intros e s img image_bytes Hi Hc Ha.
    now apply (submit_shows_mapping py_repr text result_json H e s img image_bytes). }
  split; [apply result_card_markup|].
  split.
  { intros L. rewrite (dict_get_missing _ _ (PyBool false) L) in *. exact S1. }
  split.
  { intros L. rewrite (dict_get_missing _ _ (PyStr (py "Unknown")) L) in *. exact S2. }
  split.
  { intros L.
    rewrite (dict_get_missing _ _ (PyStr (py "No description provided.")) L) in *.
    exact S3. }
  intros L.
  rewrite (dict_get_missing _ _ (PyStr (py "No Soultion provided.")) L) in *.
  exact S4.
Qed.

(** C10 at the verdict [{}], which has none of the four keys. *)
Lemma C10_witness_empty_mapping :
  exists css category description resolution,
    display_qa_result repr_unused (py "{}")
    = ([qa_heading;
        st_markdown (result_card repr_unused css category description resolution) true],
       Completed)
    /\ (css = success_card \/ css = error_card)
    /\ (dict_lookup [] (py "Issue_Present") = None -> css = success_card)
    /\ category
       = match dict_lookup [] (py "Category") with
         | Some v => v
         | None => PyStr (py "Unknown")
         end
    /\ description
       = match dict_lookup [] (py "Description") with
         | Some v => v
         | None => PyStr (py "No description provided.")
         end
    /\ resolution
       = match dict_lookup [] (py "Resolution") with
         | Some v => v
         | None => PyStr (py "No Soultion provided.")
         end
    /\ (forall default, py_str repr_unused (PyStr default) = default)
    /\ (forall e s img image_bytes,
          image_file e = Some img -> contents img = Return image_bytes ->
          auditor_outcome repr_unused e s img image_bytes = Return (py "{}") ->
          ended (submit repr_unused e s) = Completed)
    /\ result_card_of css (py_str repr_unused category)
         (py_str repr_unused description) (py_str repr_unused resolution)
         (result_card repr_unused css category description resolution)
    /\ (dict_lookup [] (py "Issue_Present") = None ->
        occurs (py "result-card success-card" ++ dq)
          (result_card repr_unused css category description resolution))
    /\ (dict_lookup [] (py "Category") = None ->
        occurs (py "<h4>Unknown</h4>")
          (result_card repr_unused css category description resolution))
    /\ (dict_lookup [] (py "Description") = None ->
        occurs (py "<p>No description provided.</p>")
          (result_card repr_unused css category description resolution))
    /\ (dict_lookup [] (py "Resolution") = None ->
        occurs (py "<p><strong>No Soultion provided.</strong></p>")
          (result_card repr_unused css category description resolution)).
Proof.
  exact (C10_every_mapping_is_rendered repr_unused (py "{}") [] eq_refl).
Defined.

Lemma parse_extracted_unparsed (text : str) :
  json_loads (_clean_model_json text) = None -> parse_extracted text = PyStr text.
Proof. intros H. unfold parse_extracted. now rewrite H. Qed.

(** C5, as the code has it: text whose cleaned form is not JSON is kept as
    it is.  As the answer of the extractor it becomes the cached extraction
    (a string) and the raw text, and the submit goes on to the audit with it.
    As the answer of the auditor, when it is not empty, it is shown verbatim
    on the fallback card and the handler completes: the markup of that card
    is a [div] of the class [warning-card] that holds the text, character
    for character, in its [pre] element, and it is none of the result
    cards.  (An empty answer of the auditor ends the submit before anything
    is shown.) *)
Theorem C5_unparsed_text_is_kept_and_shown :
  forall (py_repr : pyvalue -> str) (text : str),
    json_loads (_clean_model_json text) = None ->
    parse_extracted text = PyStr text
    /\ display_qa_result py_repr text
       = ([qa_heading; st_markdown (warning_card text) true], Completed)
    /\ (forall e s img image_bytes pdf,
          image_file e = Some img -> contents img = Return image_bytes ->
          pdf_file e = Some pdf ->
          extraction_due s (new_hash pdf) = true ->
          extractor_outcome e s pdf = Return text ->
          pdf_extracted (final (submit py_repr e s)) = PyStr text
          /\ pdf_extract_raw (final (submit py_repr e s)) = Some text
          /\ calls Auditor (trace (submit py_repr e s))
             = [audit_request py_repr image_bytes (image_mime img) (PyStr text)])
    /\ (forall e s img image_bytes,
          image_file e = Some img -> contents img = Return image_bytes ->
          auditor_outcome py_repr e s img image_bytes = Return text ->
          text <> [] ->
          ended (submit py_repr e s) = Completed
          /\ exists before,
               trace (submit py_repr e s)
               = before ++ [qa_heading; st_markdown (warning_card text) true])
    /\ fallback_card_of text (warning_card text)
    /\ (forall css category description resolution,
          result_card py_repr css category description resolution
          <> warning_card text).
Proof.
  intros py_repr text H.
  pose proof (parse_extracted_unparsed text H) as P.
  pose proof (display_unparsed py_repr text H) as D.
  split; [exact P|]. split; [exact D|]. split; [|split; [|split]].
  - intros e s img image_bytes pdf Hi Hc Hp Hd Ho.
    destruct (submit_extracted py_repr e s img image_bytes pdf text Hi Hc Hp Hd Ho)
      as (Hf & _ & HA).
    rewrite Hf, HA, P. auto.
  - intros e s img image_bytes Hi Hc Ha Hne.
    destruct (submit_displays py_repr e s img image_bytes text Hi Hc Ha Hne)
      as (He & before & Ht).
    rewrite D in He, Ht. split; [exact He | now exists before].
  - apply fallback_card_markup.
  - intros css category description resolution. apply warning_card_distinct.
Qed.

(** C5 at the text ["no fences here, not json"], answered to both
    requests of a submit. *)
Lemma C5_witness_prose :
  parse_extracted not_json = PyStr not_json
  /\ display_qa_result repr_unused not_json
     = ([qa_heading; st_markdown (warning_card not_json) true], Completed)
  /\ (pdf_extracted (final (submit repr_unused prose_answers (initial_state prompt)))
      = PyStr not_json
      /\ pdf_extract_raw (final (submit repr_unused prose_answers (initial_state prompt)))
         = Some not_json
      /\ calls Auditor (trace (submit repr_unused prose_answers (initial_state prompt)))
         = [audit_request repr_unused (bytes_of "JFIF room 214") (image_mime photo)
              (PyStr not_json)])
  /\ (ended (submit repr_unused prose_answers (initial_state prompt)) = Completed
      /\ exists before,
           trace (submit repr_unused prose_answers (initial_state prompt))
           = before ++ [qa_heading; st_markdown (warning_card not_json) true])
  /\ fallback_card_of not_json (warning_card not_json)
  /\ (forall css category description resolution,
        result_card repr_unused css category description resolution
        <> warning_card not_json).
Proof.
  pose proof (C5_unparsed_text_is_kept_and_shown repr_unused not_json eq_refl)
    as (P & D & X & V & M & N).
  split; [exact P|]. split; [exact D|]. split; [|split; [|split]].
  - apply (X prose_answers (initial_state prompt) photo (bytes_of "JFIF room 214")
             manual_v1); vm_compute; reflexivity.
  - apply (V prose_answers (initial_state prompt) photo (bytes_of "JFIF room 214"));
      try (vm_compute; reflexivity).
    vm_compute. discriminate.
  - exact M.
  - exact N.
Defined.

(** C5 as written fails for an answer of the auditor that is empty once
    trimmed: its cleaned form is not JSON, yet the submit stops and shows
    nothing, neither the raw text nor the fallback card. *)
Lemma C5_counterexample_blank_answer :
  json_loads (_clean_model_json []) = None
  /\ auditor_outcome repr_unused blank_answer (initial_state prompt) photo
       (bytes_of "JFIF room 214") = Return []
  /\ ended (submit repr_unused blank_answer (initial_state prompt)) = Stopped
  /\ page (trace (submit repr_unused blank_answer (initial_state prompt))) = []
  /\ ended (submit repr_unused blank_answer (initial_state prompt))
     <> snd (display_qa_result repr_unused []).
Proof.
  repeat split; try (vm_compute; reflexivity). vm_compute. discriminate.
Qed.

(* ================================================================== *)
(** * The JSON scanner never runs out of steps                          *)
(* ================================================================== *)

Lemma skip_ws_le (s : str) : List.length (skip_ws s) <= List.length s.
Proof.
  induction s as [|c s IH]; simpl; [lia|]. destruct (is_ws c); simpl; lia.
Qed.

Lemma scanstring_lt (s : str) :
  forall st pending acc x r,
    scanstring s st pending acc = Some (x, r) -> List.length r < List.length s.
Proof.
  induction s as [|c s IH]; intros st pending acc x r H; [discriminate|].
  assert (K : forall st' p' acc', scanstring s st' p' acc' = Some (x, r) ->
                List.length r < List.length (c :: s)).
  { intros st' p' acc' E. apply IH in E. simpl. lia. }
  cbn [scanstring] in H.
  repeat match type of H with
         | Some _ = Some _ =>
             injection H as <- <-; simpl; lia
         | scanstring s _ _ _ = Some _ => exact (K _ _ _ H)
         | None = Some _ => discriminate
         | context [match ?b with _ => _ end] => destruct b
         end.
Qed.

Lemma span_digits_le (s : str) :
  List.length (snd (span_digits s)) <= List.length s.
Proof.
  induction s as [|c s IH]; simpl; [lia|].
  destruct (is_digit c); [|simpl; lia].
  destruct (span_digits s) as [ds rest]. simpl in *. lia.
Qed.

Lemma int_part_lt (s ids r : str) :
  int_part s = Some (ids, r) -> List.length r < List.length s.
Proof.
  unfold int_part. destruct s as [|c s]; [discriminate|].
  destruct (c =? ch "0")%N.
  - intros H; injection H as <- <-. simpl; lia.
  - destruct (is_digit c) eqn:D; [|discriminate].
    intros H; injection H as H. simpl in H. rewrite D in H.
    pose proof (span_digits_le s) as L.
    destruct (span_digits s) as [ds rest]. injection H as <- <-. simpl in *. lia.
Qed.

Lemma frac_part_le (s fds r : str) :
  frac_part s = Some (fds, r) -> List.length r <= List.length s.
Proof.
  unfold frac_part. destruct s as [|c s]; [discriminate|].
  destruct (c =? ch ".")%N; [|discriminate].
  pose proof (span_digits_le s) as L.
  destruct (span_digits s) as [[|d ds] rest]; [discriminate|].
  intros H; injection H as <- <-. simpl in *. lia.
Qed.

Lemma exp_part_le (s r : str) (e : Z) :
  exp_part s = Some (e, r) -> List.length r <= List.length s.
Proof.
  unfold exp_part. destruct s as [|c s]; [discriminate|].
  destruct ((c =? ch "e") || (c =? ch "E"))%N; [|discriminate].
  destruct s as [|sg s1].
  - simpl. discriminate.
  - destruct (sg =? ch "-")%N; [|destruct (sg =? ch "+")%N].
    + pose proof (span_digits_le s1) as L.
      destruct (span_digits s1) as [[|d ds] rest]; [discriminate|].
      intros H; injection H as _ <-. simpl in *. lia.
    + pose proof (span_digits_le s1) as L.
      destruct (span_digits s1) as [[|d ds] rest]; [discriminate|].
      intros H; injection H as _ <-. simpl in *. lia.
    + pose proof (span_digits_le (sg :: s1)) as L.
      destruct (span_digits (sg :: s1)) as [[|d ds] rest]; [discriminate|].
      intros H; injection H as _ <-. simpl in *. lia.
Qed.

Lemma match_number_lt (s r : str) (v : pyvalue) :
  match_number s = Some (v, r) -> List.length r < List.length s.
Proof.
  unfold match_number.
  set (start := match s with
                | c :: r0 => if (c =? ch "-")%N then (true, r0) else (false, s)
                | [] => (false, s)
                end).
  assert (L1 : List.length (snd start) <= List.length s).
  { subst start. destruct s as [|c r0]; [simpl; lia|].
    destruct (c =? ch "-")%N; simpl; lia. }
  destruct start as [neg s1]. simpl in L1.
  destruct (int_part s1) as [[ids s2]|] eqn:E1; [|discriminate].
  apply int_part_lt in E1.
  destruct (frac_part s2) as [[fds s3]|] eqn:E2.
  - apply frac_part_le in E2.
    destruct (exp_part s3) as [[e s4]|] eqn:E3.
    + apply exp_part_le in E3. intros H; injection H as _ <-. lia.
    + intros H; injection H as _ <-. lia.
  - destruct (exp_part s2) as [[e s4]|] eqn:E3.
    + apply exp_part_le in E3. intros H; injection H as _ <-. lia.
    + intros H; injection H as _ <-. lia.
Qed.

Lemma number_lt (s r : str) (v : pyvalue) :
  number s = Got v r -> List.length r < List.length s.
Proof.
  unfold number. destruct (match_number s) as [[v0 r0]|] eqn:E; [|discriminate].
  intros H; injection H as <- <-. now apply match_number_lt in E.
Qed.

Lemma literal_lt (word : string) (v v' : pyvalue) (s r : str)
    (otherwise : scan pyvalue) :
  py word <> [] ->
  literal word v s otherwise = Got v' r ->
  List.length r < List.length s \/ otherwise = Got v' r.
Proof.
  intros Hw. unfold literal.
  destruct (strip_prefix (py word) s) as [rest|] eqn:E; [|auto].
  intros H; injection H as <- <-. left.
  apply strip_prefix_spec in E. subst s. rewrite length_app.
  destruct (py word); [congruence | simpl; lia].
Qed.

(** What a successful step consumed, read off the equations in context. *)
Ltac consumed :=
  repeat match goal with
  | H : skip_ws ?s = _ :: _ |- _ =>
      let L := fresh "L" in
      pose proof (skip_ws_le s) as L; rewrite H in L; cbn [List.length] in L;
      revert H
  | H : scanstring _ _ _ _ = Some _ |- _ =>
      apply scanstring_lt in H
  | H : number _ = Got _ _ |- _ => apply number_lt in H
  end;
  intros.

Ltac split_scan H :=
  repeat match type of H with
         | context [if ?b then _ else _] => destruct b eqn:?
         | context [match skip_ws ?s with _ => _ end] =>
             destruct (skip_ws s) eqn:?
         | context [match scanstring ?a ?b ?c ?d with _ => _ end] =>
             destruct (scanstring a b c d) as [[? ?]|] eqn:?
         | context [match scan_once ?n ?s with _ => _ end] =>
             destruct (scan_once n s) eqn:?
         end;
  try discriminate.

(** Every successful step of the scanner consumes text. *)
Lemma scan_progress (n : nat) :
  (forall s v r, scan_once n s = Got v r -> List.length r < List.length s)
  /\ (forall s acc v r,
        array_rest n s acc = Got v r -> List.length r < List.length s)
  /\ (forall s acc v r,
        object_member n s acc = Got v r -> List.length r < List.length s)
  /\ (forall s acc v r,
        object_rest n s acc = Got v r -> List.length r < List.length s).
Proof.
  induction n as [|n (IA & IB & IC & ID)].
  - repeat split; intros; discriminate.
  - assert (W : forall s, List.length (skip_ws s) <= List.length s)
      by apply skip_ws_le.
    repeat split.
    + intros s v r H. cbn [scan_once] in H. destruct s as [|c s]; [discriminate|].
      split_scan H; consumed; cbn [List.length] in *;
        try (injection H as <- <-; lia);
        try (apply IC in H; cbn [List.length] in H; lia);
        try (match goal with
             | E : scan_once n _ = Got _ ?rest |- _ =>
                 apply IA in E; apply IB in H;
                 pose proof (W rest); cbn [List.length] in *; lia
             end);
        try (apply literal_lt in H; [|discriminate];
             destruct H as [H|H]; [cbn [List.length] in H; lia|];
             try discriminate; apply number_lt in H; cbn [List.length] in H; lia).
      lia.
    + intros s acc v r H. cbn [array_rest] in H.
      destruct s as [|c s]; [discriminate|].
      split_scan H; consumed; cbn [List.length] in *;
        try (injection H as <- <-; lia).
      match goal with
      | E : scan_once n (skip_ws s) = Got _ ?rest |- _ =>
          apply IA in E; apply IB in H; pose proof (W rest); pose proof (W s); lia
      end.
    + intros s acc v r H. cbn [object_member] in H.
      destruct s as [|c s]; [discriminate|].
      split_scan H; consumed; cbn [List.length] in *.
      match goal with
      | E : scan_once n (skip_ws ?t) = Got _ ?rest |- _ =>
          apply IA in E; apply ID in H; pose proof (W rest); pose proof (W t); lia
      end.
    + intros s acc v r H. cbn [object_rest] in H.
      destruct s as [|c s]; [discriminate|].
      split_scan H; consumed; cbn [List.length] in *;
        try (injection H as <- <-; lia).
      apply IC in H. pose proof (W s). lia.
Qed.

Lemma literal_steps (word : string) (v : pyvalue) (s : str) :
  literal word v s Bad <> OutOfSteps
  /\ literal word v s (number s) <> OutOfSteps
  /\ number s <> OutOfSteps.
Proof.
  unfold literal, number.
  destruct (strip_prefix (py word) s); destruct (match_number s) as [[? ?]|];
    repeat split; discriminate.
Qed.

(** With more steps than characters the scanner never runs out of steps. *)
Lemma scan_steps (n : nat) :
  (forall s, List.length s < n -> scan_once n s <> OutOfSteps)
  /\ (forall s acc, List.length s < n -> array_rest n s acc <> OutOfSteps)
  /\ (forall s acc, List.length s < n -> object_member n s acc <> OutOfSteps)
  /\ (forall s acc, List.length s < n -> object_rest n s acc <> OutOfSteps).
Proof.
  induction n as [|n (IA & IB & IC & ID)].
  - repeat split; intros; lia.
  - assert (W : forall s, List.length (skip_ws s) <= List.length s)
      by apply skip_ws_le.
    destruct (scan_progress n) as (PA & _).
    repeat split.
    + intros s L H. cbn [scan_once] in H. destruct s as [|c s]; [discriminate|].
      cbn [List.length] in L.
      split_scan H; consumed; cbn [List.length] in *;
        try (apply IC in H; [exact H | cbn [List.length]; lia]);
        try (match goal with
             | E : scan_once n ?t = OutOfSteps |- _ =>
                 apply IA in E; [exact E | cbn [List.length]; lia]
             | E : scan_once n _ = Got _ ?rest |- _ =>
                 apply PA in E; apply IB in H; [exact H|];
                 pose proof (W rest); cbn [List.length] in *; lia
             end);
        try (now apply literal_steps in H).
      now apply (literal_steps "null" PyNone) in H.
    + intros s acc L H. cbn [array_rest] in H.
      destruct s as [|c s]; [discriminate|]. cbn [List.length] in L.
      split_scan H; consumed;
        match goal with
        | E : scan_once n ?t = OutOfSteps |- _ =>
            apply IA in E; [exact E | pose proof (W s); lia]
        | E : scan_once n _ = Got _ ?rest |- _ =>
            apply PA in E; apply IB in H; [exact H|];
            pose proof (W rest); pose proof (W s); lia
        end.
    + intros s acc L H. cbn [object_member] in H.
      destruct s as [|c s]; [discriminate|]. cbn [List.length] in L.
      split_scan H; consumed; cbn [List.length] in *;
        match goal with
        | E : scan_once n (skip_ws ?t) = OutOfSteps |- _ =>
            apply IA in E; [exact E | pose proof (W t); lia]
        | E : scan_once n (skip_ws ?t) = Got _ ?rest |- _ =>
            apply PA in E; apply ID in H; [exact H|];
            pose proof (W rest); pose proof (W t); lia
        end.
    + intros s acc L H. cbn [object_rest] in H.
      destruct s as [|c s]; [discriminate|]. cbn [List.length] in L.
      split_scan H. apply IC in H; [exact H | pose proof (W s); lia].
Qed.

(** [json.loads] is decided within its step budget. *)
Lemma scan_once_steps (s : str) :
  scan_once (S (List.length (skip_ws s))) (skip_ws s) <> OutOfSteps.
Proof. apply (scan_steps (S (List.length (skip_ws s)))). lia. Qed.

(** How [json.loads] reads some texts. *)
Example loads_nested :
  json_loads (py " {" ++ dq ++ py "k" ++ dq ++ py ": [1, -2, true, null, "
              ++ dq ++ py "a\u00e9\n" ++ dq ++ py "], "
              ++ dq ++ py "k2" ++ dq ++ py ":{}}" ++ nl)
  = Some (PyDict [(py "k", PyList [PyInt 1; PyInt (-2); PyBool true; PyNone;
                                    PyStr [97; 233; 10]%N]);
                  (py "k2", PyDict [])]).
Proof. vm_compute. reflexivity. Qed.

Example loads_last_key_wins :
  json_loads (py "{" ++ dq ++ py "a" ++ dq ++ py ":1," ++ dq ++ py "b" ++ dq
              ++ py ":2," ++ dq ++ py "a" ++ dq ++ py ":3}")
  = Some (PyDict [(py "a", PyInt 3); (py "b", PyInt 2)]).
Proof. vm_compute. reflexivity. Qed.

Example loads_surrogate_pair :
  json_loads (dq ++ py "\ud83d\ude00" ++ dq) = Some (PyStr [128512%N]).
Proof. vm_compute. reflexivity. Qed.

Example loads_rejects :
  json_loads [] = None
  /\ json_loads (py "[1,]") = None
  /\ json_loads (py "01") = None
  /\ json_loads (py "{} x") = None
  /\ json_loads (py "{a: 1}") = None
  /\ json_loads not_json = None.
Proof. repeat split; vm_compute; reflexivity. Qed.

Example loads_floats :
  json_loads (py "2.50e1") = Some (PyFloat (FDec false 250 (-1)))
  /\ option_map truthy (json_loads (py "-0.0")) = Some false
  /\ option_map truthy (json_loads (py "1e-400")) = Some false
  /\ option_map truthy (json_loads (py "1e-300")) = Some true.
Proof. repeat split; vm_compute; reflexivity. Qed.

Example dumps_mapping :
  json_dumps repr_unused
    (PyDict [(py "a", PyList [PyInt (-12); PyBool true; PyNone;
                              PyStr [233; 10; 128512; 34]%N]);
             (py "b", PyDict [])])
  = py "{" ++ dq ++ py "a" ++ dq ++ py ": [-12, true, null, "
    ++ dq ++ py "\u00e9\n\ud83d\ude00\" ++ dq ++ dq ++ py "], "
    ++ dq ++ py "b" ++ dq ++ py ": {}}".
Proof. vm_compute. reflexivity. Qed.

(* ================================================================== *)
(** * Further properties: the code-fence cleaner                        *)
(* ================================================================== *)

(** After text without a backtick, a marker that starts with a backtick is
    found where it was put. *)
Lemma first_at_after_plain (a sep b : str) :
  no_backtick a -> first_at (96%N :: sep) (a ++ (96%N :: sep) ++ b) a b.
Proof.
  intros Ha. split; [reflexivity|].
  intros a' b' E.
  destruct (Nat.le_gt_cases (List.length a) (List.length a')) as [L|L]; [exact L|].
  exfalso. apply app_eq_app in E. destruct E as (l & [[E1 E2]|[E1 E2]]).
  - subst a. rewrite length_app in L.
    destruct l as [|c l]; [simpl in L; lia|].
    simpl in E2. injection E2 as E3 _. subst c.
    apply Ha. apply in_or_app. right. now left.
  - subst a'. rewrite length_app in L. lia.
Qed.

(** Before text without a backtick, the closing fence is the last one. *)
Lemma last_at_before_plain (body z : str) :
  no_backtick z -> last_at fence (body ++ fence ++ z) body z.
Proof.
  intros Hz. split; [reflexivity|].
  intros a' b' E.
  destruct (Nat.le_gt_cases (List.length a') (List.length body)) as [L|L]; [exact L|].
  exfalso. apply app_eq_app in E. destruct E as (l & [[E1 E2]|[E1 E2]]).
  - subst body. rewrite length_app in L. lia.
  - subst a'. rewrite length_app in L.
    assert (Ll : 0 < List.length l) by lia.
    assert (Lz : List.length l <= List.length z).
    { apply (f_equal (@List.length N)) in E2. rewrite !length_app in E2.
      change (List.length fence) with 3 in E2. lia. }
    apply Hz.
    assert (N1 : nth (List.length l + 2) (fence ++ z) 0%N = 96%N).
    { rewrite E2, app_nth2 by lia.
      replace (List.length l + 2 - List.length l) with 2 by lia. reflexivity. }
    rewrite app_nth2 in N1 by (change (List.length fence) with 3; lia).
    change (List.length fence) with 3 in N1.
    rewrite <- N1. apply nth_In. lia.
Qed.

(** X1: whatever stands between a [```json] fence and a closing fence comes
    back trimmed, with the prose before and after dropped, as long as the
    prose has no backtick; the same for an untagged fence when the text has
    no [```json] marker. *)
Theorem clean_returns_the_fenced_body :
  forall a body z : str,
    no_backtick a -> no_backtick z ->
    _clean_model_json (a ++ fence_json ++ body ++ fence ++ z) = strip body
    /\ (~ occurs fence_json (a ++ fence ++ body ++ fence ++ z) ->
        _clean_model_json (a ++ fence ++ body ++ fence ++ z) = strip body).
Proof.
  intros a body z Ha Hz. split.
  - apply (defenced_functional (a ++ fence_json ++ body ++ fence ++ z));
      [apply clean_defenced|].
    apply tagged_closed with (a := a) (b := body ++ fence ++ z) (z := z).
    + exact (first_at_after_plain a (py "``json") (body ++ fence ++ z) Ha).
    + now apply last_at_before_plain.
  - intros Hn.
    apply (defenced_functional (a ++ fence ++ body ++ fence ++ z));
      [apply clean_defenced|].
    apply generic_closed with (a := a) (b := body ++ fence ++ z) (z := z).
    + exact Hn.
    + exact (first_at_after_plain a (py "``") (body ++ fence ++ z) Ha).
    + now apply last_at_before_plain.
Qed.

(** X1 for an answer with a sentence before and after the fenced block. *)
Lemma clean_returns_the_fenced_body_witness :
  _clean_model_json
    (py "Here is the result: " ++ fence_json ++ (nl ++ py "{}" ++ nl) ++ fence
       ++ py " Let me know.")
  = strip (nl ++ py "{}" ++ nl)
  /\ (~ occurs fence_json
        (py "Here is the result: " ++ fence ++ (nl ++ py "{}" ++ nl) ++ fence
           ++ py " Let me know.") ->
      _clean_model_json
        (py "Here is the result: " ++ fence ++ (nl ++ py "{}" ++ nl) ++ fence
           ++ py " Let me know.")
      = strip (nl ++ py "{}" ++ nl)).
Proof.
  apply (clean_returns_the_fenced_body (py "Here is the result: ")
           (nl ++ py "{}" ++ nl) (py " Let me know."));
    unfold no_backtick; vm_compute; intuition discriminate.
Defined.

Lemma trimmed_part (s t : str) :
  trimmed s t ->
  (exists l r, s = l ++ t ++ r) /\ no_outer_space t.
Proof.
  intros (l & r & E & _ & _ & Hh & Hl). split; [now exists l, r|]. now split.
Qed.

(** X2: the cleaner never invents text: its result is one contiguous part
    of the answer, and it neither starts nor ends with whitespace. *)
Theorem clean_is_a_trimmed_part_of_the_text :
  forall text : str,
    (exists before after, text = before ++ _clean_model_json text ++ after)
    /\ no_outer_space (_clean_model_json text)
    /\ List.length (_clean_model_json text) <= List.length text.
Proof.
  intros text.
  assert (P : (exists before after, text = before ++ _clean_model_json text ++ after)
              /\ no_outer_space (_clean_model_json text)).
  { destruct (clean_defenced text) as
      [a b m z [Ef _] [El _] | a b [Ef _] _ | a b m z _ [Ef _] [El _]
       | a b _ [Ef _] _ | _].
    - destruct (trimmed_part m (strip m) (strip_trimmed m)) as ((l & r & E) & T).
      split; [|exact T].
      exists (a ++ fence_json ++ l), (r ++ fence ++ z).
      rewrite Ef, El. rewrite E at 1. now rewrite <- !app_assoc.
    - destruct (trimmed_part b (strip b) (strip_trimmed b)) as ((l & r & E) & T).
      split; [|exact T].
      exists (a ++ fence_json ++ l), r.
      rewrite Ef. rewrite E at 1. now rewrite <- !app_assoc.
    - destruct (trimmed_part m (strip m) (strip_trimmed m)) as ((l & r & E) & T).
      split; [|exact T].
      exists (a ++ fence ++ l), (r ++ fence ++ z).
      rewrite Ef, El. rewrite E at 1. now rewrite <- !app_assoc.
    - destruct (trimmed_part b (strip b) (strip_trimmed b)) as ((l & r & E) & T).
      split; [|exact T].
      exists (a ++ fence ++ l), r.
      rewrite Ef. rewrite E at 1. now rewrite <- !app_assoc.
    - destruct (trimmed_part text (strip text) (strip_trimmed text))
        as ((l & r & E) & T).
      split; [|exact T]. now exists l, r. }
  destruct P as [(before & after & E) T].
  split; [now exists before, after|]. split; [exact T|].
  rewrite E at 2. rewrite !length_app. lia.
Qed.

(* ================================================================== *)
(** * Further properties: one submit                                    *)
(* ================================================================== *)

Lemma sites_app (a b : list event) : sites (a ++ b) = sites a ++ sites b.
Proof.
  induction a as [|ev a IH]; simpl; [reflexivity|].
  destruct ev; simpl; now rewrite ?IH.
Qed.

Lemma existsb_app_false (f : event -> bool) (a b : list event) :
  existsb f a = false -> existsb f b = false -> existsb f (a ++ b) = false.
Proof. intros Ha Hb. now rewrite existsb_app, Ha, Hb. Qed.

Lemma hash_document_plain (pdf : uploaded_file) :
  sites (snd (hash_document pdf)) = []
  /\ existsb is_card (snd (hash_document pdf)) = false.
Proof. unfold hash_document. now destruct (contents pdf). Qed.

(** What [response.text.strip()] returns is trimmed. *)
Lemma response_text_trimmed (r : result (option str)) (text : str) :
  response_text r = Return text -> no_outer_space text.
Proof.
  unfold response_text. destruct r as [[t|]|x]; try discriminate.
  intros H; injection H as <-.
  destruct (strip_trimmed t) as (l & r & _ & _ & _ & Hh & Hl). now split.
Qed.

Lemma extract_from_pdf_trimmed (e : env) (pdf_bytes : option bytes)
    (prompt text : str) :
  snd (extract_from_pdf e pdf_bytes prompt) = Return text ->
  no_outer_space text /\ api_key_missing e = false.
Proof.
  unfold extract_from_pdf. destruct (api_key_missing e); cbn [snd];
    [discriminate|].
  intros H. split; [now apply response_text_trimmed in H | reflexivity].
Qed.

Lemma document_step_outcome (e : env) (s : session_state) :
  document_outcome e s (fst (fst (document_step e s)))
    (sites (snd (fst (document_step e s)))) (snd (document_step e s))
  /\ existsb is_card (snd (fst (document_step e s))) = false.
Proof.
  unfold document_step. destruct (pdf_file e) as [pdf|];
    [|split; [constructor | reflexivity]].
  destruct (hash_document_plain pdf) as [HS HC].
  destruct (hash_document pdf) as [[pdf_bytes digest] warned]. cbn [snd] in HS, HC.
  destruct (extraction_due s digest).
  - pose proof (extract_from_pdf_calls e pdf_bytes (pdf_system_prompt s)) as Hc.
    pose proof (extract_from_pdf_trimmed e pdf_bytes (pdf_system_prompt s)) as Ht.
    destruct (extract_from_pdf e pdf_bytes (pdf_system_prompt s))
      as [called [text|x]]; cbn [fst snd] in *; subst called.
    + destruct (Ht text eq_refl) as [T K]. rewrite K.
      rewrite !sites_app, HS. split.
      * replace (sites _ ++ sites _ ++ sites _) with [Extractor]
          by (unfold show_extracted_now; now destruct (is_dict_or_list _)).
        now constructor.
      * apply existsb_app_false; [exact HC|].
        unfold show_extracted_now. now destruct (is_dict_or_list _).
    + rewrite !sites_app, HS. split.
      * replace ([] ++ sites _ ++ sites _)
          with (if api_key_missing e then [] else [Extractor])
          by now destruct (api_key_missing e).
        constructor.
      * apply existsb_app_false; [exact HC|]. now destruct (api_key_missing e).
  - cbn [fst snd]. rewrite sites_app, HS. split; [constructor|].
    now apply existsb_app_false.
Qed.

Lemma analyze_image_sites (py_repr : pyvalue -> str) (e : env)
    (image_bytes : bytes) (mime : str) (ctx : pyvalue) :
  sites (fst (analyze_image py_repr e image_bytes mime ctx))
  = (if api_key_missing e then [] else [Auditor])
  /\ existsb is_card (fst (analyze_image py_repr e image_bytes mime ctx)) = false.
Proof.
  unfold analyze_image, call_gemini_api. destruct (api_key_missing e); cbn.
  - auto.
  - destruct (response_text _); cbn; auto.
Qed.

Lemma display_qa_result_sites (py_repr : pyvalue -> str) (text : str) :
  sites (fst (display_qa_result py_repr text)) = [].
Proof.
  unfold display_qa_result.
  destruct (json_loads (_clean_model_json text)) as [v|]; [|reflexivity].
  destruct v; try reflexivity. now destruct (eq_False _).
Qed.

(** The requests of a run that got past the image. *)
Lemma submit_sites (py_repr : pyvalue -> str) (e : env) (s : session_state)
    (img : uploaded_file) (image_bytes : bytes) :
  image_file e = Some img -> contents img = Return image_bytes ->
  sites (trace (submit py_repr e s))
  = sites (snd (fst (document_step e s)))
    ++ (if api_key_missing e then [] else [Auditor]).
Proof.
  intros Hi Hc. pose proof (submit_with_image py_repr e s img image_bytes Hi Hc) as H.
  destruct (document_step e s) as [[s1 doc_events] pdf_ctx]. cbn [fst snd] in *.
  destruct H as [_ H].
  destruct (analyze_image_sites py_repr e image_bytes (image_mime img) pdf_ctx)
    as [HA _].
  destruct (snd (analyze_image py_repr e image_bytes (image_mime img) pdf_ctx))
    as [[|c t]|]; destruct H as [-> _]; rewrite !sites_app, ?HA; try reflexivity.
  now rewrite display_qa_result_sites, app_nil_r.
Qed.

(** Whichever way a submit ends, its session is what the document step
    left, or the old one when the image was not read. *)
Lemma submit_final (py_repr : pyvalue -> str) (e : env) (s : session_state) :
  final (submit py_repr e s) = s
  \/ final (submit py_repr e s) = fst (fst (document_step e s)).
Proof.
  unfold submit. destruct (image_file e) as [img|]; [|now left].
  destruct (contents img) as [image_bytes|x]; [|now left].
  destruct (document_step e s) as [[s1 doc_events] pdf_ctx].
  destruct (analyze_image py_repr e image_bytes (image_mime img) pdf_ctx)
    as [audit_events [[|c t]|]]; cbn; auto.
  destruct (display_qa_result py_repr (c :: t)); cbn; auto.
Qed.

(** X3: a submit sends at most two requests, and in this order: the
    extraction, when there is one, then the audit.  An extraction request is
    always followed by the audit request, and nothing is sent twice. *)
Theorem submit_sends_extraction_then_audit :
  forall (py_repr : pyvalue -> str) (e : env) (s : session_state),
    sites (trace (submit py_repr e s)) = []
    \/ sites (trace (submit py_repr e s)) = [Auditor]
    \/ sites (trace (submit py_repr e s)) = [Extractor; Auditor].
Proof.
  intros py_repr e s.
  destruct (image_file e) as [img|] eqn:Hi.
  2:{ left. unfold submit. now rewrite Hi. }
  destruct (contents img) as [image_bytes|x] eqn:Hc.
  2:{ left. unfold submit. now rewrite Hi, Hc. }
  rewrite (submit_sites py_repr e s img image_bytes Hi Hc).
  destruct (document_step_outcome e s) as [O _].
  destruct O as [| |text digest T K].
  - destruct (api_key_missing e); auto.
  - destruct (api_key_missing e); auto.
  - rewrite K. auto.
Qed.

(** X4: a submit sends nothing unless an API key is configured and the
    image was attached and read; in particular no document leaves for the
    model without an image beside it. *)
Theorem submit_sends_nothing_without_key_and_image :
  forall (py_repr : pyvalue -> str) (e : env) (s : session_state),
    sites (trace (submit py_repr e s)) <> [] ->
    api_key_missing e = false
    /\ exists img image_bytes,
         image_file e = Some img /\ contents img = Return image_bytes.
Proof.
  intros py_repr e s H.
  destruct (image_file e) as [img|] eqn:Hi.
  2:{ exfalso. apply H. unfold submit. now rewrite Hi. }
  destruct (contents img) as [image_bytes|x] eqn:Hc.
  2:{ exfalso. apply H. unfold submit. now rewrite Hi, Hc. }
  split; [|now exists img, image_bytes].
  rewrite (submit_sites py_repr e s img image_bytes Hi Hc) in H.
  destruct (document_step_outcome e s) as [O _].
  destruct (api_key_missing e) eqn:K; [|reflexivity].
  exfalso. apply H.
  destruct O as [| |text digest T K']; rewrite ?K; try reflexivity.
  congruence.
Qed.

(** X4 at a fresh session with a manual and a photo attached. *)
Lemma submit_sends_nothing_without_key_and_image_witness :
  api_key_missing (extraction_up manual_v1) = false
  /\ exists img image_bytes,
       image_file (extraction_up manual_v1) = Some img
       /\ contents img = Return image_bytes.
Proof.
  apply (submit_sends_nothing_without_key_and_image repr_unused
           (extraction_up manual_v1) (initial_state prompt)).
  vm_compute. discriminate.
Defined.

(** X5: a submit changes the session in two ways only.  Either it is left
    as it was; or the cached extraction and raw text are cleared and nothing
    else; or they are replaced, with the digest, by a fresh extraction whose
    raw text is trimmed, and the panel of the extraction is switched on.  The
    login flag and the prompt never change. *)
Theorem submit_changes_the_cache_only :
  forall (py_repr : pyvalue -> str) (e : env) (s : session_state),
    (final (submit py_repr e s) = s
     \/ final (submit py_repr e s) = cleared s
     \/ exists text digest,
          no_outer_space text
          /\ final (submit py_repr e s)
             = SessionState (authenticated s) (parse_extracted text) (Some text)
                 digest (pdf_system_prompt s) true)
    /\ authenticated (final (submit py_repr e s)) = authenticated s
    /\ pdf_system_prompt (final (submit py_repr e s)) = pdf_system_prompt s
    /\ (pdf_file e = None -> final (submit py_repr e s) = s).
Proof.
  intros py_repr e s.
  assert (D : fst (fst (document_step e s)) = s
              \/ fst (fst (document_step e s)) = cleared s
              \/ exists text digest,
                   no_outer_space text
                   /\ fst (fst (document_step e s))
                      = SessionState (authenticated s) (parse_extracted text)
                          (Some text) digest (pdf_system_prompt s) true).
  { destruct (document_step_outcome e s) as [O _].
    destruct O as [| |text digest T K]; auto.
    right. right. now exists text, digest. }
  assert (F : final (submit py_repr e s) = s
              \/ final (submit py_repr e s) = cleared s
              \/ exists text digest,
                   no_outer_space text
                   /\ final (submit py_repr e s)
                      = SessionState (authenticated s) (parse_extracted text)
                          (Some text) digest (pdf_system_prompt s) true).
  { destruct (submit_final py_repr e s) as [-> | ->]; auto. }
  split; [exact F|].
  split; [|split].
  - destruct F as [-> | [-> | (text & digest & _ & ->)]]; reflexivity.
  - destruct F as [-> | [-> | (text & digest & _ & ->)]]; reflexivity.
  - intros Hp. destruct (submit_final py_repr e s) as [E|E]; [exact E|].
    rewrite E. unfold document_step. now rewrite Hp.
Qed.

Lemma cleared_coherent (s : session_state) : coherent (cleared s).
Proof. reflexivity. Qed.

Lemma submit_coherent (py_repr : pyvalue -> str) (e : env) (s : session_state) :
  coherent s -> coherent (final (submit py_repr e s)).
Proof.
  intros C. destruct (submit_final py_repr e s) as [-> | ->]; [exact C|].
  destruct (document_step_outcome e s) as [O _].
  destruct O as [| |text digest T K]; [exact C | apply cleared_coherent |].
  unfold coherent. cbn. auto.
Qed.

(** X6: through any sequence of submits that starts with nothing cached,
    the cached extraction is exactly the reading of the cached raw text
    (parsed when it parses, the text itself otherwise), the raw text is
    trimmed, and without raw text nothing is cached. *)
Theorem cache_stays_coherent :
  forall (py_repr : pyvalue -> str) (runs : list env) (prompt : str),
    coherent (submits py_repr runs (initial_state prompt)).
Proof.
  intros py_repr runs prompt.
  assert (G : forall s, coherent s -> coherent (submits py_repr runs s)).
  { induction runs as [|e runs IH]; intros s C; [exact C|].
    cbn [submits]. apply IH. now apply submit_coherent. }
  apply G. reflexivity.
Qed.

Lemma hash_changed_false (stored : option str) (data : bytes) :
  hash_changed stored (Some (sha256_hexdigest data)) = false
  <-> stored = Some (sha256_hexdigest data).
Proof.
  split.
  - intros H. destruct (sha256_hexdigest_truthy data) as (c & t & E).
    rewrite E in *. cbn [hash_changed] in H.
    destruct stored as [h0|]; [|discriminate].
    apply negb_false_iff in H. apply str_eqb_eq in H. now subst.
  - intros ->. apply hash_changed_same.
Qed.

(** X7: with a readable image, a readable document and an API key, a submit
    skips the extraction exactly when the cached extraction is truthy and
    the stored digest is the SHA-256 of the attached bytes. *)
Theorem extraction_is_skipped_exactly_on_a_cache_hit :
  forall (py_repr : pyvalue -> str) (e : env) (s : session_state)
         (img : uploaded_file) (image_bytes : bytes)
         (pdf : uploaded_file) (pdf_bytes : bytes),
    image_file e = Some img -> contents img = Return image_bytes ->
    pdf_file e = Some pdf -> contents pdf = Return pdf_bytes ->
    api_key_missing e = false ->
    (calls Extractor (trace (submit py_repr e s)) = []
     <-> truthy (pdf_extracted s) = true
         /\ pdf_hash s = Some (sha256_hexdigest pdf_bytes)).
Proof.
  intros py_repr e s img image_bytes pdf pdf_bytes Hi Hc Hp Hb K.
  destruct (new_hash_readable pdf pdf_bytes Hb) as (Hn & Hdb & Hw).
  assert (G : extraction_due s (new_hash pdf) = false
              <-> truthy (pdf_extracted s) = true
                  /\ pdf_hash s = Some (sha256_hexdigest pdf_bytes)).
  { unfold extraction_due. rewrite Hn, orb_false_iff, negb_false_iff.
    now rewrite hash_changed_false. }
  rewrite <- G.
  destruct (extraction_due s (new_hash pdf)) eqn:Hd.
  - split; [|discriminate]. intros H. exfalso.
    rewrite (submit_calls py_repr e s img image_bytes Extractor Hi Hc) in H.
    apply app_eq_nil in H. destruct H as [H _].
    unfold document_step in H. rewrite Hp in H. unfold new_hash in Hd.
    destruct (hash_document pdf) as [[pb digest] warned]. cbn [fst snd] in *.
    rewrite Hd in H.
    pose proof (extract_from_pdf_calls e pb (pdf_system_prompt s)) as HC.
    rewrite K in HC.
    destruct (extract_from_pdf e pb (pdf_system_prompt s)) as [called [t|x]];
      cbn [fst snd] in *; subst called; rewrite !calls_app in H;
      apply app_eq_nil in H; destruct H as [_ H]; discriminate H.
  - split; [reflexivity|]. intros _.
    now destruct (submit_reuse py_repr e s pdf Hp Hd) as (_ & HE & _).
Qed.

(** X7 at a session that cached the first edition, which is attached. *)
Lemma extraction_is_skipped_exactly_on_a_cache_hit_witness :
  calls Extractor (trace (submit repr_unused (extraction_up manual_v1) cached_v1)) = []
  <-> truthy (pdf_extracted cached_v1) = true
      /\ pdf_hash cached_v1
         = Some (sha256_hexdigest (bytes_of "%PDF-1.4 brand standards")).
Proof.
  apply (extraction_is_skipped_exactly_on_a_cache_hit repr_unused
           (extraction_up manual_v1) cached_v1 photo (bytes_of "JFIF room 214")
           manual_v1 (bytes_of "%PDF-1.4 brand standards"));
    reflexivity.
Defined.

(** X8: when the audit raises (the service refuses, the answer carries no
    text, or no API key is set), the submit reports the failure as its last
    element, shows no card and stops; an extraction made by the same submit
    stays cached. *)
Theorem failed_audit_stops_and_keeps_the_extraction :
  forall (py_repr : pyvalue -> str) (e : env) (s : session_state)
         (img : uploaded_file) (image_bytes : bytes) (x : exc),
    image_file e = Some img -> contents img = Return image_bytes ->
    auditor_outcome py_repr e s img image_bytes = Raise x ->
    ended (submit py_repr e s) = Stopped
    /\ (exists before,
          trace (submit py_repr e s)
          = before ++ [st_error (py "Image analysis failed: " ++ exc_msg x)])
    /\ existsb is_card (trace (submit py_repr e s)) = false
    /\ final (submit py_repr e s) = fst (fst (document_step e s)).
Proof.
  intros py_repr e s img image_bytes x Hi Hc Ha.
  pose proof (submit_with_image py_repr e s img image_bytes Hi Hc) as H.
  destruct (document_step_outcome e s) as [_ HD].
  unfold auditor_outcome in Ha.
  destruct (document_step e s) as [[s1 doc_events] pdf_ctx]. cbn [fst snd] in *.
  destruct (analyze_image_sites py_repr e image_bytes (image_mime img) pdf_ctx)
    as [_ HA].
  unfold analyze_image in H, HA.
  destruct (call_gemini_api py_repr e image_bytes (image_mime img) pdf_ctx)
    as [called outcome]. cbn [fst snd] in *. subst outcome. cbn [fst snd] in *.
  destruct H as (Hf & Ht & He).
  split; [exact He|]. split; [|split; [|exact Hf]].
  - exists (doc_events ++ called). now rewrite Ht, app_assoc.
  - rewrite Ht. now apply existsb_app_false.
Qed.

(** X8 at a fresh session: the manual is extracted, then the audit fails. *)
Lemma failed_audit_stops_and_keeps_the_extraction_witness :
  ended (submit repr_unused audit_down (initial_state prompt)) = Stopped
  /\ (exists before,
        trace (submit repr_unused audit_down (initial_state prompt))
        = before ++ [st_error (py "Image analysis failed: " ++ exc_msg unavailable)])
  /\ existsb is_card (trace (submit repr_unused audit_down (initial_state prompt)))
     = false
  /\ final (submit repr_unused audit_down (initial_state prompt))
     = fst (fst (document_step audit_down (initial_state prompt))).
Proof.
  apply (failed_audit_stops_and_keeps_the_extraction repr_unused audit_down
           (initial_state prompt) photo (bytes_of "JFIF room 214") unavailable);
    reflexivity.
Defined.

(** X9: a verdict that is valid JSON but not a mapping (a list, a string,
    a number, [true], [null]) is not shown at all: after the heading the
    handler ends in an [AttributeError] that nothing catches, and no card is
    written, neither a result card nor the fallback card. *)
Theorem verdict_that_is_not_a_mapping_crashes :
  forall (py_repr : pyvalue -> str) (e : env) (s : session_state)
         (img : uploaded_file) (image_bytes : bytes) (text : str) (v : pyvalue),
    image_file e = Some img -> contents img = Return image_bytes ->
    auditor_outcome py_repr e s img image_bytes = Return text ->
    json_loads (_clean_model_json text) = Some v ->
    (forall d, v <> PyDict d) ->
    ended (submit py_repr e s) = Crashed (has_no_get v)
    /\ exc_class (has_no_get v) = py "AttributeError"
    /\ (exists before, trace (submit py_repr e s) = before ++ [qa_heading])
    /\ existsb is_card (trace (submit py_repr e s)) = false.
Proof.
  intros py_repr e s img image_bytes text v Hi Hc Ha Hj Hv.
  assert (D : display_qa_result py_repr text = ([qa_heading], Crashed (has_no_get v))).
  { unfold display_qa_result. rewrite Hj. destruct v; try reflexivity.
    now destruct (Hv d). }
  assert (Hne : text <> []) by (intros ->; discriminate).
  pose proof (submit_with_image py_repr e s img image_bytes Hi Hc) as H.
  destruct (document_step_outcome e s) as [_ HD].
  unfold auditor_outcome in Ha.
  destruct (document_step e s) as [[s1 doc_events] pdf_ctx]. cbn [fst snd] in *.
  destruct (analyze_image_sites py_repr e image_bytes (image_mime img) pdf_ctx)
    as [_ HA].
  unfold analyze_image in H, HA.
  destruct (call_gemini_api py_repr e image_bytes (image_mime img) pdf_ctx)
    as [called outcome]. cbn [fst snd] in *. subst outcome. cbn [fst snd] in *.
  destruct text as [|c t]; [congruence|]. rewrite D in H. cbn [fst snd] in H.
  destruct H as (_ & Ht & He).
  split; [exact He|]. split; [reflexivity|]. split.
  - exists (doc_events ++ called). now rewrite Ht, app_assoc.
  - rewrite Ht. apply existsb_app_false; [exact HD|].
    now apply existsb_app_false.
Qed.

(** X9 at a verdict that is the list [[1]]. *)
Lemma verdict_that_is_not_a_mapping_crashes_witness :
  ended (submit repr_unused list_verdict (initial_state prompt))
  = Crashed (has_no_get (PyList [PyInt 1]))
  /\ exc_class (has_no_get (PyList [PyInt 1])) = py "AttributeError"
  /\ (exists before,
        trace (submit repr_unused list_verdict (initial_state prompt))
        = before ++ [qa_heading])
  /\ existsb is_card (trace (submit repr_unused list_verdict (initial_state prompt)))
     = false.
Proof.
  apply (verdict_that_is_not_a_mapping_crashes repr_unused list_verdict
           (initial_state prompt) photo (bytes_of "JFIF room 214") (py "[1]")
           (PyList [PyInt 1]));
    try reflexivity.
  intros d. discriminate.
Defined.

(** X10: which card a mapping gets is decided by [Issue_Present == False]
    as Python compares: the "no issue" card for a missing key, [false], the
    integer [0] and a float that is zero; the "issue present" card for
    everything else, among it [true], [null], every string (also ["false"]
    and the empty one), every list and every mapping.  Either card is a
    [div] of its class that holds category, description and resolution, with
    their defaults, in their tags, and the two cards of one verdict
    differ. *)
Theorem card_for_every_Issue_Present :
  forall (py_repr : pyvalue -> str) (text : str) (result_json : dict),
    json_loads (_clean_model_json text) = Some (PyDict result_json) ->
    let card css :=
      display_qa_result py_repr text
      = ([qa_heading;
          st_markdown
            (result_card py_repr css
               (dict_get result_json (py "Category") (PyStr (py "Unknown")))
               (dict_get result_json (py "Description")
                  (PyStr (py "No description provided.")))
               (dict_get result_json (py "Resolution")
                  (PyStr (py "No Soultion provided.")))) true],
         Completed) in
    match dict_lookup result_json (py "Issue_Present") with
    | None | Some (PyBool false) | Some (PyInt 0) => card success_card
    | Some (PyFloat f) =>
        card (if float_is_zero f then success_card else error_card)
    | Some (PyBool true) | Some PyNone | Some (PyInt _) | Some (PyStr _)
    | Some (PyList _) | Some (PyDict _) => card error_card
    end
    /\ (forall css,
          result_card_of css
            (py_str py_repr
               (dict_get result_json (py "Category") (PyStr (py "Unknown"))))
            (py_str py_repr
               (dict_get result_json (py "Description")
                  (PyStr (py "No description provided."))))
            (py_str py_repr
               (dict_get result_json (py "Resolution")
                  (PyStr (py "No Soultion provided."))))
            (result_card py_repr css
               (dict_get result_json (py "Category") (PyStr (py "Unknown")))
               (dict_get result_json (py "Description")
                  (PyStr (py "No description provided.")))
               (dict_get result_json (py "Resolution")
                  (PyStr (py "No Soultion provided.")))))
    /\ result_card py_repr success_card
         (dict_get result_json (py "Category") (PyStr (py "Unknown")))
         (dict_get result_json (py "Description")
            (PyStr (py "No description provided.")))
         (dict_get result_json (py "Resolution")
            (PyStr (py "No Soultion provided.")))
       <> result_card py_repr error_card
            (dict_get result_json (py "Category") (PyStr (py "Unknown")))
            (dict_get result_json (py "Description")
               (PyStr (py "No description provided.")))
            (dict_get result_json (py "Resolution")
               (PyStr (py "No Soultion provided."))).
Proof.
  intros py_repr text result_json H card. subst card. cbv beta.
  split; [|split; [intros css; apply result_card_markup | apply result_cards_differ]].
  pose proof (display_mapping py_repr text result_json H) as D.
  assert (G : dict_get result_json (py "Issue_Present") (PyBool false)
              = match dict_lookup result_json (py "Issue_Present") with
                | Some v => v
                | None => PyBool false
                end) by reflexivity.
  rewrite G in D. clear G.
  destruct (dict_lookup result_json (py "Issue_Present")) as [v|]; [|exact D].
  destruct v as [|[|]|[|p|p]|f|t|l|d]; exact D.
Qed.

(** X10 at the verdict [{"Issue_Present": null}]: the "issue present"
    card with the three default texts. *)
Lemma card_for_every_Issue_Present_witness :
  display_qa_result repr_unused verdict_null
  = ([qa_heading;
      st_markdown
        (result_card repr_unused error_card (PyStr (py "Unknown"))
           (PyStr (py "No description provided."))
           (PyStr (py "No Soultion provided."))) true],
     Completed)
  /\ result_card_of error_card (py "Unknown") (py "No description provided.")
       (py "No Soultion provided.")
       (result_card repr_unused error_card (PyStr (py "Unknown"))
          (PyStr (py "No description provided."))
          (PyStr (py "No Soultion provided."))).
Proof.
  destruct (card_for_every_Issue_Present repr_unused verdict_null
              [(py "Issue_Present", PyNone)] eq_refl) as (Shown & Markup & _).
  split; [exact Shown | exact (Markup error_card)].
Defined.

Lemma in_trace_of_document_step (py_repr : pyvalue -> str) (e : env)
    (s : session_state) (img : uploaded_file) (image_bytes : bytes) (ev : event) :
  image_file e = Some img -> contents img = Return image_bytes ->
  In ev (snd (fst (document_step e s))) -> In ev (trace (submit py_repr e s)).
Proof.
  intros Hi Hc Hin.
  pose proof (submit_with_image py_repr e s img image_bytes Hi Hc) as H.
  destruct (document_step e s) as [[s1 doc_events] pdf_ctx]. cbn [fst snd] in *.
  destruct H as [_ H].
  destruct (snd (analyze_image py_repr e image_bytes (image_mime img) pdf_ctx))
    as [[|c t]|]; destruct H as [-> _]; apply in_or_app; now left.
Qed.

(** X11: when the attached document cannot be read, the submit warns and
    goes on.  A truthy cached extraction is then reused whatever digest is
    stored; without one the extractor is asked all the same, and its request
    carries no document bytes at all. *)
Theorem unreadable_document_is_not_an_error :
  forall (py_repr : pyvalue -> str) (e : env) (s : session_state)
         (img : uploaded_file) (image_bytes : bytes) (pdf : uploaded_file)
         (x : exc),
    image_file e = Some img -> contents img = Return image_bytes ->
    pdf_file e = Some pdf -> contents pdf = Raise x ->
    In (st_warning (py "Unable to read PDF for hashing: " ++ exc_msg x))
       (trace (submit py_repr e s))
    /\ (truthy (pdf_extracted s) = true ->
        final (submit py_repr e s) = s
        /\ calls Extractor (trace (submit py_repr e s)) = [])
    /\ (truthy (pdf_extracted s) = false ->
        calls Extractor (trace (submit py_repr e s))
        = if api_key_missing e then []
          else [extraction_request None (pdf_system_prompt s)]).
Proof.
  intros py_repr e s img image_bytes pdf x Hi Hc Hp Hx.
  assert (Hh : hash_document pdf
               = (None, None,
                  [st_warning (py "Unable to read PDF for hashing: " ++ exc_msg x)])).
  { unfold hash_document. now rewrite Hx. }
  split; [|split].
  - apply (in_trace_of_document_step py_repr e s img image_bytes _ Hi Hc).
    unfold document_step. rewrite Hp, Hh.
    destruct (extraction_due s None).
    + destruct (extract_from_pdf e None (pdf_system_prompt s)) as [called [t|y]];
        cbn [fst snd]; now left.
    + cbn [fst snd]. now left.
  - intros T.
    assert (Hd : extraction_due s (new_hash pdf) = false).
    { unfold extraction_due, new_hash. rewrite Hh, T. reflexivity. }
    destruct (submit_reuse py_repr e s pdf Hp Hd) as (Hf & HE & _). auto.
  - intros F.
    rewrite (submit_calls py_repr e s img image_bytes Extractor Hi Hc).
    destruct (analyze_image_calls py_repr e image_bytes (image_mime img)
                (snd (document_step e s))) as [-> _].
    rewrite app_nil_r. unfold document_step. rewrite Hp, Hh.
    rewrite (extraction_due_falsy s None F).
    pose proof (extract_from_pdf_calls e None (pdf_system_prompt s)) as HC.
    destruct (extract_from_pdf e None (pdf_system_prompt s)) as [called [t|y]];
      cbn [fst snd] in *; subst called; rewrite !calls_app;
      destruct (api_key_missing e); try reflexivity;
      unfold show_extracted_now; destruct (is_dict_or_list _); reflexivity.
Qed.

(** X11 at a session that cached the manual, with an unreadable upload. *)
Lemma unreadable_document_is_not_an_error_witness :
  In (st_warning (py "Unable to read PDF for hashing: " ++ exc_msg closed_file))
     (trace (submit repr_unused unreadable_attached cached_v1))
  /\ (truthy (pdf_extracted cached_v1) = true ->
      final (submit repr_unused unreadable_attached cached_v1) = cached_v1
      /\ calls Extractor (trace (submit repr_unused unreadable_attached cached_v1))
         = [])
  /\ (truthy (pdf_extracted cached_v1) = false ->
      calls Extractor (trace (submit repr_unused unreadable_attached cached_v1))
      = if api_key_missing unreadable_attached then []
        else [extraction_request None (pdf_system_prompt cached_v1)]).
Proof.
  apply (unreadable_document_is_not_an_error repr_unused unreadable_attached
           cached_v1 photo (bytes_of "JFIF room 214") unreadable closed_file);
    reflexivity.
Defined.

Lemma submit_without_document (py_repr : pyvalue -> str) (e : env)
    (s : session_state) :
  pdf_file e = None ->
  final (submit py_repr e s) = s
  /\ calls Extractor (trace (submit py_repr e s)) = [].
Proof.
  intros Hp.
  assert (D : document_step e s = (s, [], pdf_extracted s)).
  { unfold document_step. now rewrite Hp. }
  split.
  - destruct (submit_final py_repr e s) as [E|E]; [exact E|]. now rewrite E, D.
  - destruct (image_file e) as [img|] eqn:Hi.
    2:{ unfold submit. now rewrite Hi. }
    destruct (contents img) as [image_bytes|x] eqn:Hc.
    2:{ unfold submit. now rewrite Hi, Hc. }
    rewrite (submit_calls py_repr e s img image_bytes Extractor Hi Hc), D.
    cbn [fst snd].
    now destruct (analyze_image_calls py_repr e image_bytes (image_mime img)
                    (pdf_extracted s)) as [-> _].
Qed.

Lemma unchanged_document_reuse (py_repr : pyvalue -> str) (e : env)
    (s : session_state) :
  truthy (pdf_extracted s) = true -> unchanged_document s e ->
  final (submit py_repr e s) = s
  /\ calls Extractor (trace (submit py_repr e s)) = [].
Proof.
  intros T U. unfold unchanged_document in U.
  destruct (pdf_file e) as [pdf|] eqn:Hp; [|now apply submit_without_document].
  assert (Hd : extraction_due s (new_hash pdf) = false).
  { unfold extraction_due. rewrite T. destruct U as [-> | ->];
      [reflexivity | now rewrite hash_changed_same]. }
  destruct (submit_reuse py_repr e s pdf Hp Hd) as (Hf & HE & _). auto.
Qed.

(** X12: once a truthy extraction is cached, any number of submits that
    bring no document, an unreadable one, or one with the stored digest leave
    the session exactly as it is, and none of them sends an extraction
    request, whatever the service answers to the audits in between. *)
Theorem cache_is_stable_under_unchanged_documents :
  forall (py_repr : pyvalue -> str) (runs : list env) (s : session_state),
    truthy (pdf_extracted s) = true ->
    Forall (unchanged_document s) runs ->
    submits py_repr runs s = s
    /\ Forall (fun e => calls Extractor (trace (submit py_repr e s)) = []) runs.
Proof.
  intros py_repr runs s T. induction 1 as [|e runs U _ IH]; [now split|].
  destruct (unchanged_document_reuse py_repr e s T U) as [Hf HE].
  cbn [submits]. rewrite Hf. destruct IH as [IH1 IH2].
  split; [exact IH1 | now constructor].
Qed.

(** X12 at a session that cached the manual: the same manual, no document,
    and an unreadable upload, one after the other. *)
Lemma cache_is_stable_under_unchanged_documents_witness :
  submits repr_unused [extraction_up manual_v1; photo_only; unreadable_attached]
    cached_v1 = cached_v1
  /\ Forall (fun e => calls Extractor (trace (submit repr_unused e cached_v1)) = [])
       [extraction_up manual_v1; photo_only; unreadable_attached].
Proof.
  apply (cache_is_stable_under_unchanged_documents repr_unused
           [extraction_up manual_v1; photo_only; unreadable_attached] cached_v1);
    [reflexivity|].
  apply Forall_cons; [right; reflexivity|].
  apply Forall_cons; [exact I|].
  apply Forall_cons; [left; reflexivity|].
  apply Forall_nil.
Defined.

(* ================================================================== *)
(** * Further properties: the script around the handler                 *)
(* ================================================================== *)

Lemma dict_lookup_set_same (d : dict) (key : str) (v : pyvalue) :
  dict_lookup (dict_set d key v) key = Some v.
Proof.
  induction d as [|[k w] d IH]; simpl.
  - now rewrite str_eqb_refl.
  - destruct (str_eqb k key) eqn:E; simpl; rewrite E; [reflexivity | exact IH].
Qed.

Lemma dict_lookup_set_other (d : dict) (key key' : str) (v : pyvalue) :
  key' <> key -> dict_lookup (dict_set d key v) key' = dict_lookup d key'.
Proof.
  intros Hne. induction d as [|[k w] d IH]; simpl.
  - destruct (str_eqb key key') eqn:E; [|reflexivity].
    apply str_eqb_eq in E. congruence.
  - destruct (str_eqb k key) eqn:E; simpl.
    + apply str_eqb_eq in E. subst k.
      destruct (str_eqb key key') eqn:E'; [|reflexivity].
      apply str_eqb_eq in E'. congruence.
    + now rewrite IH.
Qed.

Lemma set_if_missing_keeps (d : store) (key key' : str) (v v' : pyvalue) :
  dict_lookup d key' = Some v' ->
  dict_lookup (set_if_missing d key v) key' = Some v'.
Proof.
  intros H. unfold set_if_missing.
  destruct (dict_lookup d key) eqn:E; [exact H|].
  rewrite dict_lookup_set_other; [exact H | congruence].
Qed.

Lemma set_if_missing_has (d : store) (key : str) (v : pyvalue) :
  dict_lookup (set_if_missing d key v) key <> None.
Proof.
  unfold set_if_missing. destruct (dict_lookup d key) eqn:E.
  - congruence.
  - now rewrite dict_lookup_set_same.
Qed.

Lemma set_if_missing_present (d : store) (key : str) (v : pyvalue) :
  dict_lookup d key <> None -> set_if_missing d key v = d.
Proof.
  intros H. unfold set_if_missing. now destruct (dict_lookup d key).
Qed.

Lemma present_after (d : store) (key key' : str) (v : pyvalue) :
  dict_lookup d key' <> None ->
  dict_lookup (set_if_missing d key v) key' <> None.
Proof.
  intros H. destruct (dict_lookup d key') as [v'|] eqn:E; [|congruence].
  now rewrite (set_if_missing_keeps d key key' v v' E).
Qed.

Lemma initialize_has (d : store) (key : str) :
  In key session_keys -> dict_lookup (initialize d) key <> None.
Proof.
  unfold session_keys, initialize. cbn [In].
  intros [<-|[<-|[<-|[<-|[<-|[<-|[]]]]]]];
    repeat first [apply set_if_missing_has | apply present_after].
Qed.

(** X13: the initialisation at the top of the script fills in the six
    session keys where they are missing and never overwrites a value that is
    stored, so the cached extraction and the login survive every rerun;
    running it again changes nothing, and on an empty store it yields the
    logged-out session with nothing cached. *)
Theorem initialize_fills_in_without_overwriting :
  forall d : store,
    (forall key v, dict_lookup d key = Some v ->
                   dict_lookup (initialize d) key = Some v)
    /\ (forall key, In key session_keys -> dict_lookup (initialize d) key <> None)
    /\ initialize (initialize d) = initialize d
    /\ (forall s, initialize (store_of s) = store_of s)
    /\ initialize [] = store_of fresh.
Proof.
  intros d. split; [|split; [|split; [|split]]].
  - intros key v H. unfold initialize.
    now repeat apply set_if_missing_keeps.
  - intros key. apply initialize_has.
  - assert (P : forall key, In key session_keys ->
                  dict_lookup (initialize d) key <> None)
      by (intros key; apply initialize_has).
    unfold initialize at 1.
    rewrite (set_if_missing_present (initialize d) (py "authenticated"))
      by (apply P; unfold session_keys; cbn [In]; auto 10).
    rewrite (set_if_missing_present (initialize d) (py "pdf_extracted"))
      by (apply P; unfold session_keys; cbn [In]; auto 10).
    rewrite (set_if_missing_present (initialize d) (py "pdf_extract_raw"))
      by (apply P; unfold session_keys; cbn [In]; auto 10).
    rewrite (set_if_missing_present (initialize d) (py "pdf_hash"))
      by (apply P; unfold session_keys; cbn [In]; auto 10).
    rewrite (set_if_missing_present (initialize d) (py "pdf_system_prompt"))
      by (apply P; unfold session_keys; cbn [In]; auto 10).
    apply set_if_missing_present. apply P. unfold session_keys. cbn [In]. auto 10.
  - intros s. reflexivity.
  - reflexivity.
Qed.

Lemma token_matches_iff (APP_PASSWORD : option str) (token : str) :
  token_matches APP_PASSWORD token = true <-> APP_PASSWORD = Some token.
Proof.
  unfold token_matches. destruct APP_PASSWORD as [password|].
  - rewrite str_eqb_eq. split; [now intros -> | now intros [= ->]].
  - split; discriminate.
Qed.

Lemma submit_authenticated (py_repr : pyvalue -> str) (e : env)
    (s : session_state) :
  authenticated (final (submit py_repr e s)) = authenticated s.
Proof.
  destruct (submit_final py_repr e s) as [-> | ->]; [reflexivity|].
  destruct (document_step_outcome e s) as [O _].
  now destruct O.
Qed.

Lemma extracted_panel_frame (w : widgets) (s : session_state) :
  authenticated (fst (extracted_panel w s)) = authenticated s
  /\ pdf_extracted (fst (extracted_panel w s)) = pdf_extracted s
  /\ pdf_extract_raw (fst (extracted_panel w s)) = pdf_extract_raw s
  /\ pdf_hash (fst (extracted_panel w s)) = pdf_hash s
  /\ pdf_system_prompt (fst (extracted_panel w s)) = pdf_system_prompt s
  /\ sites (snd (extracted_panel w s)) = [].
Proof.
  unfold extracted_panel. destruct (pdf_extracted s) eqn:E; cbn; rewrite ?E;
    repeat split; destruct (checkbox w s); try reflexivity;
    unfold raw_markdown; now destruct (pdf_extract_raw s).
Qed.

(** A run on an authenticated session: the prompt is set, the panel is
    drawn, and the handler runs when Submit was clicked. *)
Lemma script_run_authenticated (py_repr : pyvalue -> str)
    (APP_PASSWORD : option str) (e : env) (w : widgets) (s : session_state) :
  authenticated s = true ->
  let s2 := fst (extracted_panel w (with_prompt s extraction_prompt)) in
  script_run py_repr APP_PASSWORD e w s
  = if submit_clicked w then
      ScriptResult (final (submit py_repr e s2))
        (snd (extracted_panel w (with_prompt s extraction_prompt))
           ++ [run_heading] ++ trace (submit py_repr e s2))
        (Finished (ended (submit py_repr e s2)))
    else
      ScriptResult s2
        (snd (extracted_panel w (with_prompt s extraction_prompt)) ++ [run_heading])
        (Finished Completed).
Proof.
  intros A. unfold script_run. rewrite A. cbn [negb].
  now destruct (extracted_panel w (with_prompt s extraction_prompt)).
Qed.

Lemma script_run_keeps_login (py_repr : pyvalue -> str)
    (APP_PASSWORD : option str) (e : env) (w : widgets) (s : session_state) :
  authenticated s = true ->
  authenticated (after (script_run py_repr APP_PASSWORD e w s)) = true
  /\ (exists how, outcome (script_run py_repr APP_PASSWORD e w s) = Finished how).
Proof.
  intros A. rewrite (script_run_authenticated py_repr APP_PASSWORD e w s A).
  destruct (extracted_panel_frame w (with_prompt s extraction_prompt)) as (Ha & _).
  destruct (submit_clicked w); cbn [after outcome].
  - rewrite submit_authenticated, Ha. split; [exact A | eauto].
  - rewrite Ha. split; [exact A | eauto].
Qed.

Lemma script_run_logged_out (py_repr : pyvalue -> str)
    (APP_PASSWORD : option str) (e : env) (w : widgets) (s : session_state) :
  authenticated s = false ->
  script_run py_repr APP_PASSWORD e w s = login_page APP_PASSWORD w s.
Proof. intros A. unfold script_run. now rewrite A. Qed.

(** What a user action does to the login flag. *)
Lemma interaction_authenticated (py_repr : pyvalue -> str)
    (APP_PASSWORD : option str) (e : env) (w : widgets) (s : session_state) :
  authenticated (after (interaction py_repr APP_PASSWORD e w s))
  = authenticated s
    || (login_clicked w && token_matches APP_PASSWORD (token_input w)).
Proof.
  unfold interaction. destruct (authenticated s) eqn:A.
  - destruct (script_run_keeps_login py_repr APP_PASSWORD e w s A) as (H & how & O).
    now rewrite O.
  - rewrite (script_run_logged_out py_repr APP_PASSWORD e w s A).
    unfold login_page.
    destruct (login_clicked w); [|cbn; now rewrite A].
    destruct (token_matches APP_PASSWORD (token_input w)); [|cbn; now rewrite A].
    cbn [outcome after orb andb].
    now destruct (script_run_keeps_login py_repr APP_PASSWORD e (released w)
                    (with_authenticated s) eq_refl) as (H & _).
Qed.

(** X14: a session that starts logged out is logged in exactly when one of
    the user's actions was a click on Login with the configured password in
    the token field.  Nothing else logs in, nothing logs out, and when no
    password is configured ([APP_PASSWORD] unset) no token is accepted. *)
Theorem logged_in_iff_some_login_matched :
  forall (py_repr : pyvalue -> str) (APP_PASSWORD : option str)
         (actions : list (env * widgets)),
    (authenticated (session py_repr APP_PASSWORD actions fresh) = true
     <-> Exists (right_token APP_PASSWORD) actions)
    /\ (APP_PASSWORD = None ->
        authenticated (session py_repr APP_PASSWORD actions fresh) = false).
Proof.
  intros py_repr APP_PASSWORD actions.
  assert (G : forall s,
             authenticated (session py_repr APP_PASSWORD actions s) = true
             <-> authenticated s = true \/ Exists (right_token APP_PASSWORD) actions).
  { induction actions as [|[e w] actions IH]; intros s; cbn [session].
    - rewrite Exists_nil. tauto.
    - rewrite IH, interaction_authenticated, Exists_cons.
      unfold right_token at 2. cbn [snd].
      rewrite orb_true_iff, andb_true_iff, token_matches_iff. tauto. }
  assert (F : authenticated (session py_repr APP_PASSWORD actions fresh) = true
              <-> Exists (right_token APP_PASSWORD) actions).
  { rewrite G. cbn. intuition discriminate. }
  split; [exact F|].
  intros ->. apply not_true_is_false. rewrite F. rewrite Exists_exists.
  intros ([e w] & _ & _ & H). discriminate.
Qed.

Lemma extracted_panel_no_card (w : widgets) (s : session_state) :
  existsb is_card (snd (extracted_panel w s)) = false.
Proof.
  unfold extracted_panel. destruct (pdf_extracted s); cbn;
    destruct (checkbox w s); try reflexivity;
    unfold raw_markdown; now destruct (pdf_extract_raw s).
Qed.

(** X15: while the session is not logged in, a user action reaches nothing
    behind the login page: whatever is uploaded, ticked or clicked, no
    request leaves for the model, no card is written, and the cached
    extraction, raw text and digest stay as they are.  Unless Login was
    clicked with the configured password, the session is unchanged and the
    script stops at the login page. *)
Theorem nothing_runs_before_login :
  forall (py_repr : pyvalue -> str) (APP_PASSWORD : option str) (e : env)
         (w : widgets) (s : session_state),
    authenticated s = false ->
    sites (shown (interaction py_repr APP_PASSWORD e w s)) = []
    /\ existsb is_card (shown (interaction py_repr APP_PASSWORD e w s)) = false
    /\ pdf_extracted (after (interaction py_repr APP_PASSWORD e w s))
       = pdf_extracted s
    /\ pdf_extract_raw (after (interaction py_repr APP_PASSWORD e w s))
       = pdf_extract_raw s
    /\ pdf_hash (after (interaction py_repr APP_PASSWORD e w s)) = pdf_hash s
    /\ (login_clicked w && token_matches APP_PASSWORD (token_input w) = false ->
        after (interaction py_repr APP_PASSWORD e w s) = s
        /\ outcome (interaction py_repr APP_PASSWORD e w s) = Finished Stopped).
Proof.
  intros py_repr APP_PASSWORD e w s A. unfold interaction.
  rewrite (script_run_logged_out py_repr APP_PASSWORD e w s A).
  unfold login_page.
  destruct (login_clicked w); [|cbn; intuition].
  destruct (token_matches APP_PASSWORD (token_input w)); [|cbn; intuition].
  cbn [outcome after shown].
  rewrite (script_run_authenticated py_repr APP_PASSWORD e (released w)
             (with_authenticated s) eq_refl).
  destruct (extracted_panel_frame (released w)
              (with_prompt (with_authenticated s) extraction_prompt))
    as (_ & H1 & H2 & H3 & _ & H5).
  pose proof (extracted_panel_no_card (released w)
                (with_prompt (with_authenticated s) extraction_prompt)) as H6.
  replace (submit_clicked (released w)) with false by reflexivity.
  cbn [after shown outcome].
  rewrite H1, H2, H3, !sites_app, H5.
  repeat split; try reflexivity; try discriminate.
  apply existsb_app_false; [reflexivity|].
  now apply existsb_app_false.
Qed.

(** X15 at a logged-out session with an extraction stored: a wrong token
    is typed, files are attached and Login is clicked. *)
Lemma nothing_runs_before_login_witness :
  sites (shown (interaction repr_unused secret (extraction_up manual_v2)
                  (typed "guess" true true) (with_prompt fresh prompt))) = []
  /\ existsb is_card
       (shown (interaction repr_unused secret (extraction_up manual_v2)
                 (typed "guess" true true) (with_prompt fresh prompt))) = false
  /\ pdf_extracted
       (after (interaction repr_unused secret (extraction_up manual_v2)
                 (typed "guess" true true) (with_prompt fresh prompt)))
     = pdf_extracted (with_prompt fresh prompt)
  /\ pdf_extract_raw
       (after (interaction repr_unused secret (extraction_up manual_v2)
                 (typed "guess" true true) (with_prompt fresh prompt)))
     = pdf_extract_raw (with_prompt fresh prompt)
  /\ pdf_hash
       (after (interaction repr_unused secret (extraction_up manual_v2)
                 (typed "guess" true true) (with_prompt fresh prompt)))
     = pdf_hash (with_prompt fresh prompt)
  /\ (login_clicked (typed "guess" true true)
      && token_matches secret (token_input (typed "guess" true true)) = false ->
      after (interaction repr_unused secret (extraction_up manual_v2)
               (typed "guess" true true) (with_prompt fresh prompt))
      = with_prompt fresh prompt
      /\ outcome (interaction repr_unused secret (extraction_up manual_v2)
                    (typed "guess" true true) (with_prompt fresh prompt))
         = Finished Stopped).
Proof.
  exact (nothing_runs_before_login repr_unused secret (extraction_up manual_v2)
           (typed "guess" true true) (with_prompt fresh prompt) eq_refl).
Defined.

(** The extraction requests of the document step carry the session's
    prompt. *)
Lemma document_step_prompt (e : env) (s : session_state) :
  Forall (fun q => system_instruction q = pdf_system_prompt s)
    (calls Extractor (snd (fst (document_step e s)))).
Proof.
  unfold document_step. destruct (pdf_file e) as [pdf|]; [|constructor].
  pose proof (hash_document_silent pdf Extractor) as HS.
  destruct (hash_document pdf) as [[pdf_bytes digest] warned]. cbn [snd] in HS.
  destruct (extraction_due s digest);
    [|cbn [fst snd]; rewrite calls_app, HS; constructor].
  pose proof (extract_from_pdf_calls e pdf_bytes (pdf_system_prompt s)) as HC.
  destruct (extract_from_pdf e pdf_bytes (pdf_system_prompt s))
    as [called [text|x]]; cbn [fst snd] in *; subst called;
    rewrite !calls_app, HS; destruct (api_key_missing e); cbn [app];
    try (unfold show_extracted_now; destruct (is_dict_or_list _));
    repeat constructor.
Qed.

Lemma submit_prompt (py_repr : pyvalue -> str) (e : env) (s : session_state) :
  Forall (fun q => system_instruction q = pdf_system_prompt s)
    (calls Extractor (trace (submit py_repr e s))).
Proof.
  destruct (image_file e) as [img|] eqn:Hi.
  2:{ unfold submit. rewrite Hi. constructor. }
  destruct (contents img) as [image_bytes|x] eqn:Hc.
  2:{ unfold submit. rewrite Hi, Hc. constructor. }
  rewrite (submit_calls py_repr e s img image_bytes Extractor Hi Hc).
  destruct (analyze_image_calls py_repr e image_bytes (image_mime img)
              (snd (document_step e s))) as [-> _].
  rewrite app_nil_r. apply document_step_prompt.
Qed.

Lemma calls_sites_nil (site : call_site) (tr : list event) :
  sites tr = [] -> calls site tr = [].
Proof.
  induction tr as [|ev tr IH]; [reflexivity|].
  destruct ev; cbn [sites calls]; auto. discriminate.
Qed.

Lemma script_run_prompt (py_repr : pyvalue -> str) (APP_PASSWORD : option str)
    (e : env) (w : widgets) (s : session_state) :
  Forall (fun q => system_instruction q = extraction_prompt)
    (calls Extractor (shown (script_run py_repr APP_PASSWORD e w s))).
Proof.
  destruct (authenticated s) eqn:A.
  - rewrite (script_run_authenticated py_repr APP_PASSWORD e w s A).
    destruct (extracted_panel_frame w (with_prompt s extraction_prompt))
      as (_ & _ & _ & _ & Hp & Hs).
    apply (calls_sites_nil Extractor) in Hs.
    destruct (submit_clicked w); cbn [shown]; rewrite !calls_app, Hs; cbn [app calls].
    + pose proof (submit_prompt py_repr e
                    (fst (extracted_panel w (with_prompt s extraction_prompt)))) as F.
      now rewrite Hp in F.
    + constructor.
  - rewrite (script_run_logged_out py_repr APP_PASSWORD e w s A).
    unfold login_page. destruct (login_clicked w); [|constructor].
    destruct (token_matches APP_PASSWORD (token_input w)); constructor.
Qed.

(** X16: every extraction request carries the long auditor prompt that the
    script writes into the session on each run; the default prompt of the
    initialisation, and whatever prompt the session held before, is never
    sent. *)
Theorem extraction_always_uses_the_long_prompt :
  forall (py_repr : pyvalue -> str) (APP_PASSWORD : option str) (e : env)
         (w : widgets) (s : session_state),
    Forall (fun q => system_instruction q = extraction_prompt)
      (calls Extractor (shown (interaction py_repr APP_PASSWORD e w s)))
    /\ extraction_prompt <> default_prompt.
Proof.
  intros py_repr APP_PASSWORD e w s. split.
  - unfold interaction.
    pose proof (script_run_prompt py_repr APP_PASSWORD e w s) as F1.
    destruct (outcome (script_run py_repr APP_PASSWORD e w s)); [exact F1|].
    cbn [shown]. rewrite calls_app. apply Forall_app. split; [exact F1|].
    apply script_run_prompt.
  - intros H. apply (f_equal (@List.length N)) in H. vm_compute in H. discriminate.
Qed.

Lemma coherent_same_cache (s s' : session_state) :
  pdf_extracted s' = pdf_extracted s -> pdf_extract_raw s' = pdf_extract_raw s ->
  coherent s -> coherent s'.
Proof. unfold coherent. now intros -> ->. Qed.

Lemma script_run_coherent (py_repr : pyvalue -> str) (APP_PASSWORD : option str)
    (e : env) (w : widgets) (s : session_state) :
  coherent s -> coherent (after (script_run py_repr APP_PASSWORD e w s)).
Proof.
  intros C. destruct (authenticated s) eqn:A.
  - rewrite (script_run_authenticated py_repr APP_PASSWORD e w s A).
    destruct (extracted_panel_frame w (with_prompt s extraction_prompt))
      as (_ & H1 & H2 & _).
    assert (C2 : coherent (fst (extracted_panel w (with_prompt s extraction_prompt))))
      by (apply (coherent_same_cache s); assumption).
    destruct (submit_clicked w); cbn [after]; [now apply submit_coherent | exact C2].
  - rewrite (script_run_logged_out py_repr APP_PASSWORD e w s A).
    unfold login_page. destruct (login_clicked w); [|exact C].
    destruct (token_matches APP_PASSWORD (token_input w)); exact C.
Qed.

Lemma session_coherent (py_repr : pyvalue -> str) (APP_PASSWORD : option str)
    (actions : list (env * widgets)) (s : session_state) :
  coherent s -> coherent (session py_repr APP_PASSWORD actions s).
Proof.
  revert s. induction actions as [|[e w] actions IH]; intros s C; [exact C|].
  cbn [session]. apply IH. unfold interaction.
  pose proof (script_run_coherent py_repr APP_PASSWORD e w s C) as C1.
  destruct (outcome (script_run py_repr APP_PASSWORD e w s)); [exact C1|].
  cbn [after]. now apply script_run_coherent.
Qed.

(** X17: in every session reached from a fresh browser session, the panel
    of the cached extraction appears exactly when an extraction is stored,
    also an empty one such as [{}] that the submit treats as missing.  When
    ticked it shows a mapping or list as JSON and anything else as the raw
    answer, which is then always there; the tick is remembered in the
    session. *)
Theorem panel_shows_what_is_cached :
  forall (py_repr : pyvalue -> str) (APP_PASSWORD : option str)
         (actions : list (env * widgets)) (w : widgets),
    let s := session py_repr APP_PASSWORD actions fresh in
    (pdf_extracted s = PyNone -> extracted_panel w s = (s, []))
    /\ (pdf_extracted s <> PyNone ->
        exists raw,
          pdf_extract_raw s = Some raw
          /\ pdf_extracted s = parse_extracted raw
          /\ extracted_panel w s
             = (with_show s (checkbox w s),
                if checkbox w s then
                  [ panel_heading;
                    if is_dict_or_list (pdf_extracted s)
                    then st_json (pdf_extracted s)
                    else st_markdown raw false ]
                else [])).
Proof.
  intros py_repr APP_PASSWORD actions w s.
  assert (C : coherent s) by (apply session_coherent; reflexivity).
  clearbody s. split.
  - intros E. unfold extracted_panel. now rewrite E.
  - intros E. unfold coherent in C.
    destruct (pdf_extract_raw s) as [raw|] eqn:R; [|contradiction].
    destruct C as [C _]. exists raw. split; [reflexivity|]. split; [exact C|].
    unfold extracted_panel, raw_markdown. rewrite R.
    destruct (pdf_extracted s); try reflexivity. now destruct E.
Qed.
